(** * MediChat chat client (static/script.js): model and verified properties

    The script is a set of event handlers attached at page load.  The model
    below follows the handlers one by one:

    - JavaScript strings are sequences of UTF-16 code units ([list N]);
    - the values produced by [JSON.parse] are a tagged union ([value]);
    - the part of the page the script touches is an explicit [state] record
      (children of the chat box, the textarea value, the send button, the two
      closure variables [isProcessing] and [thinkingMessage], the network and
      the console), threaded through every handler;
    - an exception thrown inside a promise callback is a [TypeError] result
      that the [catch] callback receives.

    Layout is not modelled: [style.height], [scrollTop] and [scrollToBottom]
    have no counterpart here. *)

From Stdlib Require Import List NArith Bool String Ascii Lia Arith.
From Stdlib Require Import DecimalNat.
Import ListNotations.

Set Warnings "-register-all".

Local Open Scope N_scope.

(* ================================================================= *)
(** ** JavaScript strings *)

(** A string is a sequence of UTF-16 code units. *)
Definition char := N.
Definition jsstring := list char.

(** An ASCII literal of the source as a [jsstring]. *)
Definition js (s : string) : jsstring :=
  map N_of_ascii (list_ascii_of_string s).

Definition dquote : char := 34.      (* the double quote of attribute values *)
Definition newline : char := 10.
Definition space : char := 32.
Definition star : char := 42.
Definition hyphen : char := 45.
Definition underscore : char := 95.
Definition lt_sign : char := 60.
Definition gt_sign : char := 62.
Definition ampersand : char := 38.
Definition nbsp : char := 160.
Definition bullet : char := 8226.    (* U+2022, the glyph written by addMessage *)
Definition cross_mark : char := 10060. (* U+274C, first character of the apology *)

(** [n] spaces: the indentation inside the template literals. *)
Definition indent (n : nat) : jsstring := repeat space n.

(** ECMAScript LineTerminator: LF, CR, LS, PS.  The regexp atom [.] matches
    every code unit but these, and [^] under the [m] flag matches after one. *)
Definition is_line_terminator (c : char) : bool :=
  (c =? 10) || (c =? 13) || (c =? 8232) || (c =? 8233).

(** ECMAScript WhiteSpace: TAB, VT, FF, SP, NBSP, ZWNBSP and the space
    separators (category Zs). *)
Definition is_white_space (c : char) : bool :=
  (c =? 9) || (c =? 11) || (c =? 12) || (c =? 32) || (c =? 160) ||
  (c =? 65279) || (c =? 5760) || ((8192 <=? c) && (c <=? 8202)) ||
  (c =? 8239) || (c =? 8287) || (c =? 12288).

(** What [String.prototype.trim] strips: WhiteSpace and LineTerminator. *)
Definition is_trimmed (c : char) : bool :=
  is_white_space c || is_line_terminator c.

Fixpoint trim_start (s : jsstring) : jsstring :=
  match s with
  | [] => []
  | c :: tl => if is_trimmed c then trim_start tl else s
  end.

(** [s.trim()] *)
Definition trim (s : jsstring) : jsstring :=
  rev (trim_start (rev (trim_start s))).

(** A string that consists only of white space and line terminators. *)
Definition blank (s : jsstring) : bool := forallb is_trimmed s.

Definition is_empty (s : jsstring) : bool :=
  match s with [] => true | _ => false end.

Fixpoint jsstring_eqb (a b : jsstring) : bool :=
  match a, b with
  | [], [] => true
  | x :: a', y :: b' => (x =? y) && jsstring_eqb a' b'
  | _, _ => false
  end.

(** [s.replace(/_/g, ' ')] *)
Definition replace_underscores (s : jsstring) : jsstring :=
  map (fun c => if c =? underscore then space else c) s.

(** Decimal digits of a natural number, as [Number.prototype.toString]
    prints a non-negative integer (here: an array length). *)
Fixpoint digits_of_uint (d : Decimal.uint) : jsstring :=
  match d with
  | Decimal.Nil => []
  | Decimal.D0 d' => 48 :: digits_of_uint d'
  | Decimal.D1 d' => 49 :: digits_of_uint d'
  | Decimal.D2 d' => 50 :: digits_of_uint d'
  | Decimal.D3 d' => 51 :: digits_of_uint d'
  | Decimal.D4 d' => 52 :: digits_of_uint d'
  | Decimal.D5 d' => 53 :: digits_of_uint d'
  | Decimal.D6 d' => 54 :: digits_of_uint d'
  | Decimal.D7 d' => 55 :: digits_of_uint d'
  | Decimal.D8 d' => 56 :: digits_of_uint d'
  | Decimal.D9 d' => 57 :: digits_of_uint d'
  end.

Definition decimal (n : nat) : jsstring := digits_of_uint (Nat.to_uint n).

(** Reading a digit string back (used to state what the footer shows). *)
Definition digit_value (c : char) : nat := N.to_nat (c - 48).

Definition read_decimal (s : jsstring) : nat :=
  fold_left (fun acc c => (10 * acc + digit_value c)%nat) s 0%nat.

(* ================================================================= *)
(** ** Escaping and the formatting substitutions of [addMessage] *)

(** Serialising a text node ([tempDiv.textContent = text; tempDiv.innerHTML]):
    the HTML fragment serialisation algorithm escapes [&], U+00A0, [<], [>]. *)
Definition escape_char (c : char) : jsstring :=
  if c =? ampersand then js "&amp;"
  else if c =? nbsp then js "&nbsp;"
  else if c =? lt_sign then js "&lt;"
  else if c =? gt_sign then js "&gt;"
  else [c].

Definition escape (s : jsstring) : jsstring := flat_map escape_char s.

(** The remainder of [/\*\*(.*?)\*\*/] after its opening [**]: the lazy
    [.*?] takes as few non-line-terminators as possible before a closing
    [**].  Returns the captured group and the text after the match. *)
Fixpoint lazy_until_stars (s : jsstring) : option (jsstring * jsstring) :=
  match s with
  | a :: tl =>
      match tl with
      | b :: rest =>
          if (a =? star) && (b =? star) then Some ([], rest)
          else if is_line_terminator a then None
          else match lazy_until_stars tl with
               | Some (g, r) => Some (a :: g, r)
               | None => None
               end
      | [] => None
      end
  | [] => None
  end.

(** [/\*\*(.*?)\*\*/] anchored at the head of [s]. *)
Definition match_strong (s : jsstring) : option (jsstring * jsstring) :=
  match s with
  | a :: b :: rest =>
      if (a =? star) && (b =? star) then lazy_until_stars rest else None
  | _ => None
  end.

(** The remainder of [/\*(.*?)\*/] after its opening [*]. *)
Fixpoint lazy_until_star (s : jsstring) : option (jsstring * jsstring) :=
  match s with
  | a :: tl =>
      if a =? star then Some ([], tl)
      else if is_line_terminator a then None
      else match lazy_until_star tl with
           | Some (g, r) => Some (a :: g, r)
           | None => None
           end
  | [] => None
  end.

(** [/\*(.*?)\*/] anchored at the head of [s]. *)
Definition match_em (s : jsstring) : option (jsstring * jsstring) :=
  match s with
  | a :: rest => if a =? star then lazy_until_star rest else None
  | [] => None
  end.

(** [s.replace(re, open + '$1' + close)] for a global regexp [re] given by
    its anchored matcher: scan from the left; at a match, emit the
    replacement and resume after the match; otherwise copy one code unit.
    A match is never empty, so [length s] steps are enough ([fuel]). *)
Fixpoint replace_group_fuel
    (matcher : jsstring -> option (jsstring * jsstring))
    (opening closing : jsstring) (fuel : nat) (s : jsstring) : jsstring :=
  match fuel with
  | O => s
  | S fuel' =>
      match s with
      | [] => []
      | c :: tl =>
          match matcher s with
          | Some (g, rest) =>
              opening ++ g ++ closing ++
              replace_group_fuel matcher opening closing fuel' rest
          | None => c :: replace_group_fuel matcher opening closing fuel' tl
          end
      end
  end.

Definition replace_group matcher opening closing (s : jsstring) : jsstring :=
  replace_group_fuel matcher opening closing (List.length s) s.

(** [.replace(/\*\*(.*?)\*\*/g, '<strong>$1</strong>')] *)
Definition replace_strong : jsstring -> jsstring :=
  replace_group match_strong (js "<strong>") (js "</strong>").

(** [.replace(/\*(.*?)\*/g, '<em>$1</em>')] *)
Definition replace_em : jsstring -> jsstring :=
  replace_group match_em (js "<em>") (js "</em>").

(** [.replace(/^- /gm, '• ')]: [bol] tells whether the current position is
    the start of the input or follows a line terminator. *)
Fixpoint replace_bullets (bol : bool) (s : jsstring) : jsstring :=
  match s with
  | [] => []
  | c :: tl =>
      match tl with
      | d :: rest =>
          if bol && (c =? hyphen) && (d =? space)
          then bullet :: space :: replace_bullets false rest
          else c :: replace_bullets (is_line_terminator c) tl
      | [] => [c]
      end
  end.

(** [.replace(/\n/g, '<br>')] *)
Fixpoint replace_newlines (s : jsstring) : jsstring :=
  match s with
  | [] => []
  | c :: tl =>
      if c =? newline then js "<br>" ++ replace_newlines tl
      else c :: replace_newlines tl
  end.

(** [formattedText] of [addMessage], from [safeText]. *)
Definition format_markdown (safeText : jsstring) : jsstring :=
  replace_newlines (replace_bullets true (replace_em (replace_strong safeText))).


(* ================================================================= *)
(** ** Values received from the server *)

(** What [response.json()] resolves with, plus [undefined] for an absent
    property.  A number is carried as the text [ToString] gives for it: the
    script never computes with a received number, it only prints it.  An
    object is its own properties after parsing, one binding per key. *)
Inductive value : Type :=
| VUndefined
| VNull
| VBool (b : bool)
| VNumber (text : jsstring)
| VString (s : jsstring)
| VArray (items : list value)
| VObject (fields : list (jsstring * value)).

Fixpoint lookup (key : jsstring) (fields : list (jsstring * value)) : option value :=
  match fields with
  | [] => None
  | (k, v) :: tl => if jsstring_eqb k key then Some v else lookup key tl
  end.

(** [v.key] for the keys the script reads from a payload ([mode],
    [response], [symptoms], [disease]; none of them is a built-in property
    of a string, number, boolean or array).  [None] is the [TypeError] of
    reading a property of [null] or [undefined]. *)
Definition field (v : value) (key : string) : option value :=
  match v with
  | VUndefined | VNull => None
  | VObject fields =>
      match lookup (js key) fields with
      | Some x => Some x
      | None => Some VUndefined
      end
  | _ => Some VUndefined
  end.

(** ECMAScript [ToString], as a template literal or a DOMString conversion
    applies it.  [None] is the [TypeError] raised for an object whose own
    [toString] property (a parsed value, hence not callable) shadows
    [Object.prototype.toString].  An array prints as its [join(",")], where
    [null] and [undefined] items print as nothing. *)
Fixpoint to_string (v : value) : option jsstring :=
  match v with
  | VUndefined => Some (js "undefined")
  | VNull => Some (js "null")
  | VBool true => Some (js "true")
  | VBool false => Some (js "false")
  | VNumber text => Some text
  | VString s => Some s
  | VArray items =>
      (fix join (l : list value) : option jsstring :=
         match l with
         | [] => Some []
         | x :: tl =>
             let item := match x with
                         | VUndefined | VNull => Some []
                         | _ => to_string x
                         end in
             match item, join tl with
             | Some a, Some b =>
                 Some (a ++ match tl with [] => b | _ => js "," ++ b end)
             | _, _ => None
             end
         end) items
  | VObject fields =>
      match lookup (js "toString") fields with
      | Some _ => None
      | None => Some (js "[object Object]")
      end
  end.

(** [data.mode === 'medical'] *)
Definition is_medical (mode : value) : bool :=
  match mode with
  | VString s => jsstring_eqb s (js "medical")
  | _ => false
  end.

(* ================================================================= *)
(** ** The document *)

(** A node built by the script: an element made with [createElement]
    (tag, class names, children), a text node made by a [textContent]
    assignment, or the nodes the parser makes of a markup string assigned to
    [innerHTML] (kept as that string). *)
Inductive dom : Type :=
| Element (tag : string) (classes : list string) (children : list dom)
| Text (data : jsstring)
| Markup (html : jsstring).

(** [' class="a b"'], nothing for an element without class. *)
Definition class_attribute (classes : list string) : jsstring :=
  match classes with
  | [] => []
  | c :: tl =>
      js " class=" ++ [dquote] ++
      fold_left (fun acc x => acc ++ [space] ++ js x) tl (js c) ++ [dquote]
  end.

(** [node.outerHTML] *)
Fixpoint serialize (d : dom) : jsstring :=
  match d with
  | Element tag classes children =>
      js "<" ++ js tag ++ class_attribute classes ++ js ">" ++
      (fix inner (l : list dom) : jsstring :=
         match l with
         | [] => []
         | x :: tl => serialize x ++ inner tl
         end) children ++
      js "</" ++ js tag ++ js ">"
  | Text data => escape data
  | Markup html => html
  end.

(** [node.innerHTML] of a node with these children. *)
Definition innerHTML (children : list dom) : jsstring :=
  flat_map serialize children.

Definition classes_of (d : dom) : list string :=
  match d with
  | Element _ classes _ => classes
  | _ => []
  end.

Definition children_of (d : dom) : list dom :=
  match d with
  | Element _ _ children => children
  | _ => []
  end.

Definition has_class (c : string) (d : dom) : bool :=
  existsb (String.eqb c) (classes_of d).

(** The Thinking Placeholder is the node of class [thinking-message]. *)
Definition is_placeholder (d : dom) : bool := has_class "thinking-message" d.

(** [name="value"] inside a markup literal. *)
Definition quoted (s : string) : jsstring := [dquote] ++ js s ++ [dquote].

(** ['<i class="fas fa-..."></i>'] *)
Definition icon_markup (icon : string) : jsstring :=
  js "<i class=" ++ quoted icon ++ js "></i>".

(** The header of bot and medical turns and of the placeholder. *)
Definition message_header (icon title : string) : dom :=
  Element "div" ["message-header"%string]
    [ Element "div" ["message-icon"%string] [Markup (icon_markup icon)];
      Element "div" ["message-title"%string] [Text (js title)] ].

(** Where the page keeps its [.suggestion-bubbles] element, if it has one:
    as a child of the chat box or anywhere else in the document. *)
Inductive place : Type := InChatBox | Elsewhere.

Inductive sender : Type := user | bot | medical.

Definition sender_class (type : sender) : string :=
  match type with
  | user => "user"
  | bot => "bot"
  | medical => "medical"
  end.

(** The body of the POST request: [JSON.stringify({ message: message })]
    sent to [/chat], kept as the message it carries. *)
Record request : Type := mkRequest { message : jsstring }.

Inductive error : Type :=
| NetworkError (reason : jsstring)  (* fetch rejected *)
| ResponseNotOk                    (* Error('Network response was not ok') *)
| JsonError                        (* response.json() rejected *)
| TypeError.                       (* thrown while rendering the payload *)

Inductive body : Type :=
| Unparseable
| Json (data : value).

(** How a dispatched request settles. *)
Inductive outcome : Type :=
| Rejected (reason : jsstring)
| Responded (ok : bool) (b : body).

(** The state the handlers share.  [chatBox] lists the children of
    [#chat-box] other than the suggestion bubbles, each with the identity of
    its node (every node the script appends is an element; a page may have
    text between its elements); [userInput] is the value of the textarea as
    [userInput.value] reads it; [pending] counts the dispatched requests
    that have not settled; [requests] and [console] record what was sent and
    logged. *)
Record state : Type := mkState {
  chatBox : list (nat * dom);
  next_node : nat;
  suggestions : option place;
  userInput : jsstring;
  focused : bool;
  sendBtn_disabled : bool;
  isProcessing : bool;
  thinkingMessage : option nat;
  requests : list request;
  pending : nat;
  console : list error
}.

Definition set_chatBox (c : list (nat * dom)) (n : nat) (st : state) : state :=
  mkState c n (suggestions st) (userInput st) (focused st)
    (sendBtn_disabled st) (isProcessing st) (thinkingMessage st)
    (requests st) (pending st) (console st).

Definition set_suggestions (s : option place) (st : state) : state :=
  mkState (chatBox st) (next_node st) s (userInput st) (focused st)
    (sendBtn_disabled st) (isProcessing st) (thinkingMessage st)
    (requests st) (pending st) (console st).

Definition set_userInput (v : jsstring) (st : state) : state :=
  mkState (chatBox st) (next_node st) (suggestions st) v (focused st)
    (sendBtn_disabled st) (isProcessing st) (thinkingMessage st)
    (requests st) (pending st) (console st).

Definition set_focused (b : bool) (st : state) : state :=
  mkState (chatBox st) (next_node st) (suggestions st) (userInput st) b
    (sendBtn_disabled st) (isProcessing st) (thinkingMessage st)
    (requests st) (pending st) (console st).

Definition set_sendBtn_disabled (b : bool) (st : state) : state :=
  mkState (chatBox st) (next_node st) (suggestions st) (userInput st)
    (focused st) b (isProcessing st) (thinkingMessage st)
    (requests st) (pending st) (console st).

Definition set_isProcessing (b : bool) (st : state) : state :=
  mkState (chatBox st) (next_node st) (suggestions st) (userInput st)
    (focused st) (sendBtn_disabled st) b (thinkingMessage st)
    (requests st) (pending st) (console st).

Definition set_thinkingMessage (t : option nat) (st : state) : state :=
  mkState (chatBox st) (next_node st) (suggestions st) (userInput st)
    (focused st) (sendBtn_disabled st) (isProcessing st) t
    (requests st) (pending st) (console st).

Definition set_network (r : list request) (p : nat) (st : state) : state :=
  mkState (chatBox st) (next_node st) (suggestions st) (userInput st)
    (focused st) (sendBtn_disabled st) (isProcessing st) (thinkingMessage st)
    r p (console st).

Definition set_console (c : list error) (st : state) : state :=
  mkState (chatBox st) (next_node st) (suggestions st) (userInput st)
    (focused st) (sendBtn_disabled st) (isProcessing st) (thinkingMessage st)
    (requests st) (pending st) c.

(** [chatBox.appendChild(node)]: the new node takes a fresh identity. *)
Definition appendChild (d : dom) (st : state) : state :=
  set_chatBox (chatBox st ++ [(next_node st, d)]) (S (next_node st)) st.

(** [node.remove()] for the chat-box child of identity [i]. *)
Definition remove_node (i : nat) (st : state) : state :=
  set_chatBox (filter (fun n => negb (Nat.eqb (fst n) i)) (chatBox st))
    (next_node st) st.

Definition is_element (d : dom) : bool :=
  match d with
  | Element _ _ _ => true
  | _ => false
  end.

(** [chatBox.children.length]: the element children of the chat box, the
    suggestion bubbles among them when they are one.  A text node of the
    page is no child in this sense. *)
Definition children_length (st : state) : nat :=
  (List.length (filter (fun n => is_element (snd n)) (chatBox st)) +
   match suggestions st with Some InChatBox => 1 | _ => 0 end)%nat.

(** How many Thinking Placeholders the view holds. *)
Definition placeholders (st : state) : nat :=
  List.length (filter (fun n => is_placeholder (snd n)) (chatBox st)).

(* ================================================================= *)
(** ** The handlers of script.js *)

(** [hideThinkingIndicator] *)
Definition hideThinkingIndicator (st : state) : state :=
  match thinkingMessage st with
  | Some i => set_thinkingMessage None (remove_node i st)
  | None => st
  end.

Definition thinking_dot : dom := Element "span" ["thinking-dot"%string] [].

(** The node [showThinkingIndicator] builds. *)
Definition thinking_node : dom :=
  Element "div" ["message"; "bot"; "thinking-message"]%string
    [ message_header "fas fa-user-md" "MediChat Assistant";
      Element "div" ["thinking"%string]
        [ Element "div" ["thinking-dots"%string]
            [thinking_dot; thinking_dot; thinking_dot] ] ].

(** [showThinkingIndicator]: evict the live placeholder, if any, then
    append a new one and remember it. *)
Definition showThinkingIndicator (st : state) : state :=
  let st1 :=
    match thinkingMessage st with
    | Some i => set_thinkingMessage None (remove_node i st)
    | None => st
    end in
  set_thinkingMessage (Some (next_node st1)) (appendChild thinking_node st1).

(** [tempDiv.textContent = text]: the conversion to a nullable DOMString
    maps [null] and [undefined] to the empty text and applies [ToString] to
    anything else ([None]: that conversion throws). *)
Definition textContent_of (text : value) : option jsstring :=
  match text with
  | VUndefined | VNull => Some []
  | _ => to_string text
  end.

(** The children of [msgDiv] when [addMessage] appends it: for a medical
    type only the header; otherwise [msgDiv.innerHTML += formattedText],
    which re-parses the serialised header followed by the formatted text. *)
Definition message_children (text : value) (type : sender) : option (list dom) :=
  let header :=
    match type with
    | user => []
    | _ => [message_header "fas fa-user-md" "MediChat Assistant"]
    end in
  match type with
  | medical => Some header
  | _ =>
      match textContent_of text with
      | Some t =>
          let safeText := escape t in
          let formattedText := format_markdown safeText in
          Some [Markup (innerHTML header ++ formattedText)]
      | None => None
      end
  end.

(** [addMessage(text, type)]; [None] when the conversion of [text] throws,
    which happens before anything is appended. *)
Definition addMessage (text : value) (type : sender) (st : state) : option state :=
  match message_children text type with
  | None => None
  | Some children =>
      let msgDiv := Element "div" ["message"%string; sender_class type] children in
      let st1 := appendChild msgDiv st in
      Some match suggestions st1 with
           | Some _ =>
               if (1 <? children_length st1)%nat then set_suggestions None st1
               else st1
           | None => st1
           end
  end.

(** One chip: [`<span class="symptom-tag">${symptom.replace(/_/g, ' ')}</span>`] *)
Definition symptom_tag (symptom : jsstring) : jsstring :=
  js "<span class=" ++ quoted "symptom-tag" ++ js ">" ++
  replace_underscores symptom ++ js "</span>".

(** [data.symptoms.map(symptom => ...).join('')] on the items of an array:
    [symptom.replace] throws on an item that is not a string. *)
Fixpoint symptom_tags (items : list value) : option jsstring :=
  match items with
  | [] => Some []
  | VString symptom :: tl =>
      match symptom_tags tl with
      | Some chips => Some (symptom_tag symptom ++ chips)
      | None => None
      end
  | _ :: _ => None
  end.

Definition symptoms_markup (chips : jsstring) : jsstring :=
  [newline] ++ indent 20 ++ js "<strong>Reported symptoms:</strong>" ++
  [newline] ++ indent 20 ++ js "<div class=" ++ quoted "symptom-list" ++ js ">" ++
  [newline] ++ indent 24 ++ chips ++
  [newline] ++ indent 20 ++ js "</div>" ++
  [newline] ++ indent 16.

Definition condition_markup (disease : jsstring) : jsstring :=
  [newline] ++ indent 20 ++ js "<strong>Possible condition:</strong> " ++ disease ++
  [newline] ++ indent 16.

Definition disclaimer_markup : jsstring :=
  [newline] ++ indent 20 ++
  js "<strong>Important:</strong> This is not a medical diagnosis. " ++
  [newline] ++ indent 20 ++
  js "Consult a healthcare professional for accurate assessment." ++
  [newline] ++ indent 16.

Definition footer_markup (count : nat) : jsstring :=
  [newline] ++ indent 20 ++ js "<span>AI-Powered Analysis</span>" ++
  [newline] ++ indent 20 ++ js "<div class=" ++ quoted "response-source" ++ js ">" ++
  [newline] ++ indent 24 ++ icon_markup "fas fa-database" ++
    js " Medical Knowledge Base" ++
  [newline] ++ indent 20 ++ js "</div>" ++
  [newline] ++ indent 20 ++ js "<div class=" ++ quoted "chat-stats" ++ js ">" ++
  [newline] ++ indent 24 ++ js "<span class=" ++ quoted "stat-item" ++ js ">" ++
    icon_markup "fas fa-symptom" ++ js " " ++ decimal count ++
    js " symptoms</span>" ++
  [newline] ++ indent 20 ++ js "</div>" ++
  [newline] ++ indent 16.

(** The node [addMedicalResponse] builds from the chips, the printed
    disease and the number of symptoms. *)
Definition medical_node (chips disease : jsstring) (count : nat) : dom :=
  Element "div" ["message"; "medical"]%string
    [ message_header "fas fa-stethoscope" "Symptom Analysis";
      Element "div" ["medical-category"%string]
        [Markup (icon_markup "fas fa-diagnoses" ++ js " Medical Assessment")];
      Element "div" [] [Markup (symptoms_markup chips)];
      Element "div" ["medical-content"%string] [Markup (condition_markup disease)];
      Element "div" ["medical-disclaimer"%string] [Markup disclaimer_markup];
      Element "div" ["response-footer"%string] [Markup (footer_markup count)] ].

(** [addMedicalResponse(data)].  [None] is a [TypeError]: [data.symptoms]
    has no callable [map] unless it is an array, an item has no callable
    [replace] unless it is a string, and printing [data.disease] may throw.
    All of these happen before [chatBox.appendChild].

    The turn holds the markup as the strings assigned to [innerHTML].  When
    a symptom or the disease holds a tag of its own, the elements the parser
    makes of it (among them, possibly, elements of class
    [suggestion-bubbles] that a later [querySelector] finds) are not part of
    this model: what is stated below about the suggestion bubbles and about
    the chips shown is stated for payloads without such tags
    ([tagless_medical], [literal]). *)
Definition addMedicalResponse (data : value) (st : state) : option state :=
  match field data "symptoms" with
  | Some (VArray items) =>
      match symptom_tags items with
      | Some chips =>
          match field data "disease" with
          | Some disease =>
              match to_string disease with
              | Some printed =>
                  Some (appendChild
                          (medical_node chips printed (List.length items)) st)
              | None => None
              end
          | None => None
          end
      | None => None
      end
  | _ => None
  end.

(** The text of the fallback bot turn. *)
Definition apology : jsstring :=
  [cross_mark] ++
  js " Oops! I couldn't process your request. Please check your internet connection and try again.".

(** The end of both promise callbacks: reset the processing state. *)
Definition reset_processing (st : state) : state :=
  set_focused true (set_sendBtn_disabled false (set_isProcessing false st)).

(** The [.then(data => ...)] callback.  The state it returns holds the
    effects that took place before a throw; the error, if any, is what the
    [catch] callback receives. *)
Definition on_data (data : value) (st : state) : state * option error :=
  let st1 := hideThinkingIndicator st in
  match field data "mode" with
  | None => (st1, Some TypeError)
  | Some mode =>
      let rendered :=
        if is_medical mode then addMedicalResponse data st1
        else match field data "response" with
             | Some text => addMessage text bot st1
             | None => None
             end in
      match rendered with
      | Some st2 => (reset_processing st2, None)
      | None => (st1, Some TypeError)
      end
  end.

(** The [.catch(error => ...)] callback. *)
Definition on_error (e : error) (st : state) : state :=
  let st1 := hideThinkingIndicator st in
  match addMessage (VString apology) bot st1 with
  | Some st2 => reset_processing (set_console (console st2 ++ [e]) st2)
  | None => st1
  end.

(** The promise chain of [sendMessage] run on the outcome of the request. *)
Definition settle (o : outcome) (st : state) : state :=
  match o with
  | Rejected reason => on_error (NetworkError reason) st
  | Responded false _ => on_error ResponseNotOk st
  | Responded true Unparseable => on_error JsonError st
  | Responded true (Json data) =>
      match on_data data st with
      | (st1, None) => st1
      | (st1, Some e) => on_error e st1
      end
  end.

(** [sendMessage] up to and including the [fetch] call. *)
Definition sendMessage (st : state) : state :=
  let message := trim (userInput st) in
  if is_empty message || isProcessing st then st
  else
    let st1 := set_sendBtn_disabled true (set_isProcessing true st) in
    match addMessage (VString message) user st1 with
    | None => st1
    | Some st2 =>
        let st3 := set_userInput [] st2 in
        let st4 := showThinkingIndicator st3 in
        set_network (requests st4 ++ [mkRequest message]) (S (pending st4)) st4
    end.

(** The [input] listener of the textarea, run once its value is [v]. *)
Definition on_input (v : jsstring) (st : state) : state :=
  set_sendBtn_disabled (is_empty (trim v)) (set_userInput v st).

(** What [userInput.value] reads after [userInput.value = text]: the value
    of a textarea with its newlines normalised, every CR LF pair and every
    other CR turned into LF. *)
Fixpoint normalize_newlines (s : jsstring) : jsstring :=
  match s with
  | [] => []
  | c :: tl =>
      if c =? 13
      then newline :: match tl with
                      | d :: rest =>
                          if d =? 10 then normalize_newlines rest
                          else normalize_newlines tl
                      | [] => []
                      end
      else c :: normalize_newlines tl
  end.

(** [useSuggestion(text)]: [sendMessage] reads the text back from the
    textarea. *)
Definition useSuggestion (text : jsstring) (st : state) : state :=
  sendMessage
    (set_focused true
       (set_sendBtn_disabled false
          (set_userInput (normalize_newlines text) st))).

(** What can happen to the page: the textarea takes the value [v] (as
    [this.value] reads it) and fires [input]; the send button is clicked (a
    disabled button dispatches no event); a key is pressed in the textarea
    (only Enter without Shift sends); a suggestion calls [useSuggestion];
    the input gets the focus (a click on the chat container, or the timer
    set at load); the pending request settles. *)
Inductive event : Type :=
| Input (v : jsstring)
| ClickSend
| KeyPress (enter shift : bool)
| Suggestion (text : jsstring)
| ClickContainer
| Settle (o : outcome).

Definition step (st : state) (ev : event) : state :=
  match ev with
  | Input v => on_input v st
  | ClickSend => if sendBtn_disabled st then st else sendMessage st
  | KeyPress enter shift => if enter && negb shift then sendMessage st else st
  | Suggestion text => useSuggestion text st
  | ClickContainer => set_focused true st
  | Settle o =>
      match pending st with
      | O => st
      | S p => settle o (set_network (requests st) p st)
      end
  end.

Definition run (evs : list event) (st : state) : state := fold_left step evs st.

(** The page the script is loaded in.  The HTML is not among the sources:
    the children of [#chat-box], the place of the suggestion bubbles, the
    initial state of the send button and the initial text are parameters.
    A page holds at most one [.suggestion-bubbles] element, and
    [page_children] lists the other children of the chat box. *)
Record page : Type := mkPage {
  page_children : list dom;
  page_suggestions : option place;
  page_send_disabled : bool;
  page_input : jsstring
}.

Fixpoint number_from (n : nat) (l : list dom) : list (nat * dom) :=
  match l with
  | [] => []
  | d :: tl => (n, d) :: number_from (S n) tl
  end.

(** The state when [DOMContentLoaded] has run the script. *)
Definition init (p : page) : state :=
  mkState (number_from 0 (page_children p)) (List.length (page_children p))
    (page_suggestions p) (page_input p) false (page_send_disabled p)
    false None [] 0 [].

Definition node_ids (st : state) : list nat := map fst (chatBox st).

(** The identities of the placeholders in the view. *)
Definition placeholder_ids (st : state) : list nat :=
  map fst (filter (fun n => is_placeholder (snd n)) (chatBox st)).

Definition tracked (st : state) : list nat :=
  match thinkingMessage st with
  | Some i => [i]
  | None => []
  end.

Definition no_placeholder (p : page) : Prop :=
  forallb (fun d => negb (is_placeholder d)) (page_children p) = true.

(** A small page: a welcome bubble in the chat box, suggestion bubbles
    beside it, an empty textarea. *)
Definition welcome_page : page :=
  mkPage [Element "div" ["message"; "bot"]%string [Text (js "Hello")]]
    (Some InChatBox) true [].

(** A page whose chat box starts empty, with the bubbles outside it. *)
Definition bare_page : page := mkPage [] (Some Elsewhere) true [].

Definition medical_payload : value :=
  VObject [ (js "mode", VString (js "medical"));
            (js "symptoms", VArray [VString (js "chest_pain"); VString (js "fever")]);
            (js "disease", VString (js "Flu")) ].

(* ================================================================= *)
(** ** Notions the statements use *)

(** The markup [addMessage] itself writes into a formatted text. *)
Definition formatting_tags : list jsstring :=
  [js "<strong>"; js "</strong>"; js "<em>"; js "</em>"; js "<br>"].

(** The character references the serialisation of a text node writes. *)
Definition character_references : list jsstring :=
  [js "&amp;"; js "&nbsp;"; js "&lt;"; js "&gt;"].

Definition tokens : list jsstring := formatting_tags ++ character_references.

(** A markup string in which every [<], [>] and [&] belongs to one of the
    five formatting tags or four character references above: whatever else
    it holds is inert text for the HTML parser. *)
Inductive safe_markup : jsstring -> Prop :=
| safe_end : safe_markup []
| safe_text (c : char) (s : jsstring) :
    c <> lt_sign -> c <> gt_sign -> c <> ampersand ->
    safe_markup s -> safe_markup (c :: s)
| safe_token (t s : jsstring) :
    In t tokens -> safe_markup s -> safe_markup (t ++ s).

(** A code unit that occurs in no tag and no character reference. *)
Definition separator (c : char) : bool :=
  forallb (fun t => negb (existsb (N.eqb c) t)) tokens.

(** A code unit none of the steps of [addMessage] treats specially. *)
Definition ordinary (c : char) : bool :=
  negb (is_line_terminator c) && negb (c =? star) && negb (c =? hyphen) &&
  negb (c =? ampersand) && negb (c =? nbsp) && negb (c =? lt_sign) &&
  negb (c =? gt_sign).

(** A text the atom [.] can cross and that holds no star. *)
Definition starless (g : jsstring) : bool :=
  forallb (fun c => negb (c =? star) && negb (is_line_terminator c)) g.

(** Whether two stars stand side by side somewhere in [s]. *)
Fixpoint has_double_star (s : jsstring) : bool :=
  match s with
  | a :: tl =>
      match tl with
      | b :: _ => (a =? star) && (b =? star) || has_double_star tl
      | [] => false
      end
  | [] => false
  end.

(** [formattedText] for a received text. *)
Definition render_text (text : jsstring) : jsstring :=
  format_markdown (escape text).

(** The fallback bot turn. *)
Definition apology_node : dom :=
  Element "div" ["message"; "bot"]%string
    [Markup (innerHTML [message_header "fas fa-user-md" "MediChat Assistant"]
             ++ apology)].

(** The error a failed request hands to the [catch] callback. *)
Definition failure_of (o : outcome) : option error :=
  match o with
  | Rejected reason => Some (NetworkError reason)
  | Responded false _ => Some ResponseNotOk
  | Responded true Unparseable => Some JsonError
  | Responded true (Json _) => None
  end.

(** The events that call [sendMessage]. *)
Definition send_attempt (ev : event) : bool :=
  match ev with
  | ClickSend | KeyPress _ _ | Suggestion _ => true
  | _ => false
  end.

(** The view is tidy when node identities are fresh and distinct and
    [thinkingMessage] refers to the one placeholder the view holds. *)
Record tidy (st : state) : Prop := mkTidy {
  ids_fresh : Forall (fun i => (i < next_node st)%nat) (node_ids st);
  ids_distinct : NoDup (node_ids st);
  placeholder_tracked : placeholder_ids st = tracked st
}.

(** A request is pending exactly while [isProcessing] is set. *)
Definition flag_matches (st : state) : Prop :=
  pending st = if isProcessing st then 1%nat else 0%nat.

(** What holds of every state the handlers can produce. *)
Definition consistent (st : state) : Prop := tidy st /\ flag_matches st.

(** [needle] occurs in [hay]. *)
Definition occurs (needle hay : jsstring) : Prop :=
  exists before after, hay = before ++ needle ++ after.

(** The chat box without its placeholders. *)
Definition turns (st : state) : list (nat * dom) :=
  filter (fun n => negb (is_placeholder (snd n))) (chatBox st).

(** A string that opens no tag when it is parsed as markup. *)
Definition tagless (s : jsstring) : bool :=
  negb (existsb (N.eqb lt_sign) s).

(** A string the parser shows as it stands: no tag, no character reference,
    and none of the code units the tokenizer rewrites or drops (CR, NUL). *)
Definition literal (s : jsstring) : bool :=
  forallb (fun c => negb (c =? lt_sign) && negb (c =? ampersand) &&
                    negb (c =? 13) && negb (c =? 0)) s.

(** A payload whose symptoms and printed disease open no tag: the medical
    turn made of it holds the elements of the templates and no other.  (A
    payload that [addMedicalResponse] does not render inserts nothing.) *)
Definition tagless_medical (data : value) : bool :=
  match field data "symptoms", field data "disease" with
  | Some (VArray items), Some disease =>
      forallb (fun v => match v with VString s => tagless s | _ => true end)
        items &&
      match to_string disease with
      | Some printed => tagless printed
      | None => true
      end
  | _, _ => true
  end.

(** An event that brings no element of foreign making into the document:
    any event but the settling of a medical reply that is not tagless. *)
Definition quiet (ev : event) : bool :=
  match ev with
  | Settle (Responded true (Json data)) =>
      match field data "mode" with
      | Some mode => if is_medical mode then tagless_medical data else true
      | None => true
      end
  | _ => true
  end.

(** Reading a symptom list back.  [strip_prefix pre s] is what follows [pre]
    in [s]; [text_run s] is the text up to the next [<] and what follows. *)
Fixpoint strip_prefix (pre s : jsstring) : option jsstring :=
  match pre, s with
  | [], _ => Some s
  | a :: pre', b :: s' => if a =? b then strip_prefix pre' s' else None
  | _ :: _, [] => None
  end.

Fixpoint text_run (s : jsstring) : jsstring * jsstring :=
  match s with
  | [] => ([], [])
  | c :: tl =>
      if c =? lt_sign then ([], s)
      else let (t, r) := text_run tl in (c :: t, r)
  end.

Definition chip_open : jsstring :=
  js "<span class=" ++ quoted "symptom-tag" ++ js ">".

Definition chip_close : jsstring := js "</span>".

(** The chips a markup shows when it is a run of
    [<span class="symptom-tag">text</span>] whose texts hold no [<]: one
    span element for each, with the text between the tags ([None] for any
    other markup).  This is what the parser makes of such a run; the text is
    the one displayed when it is [literal]. *)
Fixpoint chip_texts_fuel (fuel : nat) (s : jsstring) : option (list jsstring) :=
  match s with
  | [] => Some []
  | _ :: _ =>
      match fuel with
      | O => None
      | S fuel' =>
          match strip_prefix chip_open s with
          | None => None
          | Some body =>
              let (t, r) := text_run body in
              match strip_prefix chip_close r with
              | None => None
              | Some rest =>
                  match chip_texts_fuel fuel' rest with
                  | Some chips => Some (t :: chips)
                  | None => None
                  end
              end
          end
      end
  end.

Definition chip_texts (s : jsstring) : option (list jsstring) :=
  chip_texts_fuel (List.length s) s.

(** The identity and the classes of each node of a list: what a list of
    turns is, whatever the turns hold. *)
Definition outline (l : list (nat * dom)) : list (nat * list string) :=
  map (fun n => (fst n, classes_of (snd n))) l.

(** A symptom that closes its chip and opens another, and a medical payload
    that holds it. *)
Definition split_symptom : jsstring :=
  js "a</span><span class=" ++ quoted "symptom-tag" ++ js ">b".

Definition split_chip_payload : value :=
  VObject [ (js "mode", VString (js "medical"));
            (js "symptoms", VArray [VString split_symptom]);
            (js "disease", VString (js "Flu")) ].

(** What the symptoms section holds before and after the chips: the label
    and the opening of the [symptom-list] element, and its closing. *)
Definition symptom_list_open : jsstring :=
  [newline] ++ indent 20 ++ js "<strong>Reported symptoms:</strong>" ++
  [newline] ++ indent 20 ++ js "<div class=" ++ quoted "symptom-list" ++ js ">" ++
  [newline] ++ indent 24.

Definition symptom_list_close : jsstring :=
  [newline] ++ indent 20 ++ js "</div>" ++ [newline] ++ indent 16.

(** What the condition line holds before the disease. *)
Definition condition_label : jsstring :=
  [newline] ++ indent 20 ++ js "<strong>Possible condition:</strong> ".

(** Whether [s] is empty or starts with a code unit [trim] keeps. *)
Definition starts_visible (s : jsstring) : bool :=
  match s with
  | [] => true
  | c :: _ => negb (is_trimmed c)
  end.

(** A text on one line that holds no star and none of the characters the
    serialisation escapes. *)
Definition plain_line (s : jsstring) : bool :=
  forallb (fun c => negb (is_line_terminator c) && negb (c =? star) &&
                    negb (c =? ampersand) && negb (c =? nbsp) &&
                    negb (c =? lt_sign) && negb (c =? gt_sign)) s.

(** Whether [s] starts with the list marker [- ]. *)
Definition opens_item (s : jsstring) : bool :=
  match s with
  | a :: b :: _ => (a =? hyphen) && (b =? space)
  | _ => false
  end.

(** The turn [addMessage] builds for a user message and for a plain reply. *)
Definition user_node (s : jsstring) : dom :=
  Element "div" ["message"; "user"]%string [Markup (render_text s)].

Definition bot_node (s : jsstring) : dom :=
  Element "div" ["message"; "bot"]%string
    [Markup (innerHTML [message_header "fas fa-user-md" "MediChat Assistant"]
             ++ render_text s)].

(* ================================================================= *)
(** * Properties *)

(* ----------------------------------------------------------------- *)
(** ** Strings: trimming, underscores, decimal printing *)

Section Strings.

Lemma trim_start_blank (s : jsstring) :
  blank s = true -> trim_start s = [].
Proof.
  induction s as [|c tl IH]; simpl; [reflexivity|].
  intros H. apply andb_true_iff in H as [Hc Htl].
  rewrite Hc. auto.
Qed.

Lemma trim_start_empty_blank (s : jsstring) :
  trim_start s = [] -> blank s = true.
Proof.
  induction s as [|c tl IH]; simpl; [reflexivity|].
  destruct (is_trimmed c); [auto | discriminate].
Qed.

Lemma blank_app (a b : jsstring) :
  blank (a ++ b) = blank a && blank b.
Proof. apply forallb_app. Qed.

Lemma blank_rev (s : jsstring) : blank (rev s) = blank s.
Proof.
  induction s as [|c tl IH]; simpl; [reflexivity|].
  rewrite blank_app, IH. simpl. rewrite andb_true_r. apply andb_comm.
Qed.

(** What is left of a string once its leading blanks are gone is empty or
    starts with a visible code unit. *)
Lemma trim_start_head (s : jsstring) :
  trim_start s = [] \/
  exists c tl, trim_start s = c :: tl /\ is_trimmed c = false.
Proof.
  induction s as [|c tl IH]; simpl; [now left|].
  destruct (is_trimmed c) eqn:E; [exact IH|].
  right. now exists c, tl.
Qed.

(** [trim] leaves nothing exactly of the strings made of white space and
    line terminators. *)
Lemma trim_empty_iff (s : jsstring) :
  trim s = [] <-> blank s = true.
Proof.
  unfold trim. split.
  - intros H.
    assert (Hr : trim_start (rev (trim_start s)) = []).
    { destruct (trim_start (rev (trim_start s))) as [|x l]; [reflexivity|].
      simpl in H. destruct (rev l); discriminate. }
    apply trim_start_empty_blank in Hr. rewrite blank_rev in Hr.
    destruct (trim_start_head s) as [E | (c & tl & E & Hc)].
    + now apply trim_start_empty_blank.
    + rewrite E in Hr. simpl in Hr. rewrite Hc in Hr. discriminate.
  - intros H. rewrite (trim_start_blank s H). reflexivity.
Qed.

Lemma is_empty_true (s : jsstring) : is_empty s = true <-> s = [].
Proof. destruct s; simpl; split; congruence. Qed.

Lemma replace_underscores_length (s : jsstring) :
  List.length (replace_underscores s) = List.length s.
Proof. apply length_map. Qed.

Lemma replace_underscores_clean (s : jsstring) :
  ~ In underscore (replace_underscores s).
Proof.
  unfold replace_underscores. rewrite in_map_iff.
  intros (c & Hc & _). destruct (N.eqb_spec c underscore) as [E | E].
  - discriminate.
  - congruence.
Qed.

Lemma replace_underscores_nth (s : jsstring) (i : nat) :
  nth i (replace_underscores s) 0 =
  if nth i s 0 =? underscore then space else nth i s 0.
Proof.
  unfold replace_underscores.
  change 0 with ((fun c => if c =? underscore then space else c) 0) at 1.
  apply map_nth.
Qed.

Lemma jsstring_eqb_eq (a b : jsstring) : jsstring_eqb a b = true <-> a = b.
Proof.
  revert b. induction a as [|x a IH]; destruct b as [|y b]; simpl;
    try (split; congruence).
  rewrite andb_true_iff, N.eqb_eq, IH. split.
  - intros [-> ->]. reflexivity.
  - intros E. injection E. auto.
Qed.

End Strings.

Section Decimal.

Lemma read_digits (d : Decimal.uint) (acc : nat) :
  fold_left (fun a c => (10 * a + digit_value c)%nat) (digits_of_uint d) acc =
  Nat.of_uint_acc d acc.
Proof.
  revert acc.
  induction d as [|d IH|d IH|d IH|d IH|d IH|d IH|d IH|d IH|d IH|d IH];
    intros acc; simpl; [reflexivity | rewrite IH; f_equal ..];
    rewrite ?Nat.tail_mul_spec; unfold digit_value; simpl; lia.
Qed.

(** The digits printed for a count read back as that count. *)
Lemma read_decimal_decimal (n : nat) : read_decimal (decimal n) = n.
Proof.
  unfold read_decimal, decimal. rewrite read_digits.
  apply DecimalNat.Unsigned.of_to.
Qed.

End Decimal.

(* ----------------------------------------------------------------- *)
(** ** The formatted text is inert but for the tags of [addMessage] *)

Section SafeMarkup.

Lemma safe_markup_app (a b : jsstring) :
  safe_markup a -> safe_markup b -> safe_markup (a ++ b).
Proof.
  intros Ha Hb. induction Ha as [|c s H1 H2 H3 _ IH|t s Ht _ IH]; simpl.
  - exact Hb.
  - now apply safe_text.
  - rewrite <- app_assoc. now apply safe_token.
Qed.

Lemma safe_markup_token (t : jsstring) : In t tokens -> safe_markup t.
Proof.
  intros Ht. rewrite <- (app_nil_r t). apply safe_token; [exact Ht | constructor].
Qed.

Lemma separator_not_in (c : char) (t : jsstring) :
  separator c = true -> In t tokens -> ~ In c t.
Proof.
  unfold separator. rewrite forallb_forall. intros H Ht Hc.
  specialize (H t Ht). apply negb_true_iff in H.
  assert (E : existsb (N.eqb c) t = true).
  { apply existsb_exists. exists c. split; [exact Hc | apply N.eqb_refl]. }
  congruence.
Qed.

Lemma separator_text (c : char) :
  separator c = true -> c <> lt_sign /\ c <> gt_sign /\ c <> ampersand.
Proof.
  intros H. repeat split; intros ->; vm_compute in H; discriminate.
Qed.

(** A token that starts where a string [a ++ c :: b] starts, with [c]
    foreign to the token, lies inside [a]. *)
Lemma token_before (c : char) (t s a b : jsstring) :
  ~ In c t -> t ++ s = a ++ c :: b ->
  exists a', a = t ++ a' /\ s = a' ++ c :: b.
Proof.
  revert a. induction t as [|x t IH]; intros a Hc E; simpl in *.
  - now exists a.
  - destruct a as [|y a]; simpl in E; injection E as Hx E.
    + exfalso. apply Hc. now left.
    + subst y. destruct (IH a) as (a' & -> & ->); [tauto | exact E |].
      now exists a'.
Qed.

(** Cutting a safe markup at a separator leaves two safe markups. *)
Lemma safe_markup_cut (c : char) (a b : jsstring) :
  separator c = true ->
  safe_markup (a ++ c :: b) -> safe_markup a /\ safe_markup b.
Proof.
  intros Hc H. remember (a ++ c :: b) as s eqn:E. revert a E.
  induction H as [|x s H1 H2 H3 Hs IH|t s Ht Hs IH]; intros a E.
  - destruct a; discriminate.
  - destruct a as [|y a]; simpl in E; injection E as -> ->.
    + split; [constructor | exact Hs].
    + destruct (IH a eq_refl) as [Ha Hb]. split; [now apply safe_text | exact Hb].
  - destruct (token_before c t s a b) as (a' & -> & Es);
      [now apply separator_not_in | exact E |].
    destruct (IH a' Es) as [Ha Hb]. split; [now apply safe_token | exact Hb].
Qed.

Lemma escape_char_safe (c : char) : safe_markup (escape_char c).
Proof.
  unfold escape_char.
  destruct (N.eqb_spec c ampersand);
    [apply safe_markup_token; vm_compute; tauto|].
  destruct (N.eqb_spec c nbsp);
    [apply safe_markup_token; vm_compute; tauto|].
  destruct (N.eqb_spec c lt_sign);
    [apply safe_markup_token; vm_compute; tauto|].
  destruct (N.eqb_spec c gt_sign);
    [apply safe_markup_token; vm_compute; tauto|].
  apply safe_text; auto. constructor.
Qed.

(** [safeText]: the serialisation of a text node is safe, whatever the text. *)
Lemma escape_safe (s : jsstring) : safe_markup (escape s).
Proof.
  induction s as [|c tl IH]; simpl; [constructor|].
  apply safe_markup_app; [apply escape_char_safe | exact IH].
Qed.

Lemma escape_no_angle (s : jsstring) :
  ~ In lt_sign (escape s) /\ ~ In gt_sign (escape s).
Proof.
  unfold escape. split; intros H; apply in_flat_map in H as (c & _ & H);
    unfold escape_char in H;
    repeat match type of H with
           | In _ (if ?b then _ else _) => destruct b eqn:?
           end;
    simpl in H; try (intuition discriminate);
    destruct H as [-> | []]; discriminate.
Qed.

End SafeMarkup.

(* ----------------------------------------------------------------- *)
(** ** The two lazy regular expressions *)

Section Matchers.

Lemma lazy_until_star_sound (s g r : jsstring) :
  lazy_until_star s = Some (g, r) -> s = g ++ star :: r /\ starless g = true.
Proof.
  revert g. induction s as [|a tl IH]; intros g; simpl; [discriminate|].
  destruct (N.eqb_spec a star) as [-> | Ha].
  - intros E. injection E as <- <-. now split.
  - destruct (is_line_terminator a) eqn:Hl; [discriminate|].
    destruct (lazy_until_star tl) as [[g' r']|]; [|discriminate].
    intros E. injection E as <- <-.
    destruct (IH g' eq_refl) as [-> Hg]. split; [reflexivity|].
    simpl. rewrite Hg, Hl. apply N.eqb_neq in Ha. now rewrite Ha.
Qed.

Lemma lazy_until_star_complete (g r : jsstring) :
  starless g = true -> lazy_until_star (g ++ star :: r) = Some (g, r).
Proof.
  induction g as [|a g IH]; simpl; [reflexivity|].
  intros H. apply andb_true_iff in H as [Ha Hg].
  apply andb_true_iff in Ha as [Hs Hl].
  apply negb_true_iff in Hs, Hl. rewrite Hs, Hl, (IH Hg). reflexivity.
Qed.

Lemma lazy_until_stars_sound (s g r : jsstring) :
  lazy_until_stars s = Some (g, r) -> s = g ++ star :: star :: r.
Proof.
  revert g. induction s as [|a tl IH]; intros g; simpl; [discriminate|].
  destruct tl as [|b rest]; [discriminate|].
  destruct ((a =? star) && (b =? star)) eqn:E.
  - apply andb_true_iff in E as [Ea Eb].
    apply N.eqb_eq in Ea, Eb. subst. intros E. now injection E as <- <-.
  - destruct (is_line_terminator a); [discriminate|].
    destruct (lazy_until_stars (b :: rest)) as [[g' r']|]; [|discriminate].
    intros E'. injection E' as <- <-. now rewrite (IH g' eq_refl).
Qed.

Lemma lazy_until_stars_complete (g r : jsstring) :
  starless g = true -> lazy_until_stars (g ++ star :: star :: r) = Some (g, r).
Proof.
  induction g as [|a g IH]; [reflexivity|].
  intros H. simpl in H. apply andb_true_iff in H as [Ha Hg].
  apply andb_true_iff in Ha as [Hs Hl]. apply negb_true_iff in Hs, Hl.
  change ((a :: g) ++ star :: star :: r) with (a :: (g ++ star :: star :: r)).
  cbn [lazy_until_stars]. rewrite (IH Hg).
  destruct (g ++ star :: star :: r) eqn:E; [destruct g; discriminate|].
  now rewrite Hs, Hl.
Qed.

(** A match of [/\*(.*?)\*/] is [*], the group, [*]. *)
Lemma match_em_sound (s g r : jsstring) :
  match_em s = Some (g, r) -> s = star :: g ++ star :: r.
Proof.
  destruct s as [|a rest]; simpl; [discriminate|].
  destruct (N.eqb_spec a star) as [-> | _]; [|discriminate].
  intros H. apply lazy_until_star_sound in H as [-> _]. reflexivity.
Qed.

(** A match of [/\*\*(.*?)\*\*/] is [**], the group, [**]. *)
Lemma match_strong_sound (s g r : jsstring) :
  match_strong s = Some (g, r) -> s = star :: star :: g ++ star :: star :: r.
Proof.
  destruct s as [|a [|b rest]]; simpl; try discriminate.
  destruct (N.eqb_spec a star) as [-> | _]; [|discriminate].
  destruct (N.eqb_spec b star) as [-> | _]; [|discriminate]. simpl.
  intros H. apply lazy_until_stars_sound in H as ->. reflexivity.
Qed.

Lemma match_em_complete (g r : jsstring) :
  starless g = true -> match_em (star :: g ++ star :: r) = Some (g, r).
Proof. intros H. simpl. now apply lazy_until_star_complete. Qed.


Lemma match_em_starless (s : jsstring) :
  ~ In star s -> forall fuel, replace_group_fuel match_em (js "<em>") (js "</em>") fuel s = s.
Proof.
  intros Hs fuel. revert s Hs. induction fuel as [|fuel IH]; intros s Hs;
    [reflexivity|].
  destruct s as [|c tl]; [reflexivity|]. cbn [replace_group_fuel].
  destruct (match_em (c :: tl)) as [[g r]|] eqn:E.
  - apply match_em_sound in E. injection E as -> _. exfalso. apply Hs. now left.
  - f_equal. apply IH. intros H. apply Hs. now right.
Qed.

Lemma match_strong_starless (s : jsstring) :
  ~ In star s ->
  forall fuel, replace_group_fuel match_strong (js "<strong>") (js "</strong>") fuel s = s.
Proof.
  intros Hs fuel. revert s Hs. induction fuel as [|fuel IH]; intros s Hs;
    [reflexivity|].
  destruct s as [|c tl]; [reflexivity|]. cbn [replace_group_fuel].
  destruct (match_strong (c :: tl)) as [[g r]|] eqn:E.
  - apply match_strong_sound in E. injection E as -> _. exfalso. apply Hs. now left.
  - f_equal. apply IH. intros H. apply Hs. now right.
Qed.

End Matchers.

(* ----------------------------------------------------------------- *)
(** ** Global replacement *)

Section Replace.

Variable matcher : jsstring -> option (jsstring * jsstring).
Variables opening closing : jsstring.

(** What both regular expressions have in common: a match is a run of
    stars, the group, the same run of stars. *)
Hypothesis matcher_shape :
  forall s g r, matcher s = Some (g, r) ->
  exists d, d <> [] /\ Forall (eq star) d /\ s = d ++ g ++ d ++ r.

Let replace_fuel := replace_group_fuel matcher opening closing.

Lemma matcher_shorter (s g r : jsstring) :
  matcher s = Some (g, r) -> (List.length r < List.length s)%nat.
Proof.
  intros H. destruct (matcher_shape _ _ _ H) as (d & Hd & _ & ->).
  rewrite !length_app. destruct d; [congruence | simpl; lia].
Qed.

(** Fuel beyond the length of the string changes nothing: the scan never
    runs out of it. *)
Lemma replace_fuel_enough (n m : nat) (s : jsstring) :
  (List.length s <= n)%nat -> (List.length s <= m)%nat ->
  replace_fuel n s = replace_fuel m s.
Proof.
  unfold replace_fuel. revert m s. induction n as [|n IH]; intros m s Hn Hm.
  - destruct s; [|simpl in Hn; lia]. destruct m; reflexivity.
  - destruct m as [|m]; [destruct s; [reflexivity | simpl in Hm; lia]|].
    destruct s as [|c tl]; [reflexivity|]. cbn [replace_group_fuel].
    simpl in Hn, Hm.
    destruct (matcher (c :: tl)) as [[g r]|] eqn:E.
    + apply matcher_shorter in E. simpl in E.
      do 3 f_equal. apply IH; lia.
    + f_equal. apply IH; lia.
Qed.

(** The scan, one step at a time. *)
Lemma replace_group_match (s g r : jsstring) :
  matcher s = Some (g, r) ->
  replace_group matcher opening closing s =
  opening ++ g ++ closing ++ replace_group matcher opening closing r.
Proof.
  intros E. pose proof (matcher_shorter _ _ _ E) as Hlen.
  unfold replace_group. destruct s as [|c tl]; [simpl in Hlen; lia|].
  cbn [List.length replace_group_fuel]. rewrite E. do 3 f_equal.
  apply replace_fuel_enough; simpl in Hlen; lia.
Qed.

Lemma replace_group_copy (c : char) (tl : jsstring) :
  matcher (c :: tl) = None ->
  replace_group matcher opening closing (c :: tl) =
  c :: replace_group matcher opening closing tl.
Proof.
  intros E. unfold replace_group. cbn [List.length replace_group_fuel].
  now rewrite E.
Qed.

Hypothesis opening_token : In opening tokens.
Hypothesis closing_token : In closing tokens.

Lemma stars_drop (d s : jsstring) :
  Forall (eq star) d -> safe_markup (d ++ s) -> safe_markup s.
Proof.
  intros Hd. induction Hd as [|x d <- _ IH]; intros H; [exact H|].
  apply IH. now apply (safe_markup_cut star [] (d ++ s)).
Qed.

Lemma stars_cut (d p s : jsstring) :
  d <> [] -> Forall (eq star) d -> safe_markup (p ++ d ++ s) ->
  safe_markup p /\ safe_markup s.
Proof.
  intros Hne Hd H. destruct Hd as [|x d <- Hd]; [congruence|].
  apply (safe_markup_cut star p (d ++ s)) in H as [Hp Hs]; [|reflexivity].
  split; [exact Hp | now apply (stars_drop d)].
Qed.

(** The scan keeps a safe markup safe: it only swaps runs of stars, which
    lie outside every tag and character reference, for whole tags. *)
Lemma replace_fuel_safe (fuel : nat) (s p : jsstring) :
  safe_markup (p ++ s) -> safe_markup (p ++ replace_fuel fuel s).
Proof.
  unfold replace_fuel. revert s p.
  induction fuel as [|fuel IH]; intros s p H; [exact H|].
  destruct s as [|c tl]; [exact H|]. cbn [replace_group_fuel].
  destruct (matcher (c :: tl)) as [[g r]|] eqn:E.
  - destruct (matcher_shape _ _ _ E) as (d & Hne & Hd & Es).
    rewrite Es in H.
    apply stars_cut in H as [Hp H]; [|assumption ..].
    apply (stars_cut d g r) in H as [Hg Hr]; [|assumption ..].
    repeat apply safe_markup_app; auto using safe_markup_token.
    apply (IH r []). exact Hr.
  - change (p ++ c :: ?x) with (p ++ [c] ++ x). rewrite app_assoc.
    apply IH. rewrite <- app_assoc. exact H.
Qed.

Lemma replace_group_safe (s : jsstring) :
  safe_markup s -> safe_markup (replace_group matcher opening closing s).
Proof. intros H. apply (replace_fuel_safe (List.length s) s []). exact H. Qed.

End Replace.

Section Passes.

Lemma match_strong_shape (s g r : jsstring) :
  match_strong s = Some (g, r) ->
  exists d, d <> [] /\ Forall (eq star) d /\ s = d ++ g ++ d ++ r.
Proof.
  intros H. apply match_strong_sound in H. exists [star; star].
  repeat split; [discriminate | repeat constructor | exact H].
Qed.

Lemma match_em_shape (s g r : jsstring) :
  match_em s = Some (g, r) ->
  exists d, d <> [] /\ Forall (eq star) d /\ s = d ++ g ++ d ++ r.
Proof.
  intros H. apply match_em_sound in H. exists [star].
  repeat split; [discriminate | repeat constructor | exact H].
Qed.

Lemma replace_strong_safe (s : jsstring) :
  safe_markup s -> safe_markup (replace_strong s).
Proof.
  apply replace_group_safe; [exact match_strong_shape | vm_compute; tauto ..].
Qed.

Lemma replace_em_safe (s : jsstring) :
  safe_markup s -> safe_markup (replace_em s).
Proof.
  apply replace_group_safe; [exact match_em_shape | vm_compute; tauto ..].
Qed.

Lemma replace_bullets_step (bol : bool) (c d : char) (rest : jsstring) :
  replace_bullets bol (c :: d :: rest) =
  if bol && (c =? hyphen) && (d =? space)
  then bullet :: space :: replace_bullets false rest
  else c :: replace_bullets (is_line_terminator c) (d :: rest).
Proof. reflexivity. Qed.

Lemma replace_bullets_safe (n : nat) :
  forall (s p : jsstring) (bol : bool),
    (List.length s <= n)%nat ->
    safe_markup (p ++ s) -> safe_markup (p ++ replace_bullets bol s).
Proof.
  induction n as [|n IH]; intros s p bol Hn H.
  - destruct s; [exact H | simpl in Hn; lia].
  - destruct s as [|c [|d rest]]; [exact H | exact H |].
    rewrite replace_bullets_step.
    destruct (bol && (c =? hyphen) && (d =? space)) eqn:E.
    + apply andb_true_iff in E as [E Ed]. apply andb_true_iff in E as [_ Ec].
      apply N.eqb_eq in Ec, Ed. subst c d.
      apply (safe_markup_cut hyphen p) in H as [Hp H]; [|reflexivity].
      apply (safe_markup_cut space []) in H as [_ Hr]; [|reflexivity].
      apply safe_markup_app; [exact Hp|].
      apply safe_text; [discriminate ..|].
      apply safe_text; [discriminate ..|].
      apply (IH rest [] false); [simpl in Hn; lia | exact Hr].
    + change (p ++ c :: ?x) with (p ++ [c] ++ x). rewrite app_assoc.
      apply IH; [simpl in *; lia|]. rewrite <- app_assoc. exact H.
Qed.

Lemma replace_newlines_safe (s p : jsstring) :
  safe_markup (p ++ s) -> safe_markup (p ++ replace_newlines s).
Proof.
  revert p. induction s as [|c tl IH]; intros p H; [exact H|].
  cbn [replace_newlines]. destruct (N.eqb_spec c newline) as [-> | _].
  - apply (safe_markup_cut newline p) in H as [Hp Htl]; [|reflexivity].
    apply safe_markup_app; [exact Hp|].
    apply safe_token; [vm_compute; tauto|]. apply (IH []). exact Htl.
  - change (p ++ c :: ?x) with (p ++ [c] ++ x). rewrite app_assoc.
    apply IH. rewrite <- app_assoc. exact H.
Qed.

(** Every formatted text is safe markup. *)
Lemma format_markdown_safe (s : jsstring) :
  safe_markup s -> safe_markup (format_markdown s).
Proof.
  intros H. unfold format_markdown.
  apply (replace_newlines_safe _ []).
  apply (replace_bullets_safe _ _ [] true (le_n _)).
  now apply replace_em_safe, replace_strong_safe.
Qed.

End Passes.

(* ----------------------------------------------------------------- *)
(** ** What each substitution does *)

Section Substitutions.


Lemma replace_em_wraps (g r : jsstring) :
  starless g = true ->
  replace_em (star :: g ++ star :: r) =
  js "<em>" ++ g ++ js "</em>" ++ replace_em r.
Proof.
  intros H. unfold replace_em.
  apply (replace_group_match _ _ _ match_em_shape).
  now apply match_em_complete.
Qed.

Lemma replace_strong_starless (s : jsstring) :
  ~ In star s -> replace_strong s = s.
Proof. intros H. now apply match_strong_starless. Qed.

Lemma replace_em_starless (s : jsstring) :
  ~ In star s -> replace_em s = s.
Proof. intros H. now apply match_em_starless. Qed.



Lemma replace_bullets_no_hyphen (s : jsstring) :
  ~ In hyphen s -> forall bol, replace_bullets bol s = s.
Proof.
  induction s as [|c tl IH]; intros H bol; [reflexivity|].
  destruct tl as [|d rest]; [reflexivity|]. rewrite replace_bullets_step.
  destruct (N.eqb_spec c hyphen) as [-> | _]; [exfalso; apply H; now left|].
  rewrite andb_false_r. simpl. f_equal. apply IH. intros G. apply H. now right.
Qed.

Lemma replace_newlines_app (a b : jsstring) :
  replace_newlines (a ++ b) = replace_newlines a ++ replace_newlines b.
Proof.
  induction a as [|c a IH]; [reflexivity|]. simpl.
  destruct (c =? newline); rewrite IH; reflexivity.
Qed.

Lemma replace_newlines_none (s : jsstring) :
  ~ In newline s -> replace_newlines s = s.
Proof.
  induction s as [|c tl IH]; intros H; [reflexivity|]. simpl.
  destruct (N.eqb_spec c newline) as [-> | _]; [exfalso; apply H; now left|].
  f_equal. apply IH. intros G. apply H. now right.
Qed.


Lemma escape_app (a b : jsstring) : escape (a ++ b) = escape a ++ escape b.
Proof. apply flat_map_app. Qed.

Lemma escape_ordinary (s : jsstring) :
  forallb ordinary s = true -> escape s = s.
Proof.
  induction s as [|c tl IH]; [reflexivity|]. simpl.
  intros H. apply andb_true_iff in H as [Hc Htl]. rewrite (IH Htl).
  unfold ordinary in Hc. repeat rewrite andb_true_iff in Hc.
  repeat rewrite negb_true_iff in Hc.
  destruct Hc as ((((((_ & _) & _) & Ha) & Hn) & Hl) & Hg).
  unfold escape_char. now rewrite Ha, Hn, Hl, Hg.
Qed.

Lemma ordinary_free (s : jsstring) :
  forallb ordinary s = true ->
  ~ In star s /\ ~ In hyphen s /\ ~ In newline s /\ starless s = true.
Proof.
  induction s as [|c tl IH]; simpl; [tauto|].
  intros H. apply andb_true_iff in H as [Hc Htl].
  destruct (IH Htl) as (H1 & H2 & H3 & H4). rewrite H4.
  unfold ordinary in Hc. repeat rewrite andb_true_iff in Hc.
  repeat rewrite negb_true_iff in Hc.
  destruct Hc as ((((((Hl & Hs) & Hh) & _) & _) & _) & _).
  rewrite Hs, Hl. simpl.
  repeat split; try (intros [E | E]; [subst c; discriminate | tauto]).
Qed.

End Substitutions.

(* ----------------------------------------------------------------- *)
(** ** The view stays tidy *)

Arguments format_markdown : simpl never.
Arguments escape : simpl never.
Arguments trim : simpl never.
Arguments innerHTML : simpl never.
Arguments message_header : simpl never.
Arguments thinking_node : simpl never.
Arguments medical_node : simpl never.
Arguments apology : simpl never.
Arguments is_placeholder : simpl never.

Ltac fields :=
  cbn [chatBox next_node suggestions userInput focused sendBtn_disabled
       isProcessing thinkingMessage requests pending console
       set_chatBox set_suggestions set_userInput set_focused
       set_sendBtn_disabled set_isProcessing set_thinkingMessage set_network
       set_console appendChild remove_node reset_processing] in *.

Section Tidy.

Lemma tidy_same (a b : state) :
  chatBox a = chatBox b -> next_node a = next_node b ->
  thinkingMessage a = thinkingMessage b -> tidy a -> tidy b.
Proof.
  intros Hc Hn Ht [H1 H2 H3]. unfold node_ids, placeholder_ids, tracked in *.
  split; unfold node_ids, placeholder_ids, tracked;
    rewrite <- ?Hc, <- ?Hn, <- ?Ht; assumption.
Qed.

Lemma number_from_ids (n : nat) (l : list dom) :
  map fst (number_from n l) = seq n (List.length l).
Proof.
  revert n. induction l as [|d l IH]; intros n; simpl; [reflexivity|].
  now rewrite IH.
Qed.

Lemma number_from_placeholders (n : nat) (l : list dom) :
  forallb (fun d => negb (is_placeholder d)) l = true ->
  filter (fun x => is_placeholder (snd x)) (number_from n l) = [].
Proof.
  revert n. induction l as [|d l IH]; intros n; simpl; [reflexivity|].
  intros H. apply andb_true_iff in H as [Hd Hl].
  apply negb_true_iff in Hd. rewrite Hd. now apply IH.
Qed.

Lemma tidy_init (p : page) : no_placeholder p -> tidy (init p).
Proof.
  intros Hp. split; unfold node_ids, placeholder_ids, tracked, init; fields.
  - rewrite number_from_ids. apply Forall_forall. intros i Hi.
    apply in_seq in Hi. lia.
  - rewrite number_from_ids. apply seq_NoDup.
  - now rewrite number_from_placeholders.
Qed.

Lemma tidy_appendChild (d : dom) (st : state) :
  is_placeholder d = false -> tidy st -> tidy (appendChild d st).
Proof.
  intros Hd [H1 H2 H3]. unfold node_ids, placeholder_ids, tracked in *.
  split; unfold node_ids, placeholder_ids, tracked; fields.
  - rewrite map_app. apply Forall_app. split.
    + eapply Forall_impl; [|exact H1]. simpl. intros; lia.
    + repeat constructor.
  - rewrite map_app. simpl. apply NoDup_app; [exact H2 | repeat constructor; simpl; tauto |].
    intros i Hi [<- | []]. rewrite Forall_forall in H1.
    specialize (H1 _ Hi). simpl in H1. lia.
  - rewrite filter_app, map_app. simpl. rewrite Hd. simpl.
    now rewrite app_nil_r.
Qed.

(** Removing the tracked node removes the placeholder and nothing else. *)
Lemma remove_tracked (st : state) (i : nat) :
  tidy st -> thinkingMessage st = Some i ->
  filter (fun n => negb (Nat.eqb (fst n) i)) (chatBox st) = turns st.
Proof.
  intros [H1 H2 H3] Ht. unfold turns. apply filter_ext_in.
  intros [j d] Hjd. simpl. f_equal.
  unfold placeholder_ids, tracked, node_ids in *. rewrite Ht in H3.
  destruct (is_placeholder d) eqn:Hd.
  - apply Nat.eqb_eq.
    assert (Hj : In j [i]).
    { rewrite <- H3. apply in_map_iff. exists (j, d). split; [reflexivity|].
      apply filter_In. now split. }
    destruct Hj as [-> | []]. reflexivity.
  - apply Nat.eqb_neq. intros ->.
    assert (Hi : In i (map fst (filter (fun n => is_placeholder (snd n)) (chatBox st)))).
    { rewrite H3. now left. }
    apply in_map_iff in Hi as ([i' d'] & Ei & Hi'). simpl in Ei. subst i'.
    apply filter_In in Hi' as [Hin Hd']. simpl in Hd'.
    assert (d = d'); [|congruence].
    clear - H2 Hjd Hin. induction (chatBox st) as [|[k e] l IH]; [contradiction|].
    simpl in H2. inversion H2 as [|? ? Hk Hl]; subst.
    destruct Hjd as [E1 | Hjd], Hin as [E2 | Hin].
    + congruence.
    + injection E1 as -> ->. exfalso. apply Hk.
      apply in_map_iff. now exists (i, d').
    + injection E2 as -> ->. exfalso. apply Hk.
      apply in_map_iff. now exists (i, d).
    + now apply IH.
Qed.

Lemma turns_untracked (st : state) :
  tidy st -> thinkingMessage st = None -> turns st = chatBox st.
Proof.
  intros [_ _ H3] Ht. unfold placeholder_ids, tracked, turns in *.
  rewrite Ht in H3. apply map_eq_nil in H3.
  induction (chatBox st) as [|[j d] l IH]; [reflexivity|]. simpl in *.
  destruct (is_placeholder d); simpl; [discriminate|]. f_equal. now apply IH.
Qed.

(** [hideThinkingIndicator] leaves the turns and only them. *)
Lemma hide_chatBox (st : state) :
  tidy st -> chatBox (hideThinkingIndicator st) = turns st.
Proof.
  intros H. unfold hideThinkingIndicator.
  destruct (thinkingMessage st) as [i|] eqn:Ht; fields.
  - now apply remove_tracked.
  - symmetry. now apply turns_untracked.
Qed.

Lemma turns_no_placeholder (st : state) :
  filter (fun n => is_placeholder (snd n)) (turns st) = [].
Proof.
  unfold turns. induction (chatBox st) as [|[j d] l IH]; [reflexivity|].
  simpl. destruct (is_placeholder d) eqn:E; simpl; [exact IH|].
  now rewrite E.
Qed.

Lemma tidy_hide (st : state) : tidy st -> tidy (hideThinkingIndicator st).
Proof.
  intros H. pose proof (hide_chatBox st H) as Hc. destruct H as [H1 H2 H3].
  assert (Hn : next_node (hideThinkingIndicator st) = next_node st).
  { unfold hideThinkingIndicator. destruct (thinkingMessage st); reflexivity. }
  assert (Ht : thinkingMessage (hideThinkingIndicator st) = None).
  { unfold hideThinkingIndicator. destruct (thinkingMessage st) eqn:E;
      [reflexivity | exact E]. }
  split; unfold node_ids, placeholder_ids, tracked in *; rewrite ?Hc, ?Hn, ?Ht.
  - unfold turns. rewrite Forall_forall in *. intros i Hi. apply H1.
    apply in_map_iff in Hi as (x & <- & Hx). apply filter_In in Hx as [Hx _].
    now apply in_map.
  - unfold turns. clear - H2. induction (chatBox st) as [|[j d] l IH]; [constructor|].
    simpl in *. inversion H2 as [|? ? Hj Hl]; subst.
    destruct (negb (is_placeholder d)); [|now apply IH].
    simpl. constructor; [|now apply IH]. intros Hin. apply Hj.
    apply in_map_iff in Hin as (x & <- & Hx). apply filter_In in Hx as [Hx _].
    now apply in_map.
  - now rewrite turns_no_placeholder.
Qed.

Lemma hide_fields (st : state) :
  next_node (hideThinkingIndicator st) = next_node st /\
  thinkingMessage (hideThinkingIndicator st) = None /\
  suggestions (hideThinkingIndicator st) = suggestions st /\
  userInput (hideThinkingIndicator st) = userInput st /\
  sendBtn_disabled (hideThinkingIndicator st) = sendBtn_disabled st /\
  isProcessing (hideThinkingIndicator st) = isProcessing st /\
  requests (hideThinkingIndicator st) = requests st /\
  pending (hideThinkingIndicator st) = pending st /\
  console (hideThinkingIndicator st) = console st.
Proof.
  unfold hideThinkingIndicator.
  destruct (thinkingMessage st) eqn:E; fields; repeat split; exact E.
Qed.

(** [showThinkingIndicator] is an eviction followed by one append. *)
Lemma show_unfold (st : state) :
  showThinkingIndicator st =
  set_thinkingMessage (Some (next_node (hideThinkingIndicator st)))
    (appendChild thinking_node (hideThinkingIndicator st)).
Proof. reflexivity. Qed.

Lemma tidy_show (st : state) : tidy st -> tidy (showThinkingIndicator st).
Proof.
  intros H. rewrite show_unfold. apply tidy_hide in H.
  destruct (hide_fields st) as (Hn & Ht & _).
  set (h := hideThinkingIndicator st) in *. destruct H as [H1 H2 H3].
  unfold node_ids, placeholder_ids, tracked in *. rewrite Ht in H3.
  split; unfold node_ids, placeholder_ids, tracked; fields.
  - rewrite map_app. apply Forall_app. split.
    + eapply Forall_impl; [|exact H1]. simpl. intros; lia.
    + repeat constructor.
  - rewrite map_app. simpl. apply NoDup_app; [exact H2 | repeat constructor; simpl; tauto |].
    intros i Hi [<- | []]. rewrite Forall_forall in H1.
    specialize (H1 _ Hi). simpl in H1. lia.
  - rewrite filter_app, map_app, H3. reflexivity.
Qed.

End Tidy.

(* ----------------------------------------------------------------- *)
(** ** The handlers, field by field *)

Section Handlers.

Lemma message_node_plain (type : sender) (children : list dom) :
  is_placeholder (Element "div" ["message"%string; sender_class type] children) = false.
Proof. destruct type; reflexivity. Qed.

(** What [addMessage] does with a string: it cannot throw, it appends one
    node holding the formatted text, and it touches nothing else but the
    suggestion bubbles. *)
Lemma addMessage_string (s : jsstring) (type : sender) (st : state) :
  exists st',
    addMessage (VString s) type st = Some st' /\
    (exists children,
       message_children (VString s) type = Some children /\
       chatBox st' =
       chatBox st ++ [(next_node st,
                       Element "div" ["message"%string; sender_class type] children)]) /\
    next_node st' = S (next_node st) /\
    thinkingMessage st' = thinkingMessage st /\
    userInput st' = userInput st /\
    sendBtn_disabled st' = sendBtn_disabled st /\
    isProcessing st' = isProcessing st /\
    requests st' = requests st /\
    pending st' = pending st /\
    console st' = console st /\
    (suggestions st' = None \/
     suggestions st' = suggestions st /\ (children_length st' <= 1)%nat).
Proof.
  unfold addMessage.
  assert (Hc : exists children, message_children (VString s) type = Some children).
  { destruct type; simpl; eauto. }
  destruct Hc as (children & Hc). rewrite Hc.
  remember (appendChild _ st) as st1 eqn:E1.
  destruct (suggestions st1) as [pl|] eqn:Hs.
  - destruct (1 <? children_length st1)%nat eqn:Hlen.
    + eexists. split; [reflexivity|]. subst st1. fields.
      repeat split; eauto.
    + eexists. split; [reflexivity|]. subst st1. fields.
      repeat split; eauto. right. split; [reflexivity|].
      apply Nat.ltb_ge in Hlen. exact Hlen.
  - eexists. split; [reflexivity|]. subst st1. fields.
    repeat split; eauto.
Qed.

Lemma bot_children (s : jsstring) :
  message_children (VString s) bot =
  Some [Markup (innerHTML [message_header "fas fa-user-md" "MediChat Assistant"]
                ++ render_text s)].
Proof. reflexivity. Qed.

Lemma user_children (s : jsstring) :
  message_children (VString s) user = Some [Markup (render_text s)].
Proof. reflexivity. Qed.

(** The apology holds nothing the formatting touches. *)
Lemma render_apology : render_text apology = apology.
Proof. vm_compute. reflexivity. Qed.

Lemma tidy_addMessage (text : value) (type : sender) (st st' : state) :
  addMessage text type st = Some st' -> tidy st -> tidy st'.
Proof.
  unfold addMessage. destruct (message_children text type) as [children|];
    [|discriminate].
  intros E H. injection E as <-.
  eapply tidy_same;
    [.. | apply (tidy_appendChild _ st (message_node_plain type children)), H];
    fields;
    (destruct (suggestions st);
     [match goal with |- context [if ?b then _ else _] => destruct b end|];
     reflexivity).
Qed.

Lemma addMessage_flags (text : value) (type : sender) (st st' : state) :
  addMessage text type st = Some st' ->
  isProcessing st' = isProcessing st /\ pending st' = pending st /\
  requests st' = requests st /\ sendBtn_disabled st' = sendBtn_disabled st /\
  userInput st' = userInput st /\ console st' = console st /\
  (suggestions st = None -> suggestions st' = None).
Proof.
  unfold addMessage. destruct (message_children text type) as [children|];
    [|discriminate].
  intros E. injection E as <-. fields.
  destruct (suggestions st) eqn:Hs;
    [match goal with |- context [if ?b then _ else _] => destruct b end|];
    fields; repeat split; congruence.
Qed.

Lemma addMedicalResponse_appends (data : value) (st st' : state) :
  addMedicalResponse data st = Some st' ->
  exists chips disease count,
    st' = appendChild (medical_node chips disease count) st.
Proof.
  unfold addMedicalResponse.
  destruct (field data "symptoms") as [[| | | | |items|]|]; try discriminate.
  destruct (symptom_tags items) as [chips|]; [|discriminate].
  destruct (field data "disease") as [disease|]; [|discriminate].
  destruct (to_string disease) as [printed|]; [|discriminate].
  intros E. injection E as <-. eauto.
Qed.

Lemma tidy_addMedicalResponse (data : value) (st st' : state) :
  addMedicalResponse data st = Some st' -> tidy st -> tidy st'.
Proof.
  intros E H. apply addMedicalResponse_appends in E as (c & d & n & ->).
  now apply tidy_appendChild.
Qed.

Lemma tidy_reset (st : state) : tidy st -> tidy (reset_processing st).
Proof. apply tidy_same; reflexivity. Qed.

(** The [catch] callback, spelled out. *)
Lemma on_error_unfold (e : error) (st : state) :
  tidy st ->
  exists st2,
    on_error e st = reset_processing (set_console (console st ++ [e]) st2) /\
    chatBox st2 = turns st ++ [(next_node st, apology_node)] /\
    next_node st2 = S (next_node st) /\
    thinkingMessage st2 = None /\
    userInput st2 = userInput st /\
    requests st2 = requests st /\
    pending st2 = pending st /\
    tidy st2 /\
    (suggestions st = None -> suggestions st2 = None).
Proof.
  intros H. unfold on_error.
  destruct (addMessage_string apology bot (hideThinkingIndicator st))
    as (st2 & E & (children & Hch & Hc) & Hn & Ht & Hu & _ & _ & Hr & Hp & Hk & _).
  rewrite E. rewrite bot_children, render_apology in Hch. injection Hch as <-.
  destruct (hide_fields st) as (Hn' & Ht' & Hs' & Hu' & _ & _ & Hr' & Hp' & Hk').
  rewrite hide_chatBox in Hc by exact H.
  rewrite Hn' in Hc, Hn. rewrite Ht' in Ht. rewrite Hu' in Hu.
  rewrite Hr' in Hr. rewrite Hp' in Hp. rewrite Hk' in Hk.
  exists st2. rewrite Hk. split; [reflexivity|].
  split; [exact Hc|]. repeat (split; [assumption|]). split.
  - eapply tidy_addMessage; [exact E | now apply tidy_hide].
  - intros Hs. apply addMessage_flags in E as (_ & _ & _ & _ & _ & _ & G).
    apply G. congruence.
Qed.

End Handlers.

(* ----------------------------------------------------------------- *)
(** ** Sending and settling *)

Ltac splits := repeat match goal with |- _ /\ _ => split end.

Section Flow.

Lemma sendMessage_blocked (st : state) :
  is_empty (trim (userInput st)) || isProcessing st = true ->
  sendMessage st = st.
Proof. intros H. unfold sendMessage. now rewrite H. Qed.

Lemma show_fields (st : state) :
  next_node (showThinkingIndicator st) = S (next_node st) /\
  thinkingMessage (showThinkingIndicator st) = Some (next_node st) /\
  suggestions (showThinkingIndicator st) = suggestions st /\
  userInput (showThinkingIndicator st) = userInput st /\
  sendBtn_disabled (showThinkingIndicator st) = sendBtn_disabled st /\
  isProcessing (showThinkingIndicator st) = isProcessing st /\
  requests (showThinkingIndicator st) = requests st /\
  pending (showThinkingIndicator st) = pending st /\
  console (showThinkingIndicator st) = console st.
Proof.
  rewrite show_unfold.
  destruct (hide_fields st) as (H1 & H2 & H3 & H4 & H5 & H6 & H7 & H8 & H9).
  cbn [chatBox next_node suggestions userInput focused sendBtn_disabled
       isProcessing thinkingMessage requests pending console
       set_chatBox set_thinkingMessage appendChild].
  rewrite H1. repeat split; assumption.
Qed.

Lemma show_chatBox (st : state) :
  tidy st ->
  chatBox (showThinkingIndicator st) = turns st ++ [(next_node st, thinking_node)].
Proof.
  intros H. rewrite show_unfold.
  cbn [chatBox set_chatBox set_thinkingMessage appendChild].
  rewrite (hide_chatBox st H).
  now destruct (hide_fields st) as (-> & _).
Qed.

Lemma turns_app (a b : state) (l : list (nat * dom)) :
  chatBox a = chatBox b ++ l ->
  turns a = turns b ++ filter (fun n => negb (is_placeholder (snd n))) l.
Proof. intros H. unfold turns. rewrite H. apply filter_app. Qed.

(** A send that passes the guard, as a composition of its steps. *)
Lemma sendMessage_passes (st : state) :
  trim (userInput st) <> [] -> isProcessing st = false ->
  exists st2,
    addMessage (VString (trim (userInput st))) user
      (set_sendBtn_disabled true (set_isProcessing true st)) = Some st2 /\
    sendMessage st =
    set_network (requests st ++ [mkRequest (trim (userInput st))])
      (S (pending st)) (showThinkingIndicator (set_userInput [] st2)).
Proof.
  intros Hm Hp. unfold sendMessage.
  destruct (is_empty (trim (userInput st))) eqn:He;
    [apply is_empty_true in He; contradiction|].
  rewrite Hp. cbn [orb].
  destruct (addMessage_string (trim (userInput st)) user
              (set_sendBtn_disabled true (set_isProcessing true st)))
    as (st2 & E & _ & _ & _ & _ & _ & _ & Hr & Hq & _).
  exists st2. split; [exact E|]. rewrite E. cbv zeta.
  destruct (show_fields (set_userInput [] st2)) as (_ & _ & _ & _ & _ & _ & -> & -> & _).
  cbn [requests pending set_userInput]. rewrite Hr, Hq. reflexivity.
Qed.

(** What a send that passes the guard does. *)
Lemma sendMessage_dispatch (st : state) :
  trim (userInput st) <> [] -> isProcessing st = false ->
  isProcessing (sendMessage st) = true /\
  sendBtn_disabled (sendMessage st) = true /\
  userInput (sendMessage st) = [] /\
  requests (sendMessage st) =
    requests st ++ [mkRequest (trim (userInput st))] /\
  pending (sendMessage st) = S (pending st) /\
  console (sendMessage st) = console st /\
  (suggestions st = None -> suggestions (sendMessage st) = None) /\
  (tidy st ->
   tidy (sendMessage st) /\
   chatBox (sendMessage st) =
     turns st ++
     [(next_node st,
       Element "div" ["message"; "user"]%string
         [Markup (render_text (trim (userInput st)))]);
      (S (next_node st), thinking_node)]).
Proof.
  intros Hm Hp. destruct (sendMessage_passes st Hm Hp) as (st2 & E & ->).
  destruct (addMessage_string (trim (userInput st)) user
              (set_sendBtn_disabled true (set_isProcessing true st)))
    as (st2' & E' & (children & Hch & Hc) & Hn & Ht & Hu & Hd & Hi & Hr & Hq & Hk & _).
  assert (st2' = st2) by congruence. subst st2'.
  rewrite user_children in Hch.
  assert (children = [Markup (render_text (trim (userInput st)))]) by congruence.
  subst children. clear Hch E'.
  destruct (show_fields (set_userInput [] st2))
    as (Sn & St & Ss & Su & Sd & Si & Sr & Sq & Sk).
  cbn [chatBox next_node suggestions userInput focused sendBtn_disabled
       isProcessing thinkingMessage requests pending console set_network].
  rewrite Si, Sd, Su, Sk, Ss.
  cbn [suggestions userInput sendBtn_disabled isProcessing console set_userInput].
  rewrite Hi, Hd, Hk.
  cbn [sendBtn_disabled isProcessing console set_sendBtn_disabled set_isProcessing].
  repeat (split; [reflexivity|]). split.
  - intros Hs. apply addMessage_flags in E as (_ & _ & _ & _ & _ & _ & G).
    apply G. exact Hs.
  - intros T.
    assert (T2 : tidy (set_userInput [] st2)).
    { eapply tidy_same; [| | | eapply tidy_addMessage; [exact E|]];
        [reflexivity .. |].
      eapply tidy_same; [| | | exact T]; reflexivity. }
    split.
    + eapply tidy_same; [| | | exact (tidy_show _ T2)]; reflexivity.
    + rewrite (show_chatBox _ T2).
      cbn [next_node set_userInput]. rewrite Hn.
      cbn [next_node set_sendBtn_disabled set_isProcessing].
      rewrite (turns_app (set_userInput [] st2) st _ Hc). simpl.
      now rewrite <- app_assoc.
Qed.

Lemma sendMessage_cases (st : state) :
  sendMessage st = st \/
  (trim (userInput st) <> [] /\ isProcessing st = false).
Proof.
  destruct (is_empty (trim (userInput st)) || isProcessing st) eqn:E.
  - left. now apply sendMessage_blocked.
  - right. apply orb_false_iff in E as [E1 E2]. split; [|exact E2].
    intros H. apply is_empty_true in H. congruence.
Qed.

Lemma consistent_sendMessage (st : state) :
  consistent st -> consistent (sendMessage st).
Proof.
  intros [Ht Hf]. destruct (sendMessage_cases st) as [-> | [Hm Hp]];
    [now split|].
  destruct (sendMessage_dispatch st Hm Hp) as (Hi & _ & _ & _ & Hq & _ & _ & T).
  split; [now apply T|]. unfold flag_matches in *.
  rewrite Hi, Hq, Hf, Hp. reflexivity.
Qed.
(** The [then] callback either completes, having reset the processing
    state, or throws before it appended anything. *)
Lemma on_data_cases (data : value) (st : state) :
  (exists st2,
     on_data data st = (reset_processing st2, None) /\
     (addMedicalResponse data (hideThinkingIndicator st) = Some st2 \/
      exists text, addMessage text bot (hideThinkingIndicator st) = Some st2)) \/
  on_data data st = (hideThinkingIndicator st, Some TypeError).
Proof.
  unfold on_data. destruct (field data "mode") as [mode|]; [|now right].
  destruct (is_medical mode).
  - destruct (addMedicalResponse data (hideThinkingIndicator st)) as [st2|] eqn:E;
      [left | now right].
    exists st2. split; [reflexivity | now left].
  - destruct (field data "response") as [text|]; [|now right].
    destruct (addMessage text bot (hideThinkingIndicator st)) as [st2|] eqn:E;
      [left | now right].
    exists st2. split; [reflexivity | right; now exists text].
Qed.

Lemma on_error_flags (e : error) (s : state) :
  isProcessing (on_error e s) = false /\
  sendBtn_disabled (on_error e s) = false /\
  requests (on_error e s) = requests s /\
  pending (on_error e s) = pending s /\
  console (on_error e s) = console s ++ [e] /\
  (suggestions s = None -> suggestions (on_error e s) = None).
Proof.
  unfold on_error.
  destruct (addMessage_string apology bot (hideThinkingIndicator s))
    as (st2 & E & _ & _ & _ & _ & _ & _ & Hr & Hp & Hk & _).
  rewrite E.
  destruct (hide_fields s) as (_ & _ & Hs' & _ & _ & _ & Hr' & Hp' & Hk').
  cbn [isProcessing sendBtn_disabled requests pending console suggestions
       reset_processing set_focused set_sendBtn_disabled set_isProcessing
       set_console].
  splits; try congruence.
  intros Hs. apply addMessage_flags in E as (_ & _ & _ & _ & _ & _ & G).
  apply G. congruence.
Qed.

(** However the request settles, the promise chain ends with the
    processing state reset, and it neither sends nor forgets a request. *)
Lemma settle_flags (o : outcome) (st : state) :
  isProcessing (settle o st) = false /\
  sendBtn_disabled (settle o st) = false /\
  requests (settle o st) = requests st /\
  pending (settle o st) = pending st /\
  (suggestions st = None -> suggestions (settle o st) = None).
Proof.
  assert (Herr : forall e s,
            isProcessing (on_error e s) = false /\
            sendBtn_disabled (on_error e s) = false /\
            requests (on_error e s) = requests s /\
            pending (on_error e s) = pending s /\
            (suggestions s = None -> suggestions (on_error e s) = None)).
  { intros e s. destruct (on_error_flags e s) as (H1 & H2 & H3 & H4 & _ & H6).
    splits; assumption. }
  destruct (hide_fields st) as (_ & _ & Hs' & _ & _ & _ & Hr' & Hp' & _).
  destruct o as [reason | [|] [|data]]; cbn [settle]; try now apply Herr.
  destruct (on_data_cases data st) as [(st2 & -> & Hst2) | ->].
  - cbn [isProcessing sendBtn_disabled requests pending suggestions
         reset_processing set_focused set_sendBtn_disabled set_isProcessing].
    destruct Hst2 as [E | (text & E)].
    + apply addMedicalResponse_appends in E as (c & d & n & ->).
      cbn [requests pending suggestions appendChild set_chatBox].
      splits; congruence.
    + apply addMessage_flags in E as (_ & Hp & Hr & _ & _ & _ & G).
      splits; try congruence. intros Hs. apply G. congruence.
  - destruct (Herr TypeError (hideThinkingIndicator st)) as (H1 & H2 & H3 & H4 & H6).
    splits; try congruence. intros Hs. apply H6. congruence.
Qed.

Lemma tidy_on_error (e : error) (st : state) : tidy st -> tidy (on_error e st).
Proof.
  intros H. destruct (on_error_unfold e st H) as (s2 & -> & _ & _ & _ & _ & _ & _ & T & _).
  eapply tidy_same; [| | | exact T]; reflexivity.
Qed.

Lemma tidy_settle (o : outcome) (st : state) : tidy st -> tidy (settle o st).
Proof.
  intros H.
  destruct o as [reason | [|] [|data]]; cbn [settle];
    try now apply tidy_on_error.
  destruct (on_data_cases data st) as [(st2 & -> & Hst2) | ->].
  - apply tidy_reset. destruct Hst2 as [E | (text & E)].
    + exact (tidy_addMedicalResponse _ _ _ E (tidy_hide st H)).
    + exact (tidy_addMessage _ _ _ _ E (tidy_hide st H)).
  - now apply tidy_on_error, tidy_hide.
Qed.

Lemma flag_matches_step (st : state) (ev : event) :
  flag_matches st -> flag_matches (step st ev).
Proof.
  unfold flag_matches. intros F.
  assert (Hsend : forall s, pending s = (if isProcessing s then 1 else 0)%nat ->
            pending (sendMessage s) =
            (if isProcessing (sendMessage s) then 1 else 0)%nat).
  { intros s Fs. destruct (sendMessage_cases s) as [-> | [Hm Hp]]; [exact Fs|].
    destruct (sendMessage_dispatch s Hm Hp) as (Hi & _ & _ & _ & Hq & _).
    rewrite Hi, Hq, Fs, Hp. reflexivity. }
  destruct ev as [v| |enter shift|text| |o]; cbn [step].
  - exact F.
  - destruct (sendBtn_disabled st); [exact F | now apply Hsend].
  - destruct (enter && negb shift); [now apply Hsend | exact F].
  - apply Hsend. exact F.
  - exact F.
  - destruct (pending st) as [|p] eqn:Hp; [now rewrite Hp|].
    destruct (isProcessing st); [|discriminate]. injection F as ->.
    destruct (settle_flags o (set_network (requests st) 0 st)) as (H1 & _ & _ & H4 & _).
    now rewrite H1, H4.
Qed.

Lemma consistent_step (st : state) (ev : event) :
  consistent st -> consistent (step st ev).
Proof.
  intros Hc. destruct ev as [v| |enter shift|text| |o]; cbn [step].
  - destruct Hc as [T F]. split; [eapply tidy_same; [| | |exact T]; reflexivity|].
    exact F.
  - destruct (sendBtn_disabled st); [exact Hc | now apply consistent_sendMessage].
  - destruct (enter && negb shift); [now apply consistent_sendMessage | exact Hc].
  - apply consistent_sendMessage. destruct Hc as [T F].
    split; [eapply tidy_same; [| | |exact T]; reflexivity | exact F].
  - destruct Hc as [T F]. split; [eapply tidy_same; [| | |exact T]; reflexivity|].
    exact F.
  - destruct (pending st) as [|p] eqn:Hp; [exact Hc|].
    destruct Hc as [T F].
    split.
    + apply tidy_settle. eapply tidy_same; [| | |exact T]; reflexivity.
    + pose proof (flag_matches_step st (Settle o) F) as G.
      cbn [step] in G. now rewrite Hp in G.
Qed.

Lemma run_snoc (evs : list event) (ev : event) (st : state) :
  run (evs ++ [ev]) st = step (run evs st) ev.
Proof. unfold run. now rewrite fold_left_app. Qed.

Lemma consistent_run (evs : list event) (st : state) :
  consistent st -> consistent (run evs st).
Proof.
  revert st. induction evs as [|ev evs IH]; intros st H; [exact H|].
  apply IH. now apply consistent_step.
Qed.

Lemma consistent_init (p : page) : no_placeholder p -> consistent (init p).
Proof. intros H. split; [now apply tidy_init | reflexivity]. Qed.

(** The flag and the pending count agree in every state the page reaches,
    whatever the page holds. *)
Lemma flag_matches_run (evs : list event) (st : state) :
  flag_matches st -> flag_matches (run evs st).
Proof.
  revert st. induction evs as [|ev evs IH]; intros st H; [exact H|].
  apply IH. now apply flag_matches_step.
Qed.

End Flow.

(* ================================================================= *)
(** * The send flow *)

Section SendFlow.

Lemma useSuggestion_blocked (text : jsstring) (st : state) :
  isProcessing st = true ->
  useSuggestion text st =
  set_focused true
    (set_sendBtn_disabled false (set_userInput (normalize_newlines text) st)).
Proof.
  intros H. unfold useSuggestion. apply sendMessage_blocked.
  cbn [isProcessing set_focused set_sendBtn_disabled set_userInput].
  rewrite H. apply orb_true_r.
Qed.

(** C1 — While a request is in flight the in-flight flag is set and a
    second send attempt (a click on the send button, Enter, or a suggestion)
    appends no turn and dispatches no request; [sendMessage] itself leaves
    the whole state as it is.  Only the settling of the response clears the
    flag, and it always does. *)
Theorem in_flight_send_is_rejected (p : page) (evs : list event) :
  (0 < pending (run evs (init p)))%nat ->
  isProcessing (run evs (init p)) = true /\
  sendMessage (run evs (init p)) = run evs (init p) /\
  (forall ev, send_attempt ev = true ->
     chatBox (step (run evs (init p)) ev) = chatBox (run evs (init p)) /\
     requests (step (run evs (init p)) ev) = requests (run evs (init p)) /\
     pending (step (run evs (init p)) ev) = pending (run evs (init p)) /\
     isProcessing (step (run evs (init p)) ev) = true) /\
  (forall ev, isProcessing (step (run evs (init p)) ev) = false ->
     exists o, ev = Settle o) /\
  (forall o, isProcessing (step (run evs (init p)) (Settle o)) = false /\
             pending (step (run evs (init p)) (Settle o)) = 0%nat).
Proof.
  set (st := run evs (init p)). intros Hp.
  assert (F : flag_matches st) by (apply flag_matches_run; reflexivity).
  unfold flag_matches in F.
  assert (Hi : isProcessing st = true).
  { destruct (isProcessing st); [reflexivity | lia]. }
  assert (Hb : sendMessage st = st).
  { apply sendMessage_blocked. rewrite Hi. apply orb_true_r. }
  splits; [exact Hi | exact Hb | | |].
  - intros ev Hev. destruct ev as [v| |enter shift|text| |o]; try discriminate;
      cbn [step].
    + destruct (sendBtn_disabled st); rewrite ?Hb; auto.
    + destruct (enter && negb shift); rewrite ?Hb; auto.
    + rewrite (useSuggestion_blocked text st Hi). auto.
  - intros ev Hev. destruct ev as [v| |enter shift|text| |o]; cbn [step] in Hev.
    + cbn in Hev. congruence.
    + destruct (sendBtn_disabled st); rewrite ?Hb in Hev; congruence.
    + destruct (enter && negb shift); rewrite ?Hb in Hev; congruence.
    + rewrite (useSuggestion_blocked text st Hi) in Hev. cbn in Hev. congruence.
    + cbn in Hev. congruence.
    + now exists o.
  - intros o. cbn [step]. rewrite F, Hi.
    destruct (settle_flags o (set_network (requests st) 0 st)) as (H1 & _ & _ & H4 & _).
    now rewrite H1, H4.
Qed.

Lemma in_flight_send_is_rejected_witness :
  (0 < pending (run [Input (js "hi"); ClickSend] (init welcome_page)))%nat /\
  isProcessing (run [Input (js "hi"); ClickSend] (init welcome_page)) = true.
Proof.
  assert (H : (0 < pending (run [Input (js "hi"); ClickSend] (init welcome_page)))%nat)
    by (vm_compute; lia).
  split; [exact H|].
  exact (proj1 (in_flight_send_is_rejected welcome_page
                  [Input (js "hi"); ClickSend] H)).
Defined.

(** The newline normalisation of the textarea. *)
Lemma normalize_newlines_bound (n : nat) (s : jsstring) :
  (List.length s <= n)%nat ->
  ~ In 13 (normalize_newlines s) /\
  (blank s = true -> blank (normalize_newlines s) = true).
Proof.
  revert s. induction n as [|n IH]; intros s Hn.
  - destruct s; [|simpl in Hn; lia]. split; [intros [] | reflexivity].
  - destruct s as [|c tl]; [split; [intros [] | reflexivity]|].
    simpl in Hn. cbn [normalize_newlines].
    destruct (N.eqb_spec c 13) as [-> | Hc].
    + destruct tl as [|d rest].
      * split; [intros [H | []]; discriminate | reflexivity].
      * simpl in Hn.
        destruct (d =? 10) eqn:Hd.
        -- destruct (IH rest ltac:(lia)) as [H1 H2]. split.
           ++ intros [H | H]; [discriminate | now apply H1].
           ++ intros Hb. cbn [blank forallb] in Hb.
              apply andb_true_iff in Hb as [_ Hb].
              apply andb_true_iff in Hb as [_ Hb].
              cbn [blank forallb]. apply andb_true_iff. split; [reflexivity|].
              now apply H2.
        -- destruct (IH (d :: rest) ltac:(simpl; lia)) as [H1 H2]. split.
           ++ intros [H | H]; [discriminate | now apply H1].
           ++ intros Hb. cbn [blank forallb] in Hb.
              apply andb_true_iff in Hb as [_ Hb].
              cbn [blank forallb]. apply andb_true_iff. split; [reflexivity|].
              now apply H2.
    + destruct (IH tl ltac:(lia)) as [H1 H2]. split.
      * intros [H | H]; [congruence | now apply H1].
      * intros Hb. cbn [blank forallb] in Hb.
        apply andb_true_iff in Hb as [Hb1 Hb].
        cbn [blank forallb]. apply andb_true_iff. split; [exact Hb1|].
        now apply H2.
Qed.

Lemma normalize_newlines_no_cr (s : jsstring) : ~ In 13 (normalize_newlines s).
Proof. exact (proj1 (normalize_newlines_bound (List.length s) s (le_n _))). Qed.

Lemma normalize_newlines_blank (s : jsstring) :
  blank s = true -> blank (normalize_newlines s) = true.
Proof. exact (proj2 (normalize_newlines_bound (List.length s) s (le_n _))). Qed.

Lemma normalize_newlines_fixed (s : jsstring) :
  ~ In 13 s -> normalize_newlines s = s.
Proof.
  induction s as [|c tl IH]; [reflexivity|]. intros H.
  cbn [normalize_newlines].
  destruct (N.eqb_spec c 13) as [-> | _]; [exfalso; apply H; now left|].
  rewrite IH; [reflexivity | intros G; apply H; now right].
Qed.

(** Neither promise callback touches the text of the input. *)
Lemma settle_userInput (o : outcome) (st : state) :
  userInput (settle o st) = userInput st.
Proof.
  assert (Herr : forall e s, userInput (on_error e s) = userInput s).
  { intros e s. unfold on_error.
    destruct (addMessage_string apology bot (hideThinkingIndicator s))
      as (st2 & E & _).
    rewrite E. apply addMessage_flags in E as (_ & _ & _ & _ & Hu & _).
    destruct (hide_fields s) as (_ & _ & _ & Hu' & _).
    cbn [userInput reset_processing set_focused set_sendBtn_disabled
         set_isProcessing set_console].
    congruence. }
  destruct (hide_fields st) as (_ & _ & _ & Hu' & _).
  destruct o as [reason | [|] [|data]]; cbn [settle]; try apply Herr.
  destruct (on_data_cases data st) as [(st2 & -> & Hst2) | ->].
  - cbn [userInput reset_processing set_focused set_sendBtn_disabled
         set_isProcessing].
    destruct Hst2 as [E | (text & E)].
    + apply addMedicalResponse_appends in E as (c & d & n & ->).
      exact Hu'.
    + apply addMessage_flags in E as (_ & _ & _ & _ & Hu & _). congruence.
  - rewrite Herr. exact Hu'.
Qed.

(** C2, amended — When the input holds only white space, the input handler
    disables the send control, and a send attempt (the send operation
    itself, a click, Enter) changes nothing, whatever the control shows: no
    turn is appended, the input keeps its text and no request is
    dispatched.  The control does not stay disabled over such an input:
    both promise callbacks enable it when a request settles, and
    [useSuggestion] enables it for a blank suggestion, in each case without
    looking at the input and without sending anything. *)
Theorem blank_input_is_not_sent (st : state) (s : jsstring) :
  blank s = true ->
  sendBtn_disabled (step st (Input s)) = true /\
  userInput (step st (Input s)) = s /\
  sendMessage (step st (Input s)) = step st (Input s) /\
  (forall ev, send_attempt ev = true -> (forall text, ev <> Suggestion text) ->
     step (step st (Input s)) ev = step st (Input s)) /\
  (userInput st = s ->
   sendMessage st = st /\ step st ClickSend = st /\
   forall enter shift, step st (KeyPress enter shift) = st) /\
  (userInput st = s ->
   forall o, sendBtn_disabled (settle o st) = false /\
             userInput (settle o st) = s /\
             sendMessage (settle o st) = settle o st) /\
  (step st (Suggestion s) =
     set_focused true
       (set_sendBtn_disabled false (set_userInput (normalize_newlines s) st)) /\
   blank (userInput (step st (Suggestion s))) = true /\
   sendBtn_disabled (step st (Suggestion s)) = false /\
   chatBox (step st (Suggestion s)) = chatBox st /\
   requests (step st (Suggestion s)) = requests st).
Proof.
  intros Hb. assert (Hs := Hb). apply trim_empty_iff in Hs.
  assert (G : forall s0, userInput s0 = s -> sendMessage s0 = s0).
  { intros s0 E. apply sendMessage_blocked. now rewrite E, Hs. }
  assert (Hn : blank (normalize_newlines s) = true)
    by now apply normalize_newlines_blank.
  assert (Es : step st (Suggestion s) =
               set_focused true
                 (set_sendBtn_disabled false
                    (set_userInput (normalize_newlines s) st))).
  { cbn [step]. unfold useSuggestion. apply sendMessage_blocked.
    cbn [userInput set_focused set_sendBtn_disabled set_userInput].
    apply trim_empty_iff in Hn. now rewrite Hn. }
  splits.
  - cbn [step]. unfold on_input.
    cbn [sendBtn_disabled set_sendBtn_disabled]. now rewrite Hs.
  - reflexivity.
  - now apply G.
  - intros ev Hev Hne. cbn [step]. unfold on_input.
    destruct ev as [v| |enter shift|text| |o];
      try discriminate; cbn [step sendBtn_disabled set_sendBtn_disabled].
    + rewrite Hs. reflexivity.
    + destruct (enter && negb shift); [now apply G | reflexivity].
    + now destruct (Hne text).
  - intros E. splits; [now apply G | | ].
    + cbn [step]. destruct (sendBtn_disabled st); [reflexivity | now apply G].
    + intros enter shift. cbn [step].
      destruct (enter && negb shift); [now apply G | reflexivity].
  - intros E o.
    destruct (settle_flags o st) as (_ & H2 & _).
    pose proof (settle_userInput o st) as Hu. rewrite E in Hu.
    splits; [exact H2 | exact Hu | now apply G].
  - exact Es.
  - rewrite Es. exact Hn.
  - now rewrite Es.
  - now rewrite Es.
  - now rewrite Es.
Qed.

Lemma blank_input_is_not_sent_witness :
  blank (js "  " ++ [newline]) = true /\
  sendBtn_disabled (step (init welcome_page) (Input (js "  " ++ [newline]))) = true.
Proof.
  assert (H : blank (js "  " ++ [newline]) = true) by reflexivity.
  split; [exact H|].
  exact (proj1 (blank_input_is_not_sent (init welcome_page) _ H)).
Defined.

(** C2, as stated, fails: the send control is enabled over an input that
    holds nothing but white space, once a request has settled (the input was
    emptied by the send, the callback enables the control) and after a
    blank suggestion. *)
Lemma send_control_enabled_over_blank_input :
  blank (userInput (run [Input (js "hi"); ClickSend; Settle (Rejected [])]
                      (init welcome_page))) = true /\
  sendBtn_disabled (run [Input (js "hi"); ClickSend; Settle (Rejected [])]
                      (init welcome_page)) = false /\
  blank (userInput (run [Input (js "hi"); ClickSend;
                         Settle (Responded true (Json medical_payload))]
                      (init welcome_page))) = true /\
  sendBtn_disabled (run [Input (js "hi"); ClickSend;
                         Settle (Responded true (Json medical_payload))]
                      (init welcome_page)) = false /\
  userInput (run [Suggestion (js "  ")] (init welcome_page)) = js "  " /\
  sendBtn_disabled (run [Suggestion (js "  ")] (init welcome_page)) = false.
Proof. vm_compute. repeat split. Qed.

(** The send button follows the last handler that set it: typing while a
    request is in flight enables it again. *)
Remark send_control_follows_last_handler :
  isProcessing (run [Input (js "hi"); ClickSend; Input (js "more")]
                  (init welcome_page)) = true /\
  sendBtn_disabled (run [Input (js "hi"); ClickSend; Input (js "more")]
                      (init welcome_page)) = false.
Proof. vm_compute. repeat split. Qed.

End SendFlow.

(* ================================================================= *)
(** * The Thinking Placeholder *)

Section Placeholder.

Lemma placeholders_tracked (st : state) :
  tidy st -> placeholders st = List.length (tracked st).
Proof.
  intros [_ _ H]. unfold placeholders. rewrite <- H.
  unfold placeholder_ids. now rewrite length_map.
Qed.

Lemma placeholders_show (st : state) :
  tidy st -> placeholders (showThinkingIndicator st) = 1%nat.
Proof.
  intros H. rewrite (placeholders_tracked _ (tidy_show st H)).
  unfold tracked. now destruct (show_fields st) as (_ & -> & _).
Qed.

Lemma tidy_iter_show (k : nat) (st : state) :
  tidy st -> tidy (Nat.iter k showThinkingIndicator st).
Proof.
  intros H. induction k as [|k IH]; [exact H|]. simpl. now apply tidy_show.
Qed.

(** C3 — In every state the page reaches there is at most one Thinking
    Placeholder in the view.  [showThinkingIndicator] evicts the live
    placeholder before it appends the new one, so that one, two or any
    number of successive invocations leave exactly one; and
    [hideThinkingIndicator] leaves none. *)
Theorem at_most_one_placeholder (p : page) (evs : list event) (k : nat) :
  no_placeholder p ->
  (placeholders (run evs (init p)) <= 1)%nat /\
  chatBox (showThinkingIndicator (run evs (init p))) =
    turns (run evs (init p)) ++
    [(next_node (run evs (init p)), thinking_node)] /\
  placeholders (showThinkingIndicator (run evs (init p))) = 1%nat /\
  placeholders
    (showThinkingIndicator (showThinkingIndicator (run evs (init p)))) = 1%nat /\
  placeholders (Nat.iter (S k) showThinkingIndicator (run evs (init p))) = 1%nat /\
  placeholders (hideThinkingIndicator (run evs (init p))) = 0%nat.
Proof.
  intros Hp. set (st := run evs (init p)).
  assert (T : tidy st) by (apply consistent_run, consistent_init, Hp).
  splits.
  - rewrite (placeholders_tracked st T). unfold tracked.
    destruct (thinkingMessage st); simpl; lia.
  - now apply show_chatBox.
  - now apply placeholders_show.
  - now apply placeholders_show, tidy_show.
  - simpl. now apply placeholders_show, tidy_iter_show.
  - rewrite (placeholders_tracked _ (tidy_hide st T)). unfold tracked.
    now destruct (hide_fields st) as (_ & -> & _).
Qed.

Lemma at_most_one_placeholder_witness :
  no_placeholder welcome_page /\
  placeholders
    (showThinkingIndicator
       (showThinkingIndicator
          (run [Input (js "hi"); ClickSend] (init welcome_page)))) = 1%nat.
Proof.
  assert (H : no_placeholder welcome_page) by reflexivity.
  split; [exact H|].
  exact (proj1 (proj2 (proj2 (proj2
    (at_most_one_placeholder welcome_page [Input (js "hi"); ClickSend] 0 H))))).
Defined.

End Placeholder.

(* ================================================================= *)
(** * Failures *)

Section Failure.

(** What the [catch] callback leaves behind, for any error it receives. *)
Lemma failure_path (st : state) (o : outcome) (e : error) :
  tidy st -> (0 < pending st)%nat -> failure_of o = Some e ->
  placeholders (step st (Settle o)) = 0%nat /\
  chatBox (step st (Settle o)) = turns st ++ [(next_node st, apology_node)] /\
  console (step st (Settle o)) = console st ++ [e] /\
  isProcessing (step st (Settle o)) = false /\
  sendBtn_disabled (step st (Settle o)) = false /\
  requests (step st (Settle o)) = requests st.
Proof.
  intros T Hp Ho. cbn [step]. destruct (pending st) as [|q] eqn:Hq; [lia|].
  set (s1 := set_network (requests st) q st).
  assert (T1 : tidy s1) by (eapply tidy_same; [| | |exact T]; reflexivity).
  assert (E : settle o s1 = on_error e s1).
  { destruct o as [reason | [|] [|data]]; cbn in Ho; try discriminate;
      injection Ho as <-; reflexivity. }
  rewrite E.
  destruct (on_error_flags e s1) as (H1 & H2 & H3 & _ & H5 & _).
  destruct (on_error_unfold e s1 T1) as (s2 & Es2 & Hc & _ & _ & _ & _ & _ & T2 & _).
  assert (Hchat : chatBox (on_error e s1) = turns st ++ [(next_node st, apology_node)]).
  { rewrite Es2. exact Hc. }
  splits; try assumption.
  unfold placeholders. rewrite Hchat, filter_app, turns_no_placeholder.
  reflexivity.
Qed.

(** Once the flag is clear, a non-blank input followed by a click on the
    send button dispatches a request. *)
Lemma attempt_accepted (st : state) (msg : jsstring) :
  isProcessing st = false -> trim msg <> [] ->
  requests (run [Input msg; ClickSend] st) = requests st ++ [mkRequest (trim msg)].
Proof.
  intros Hi Hm. cbn [run fold_left step]. unfold on_input.
  destruct (is_empty (trim msg)) eqn:E; [apply is_empty_true in E; contradiction|].
  cbn [sendBtn_disabled set_sendBtn_disabled].
  set (s1 := set_sendBtn_disabled false (set_userInput msg st)).
  assert (H1 : trim (userInput s1) <> []) by exact Hm.
  assert (H2 : isProcessing s1 = false) by exact Hi.
  destruct (sendMessage_dispatch s1 H1 H2) as (_ & _ & _ & Hr & _).
  exact Hr.
Qed.



(** C10 — A response with an ok status whose body does not parse takes the
    failure path too: the placeholder is removed, the same apology is
    appended, the error is logged, the in-flight flag is cleared and the send
    control enabled.  The view ends up as after a network error. *)
Theorem unparseable_body_shows_apology
    (p : page) (evs : list event) (reason msg : jsstring) :
  no_placeholder p ->
  (0 < pending (run evs (init p)))%nat ->
  trim msg <> [] ->
  placeholders (step (run evs (init p)) (Settle (Responded true Unparseable))) = 0%nat /\
  chatBox (step (run evs (init p)) (Settle (Responded true Unparseable))) =
    turns (run evs (init p)) ++ [(next_node (run evs (init p)), apology_node)] /\
  chatBox (step (run evs (init p)) (Settle (Responded true Unparseable))) =
    chatBox (step (run evs (init p)) (Settle (Rejected reason))) /\
  console (step (run evs (init p)) (Settle (Responded true Unparseable))) =
    console (run evs (init p)) ++ [JsonError] /\
  isProcessing (step (run evs (init p)) (Settle (Responded true Unparseable))) = false /\
  sendBtn_disabled (step (run evs (init p)) (Settle (Responded true Unparseable))) = false /\
  requests (run [Input msg; ClickSend]
              (step (run evs (init p)) (Settle (Responded true Unparseable)))) =
    requests (run evs (init p)) ++ [mkRequest (trim msg)].
Proof.
  intros Hp Hq Hm. set (st := run evs (init p)) in *.
  assert (T : tidy st) by (apply consistent_run, consistent_init, Hp).
  destruct (failure_path st (Responded true Unparseable) JsonError T Hq eq_refl)
    as (H1 & H2 & H3 & H4 & H5 & H6).
  destruct (failure_path st (Rejected reason) _ T Hq eq_refl) as (_ & H2' & _).
  splits; try assumption.
  - now rewrite H2, H2'.
  - rewrite (attempt_accepted _ msg H4 Hm). now rewrite H6.
Qed.

Lemma unparseable_body_shows_apology_witness :
  isProcessing
    (run [Input (js "hi"); ClickSend; Settle (Responded true Unparseable)]
       (init welcome_page)) = false.
Proof.
  assert (H1 : no_placeholder welcome_page) by reflexivity.
  assert (H2 : (0 < pending (run [Input (js "hi"); ClickSend] (init welcome_page)))%nat)
    by (vm_compute; lia).
  assert (H4 : trim (js "again") <> []) by (vm_compute; discriminate).
  exact (proj1 (proj2 (proj2 (proj2 (proj2
    (unparseable_body_shows_apology welcome_page [Input (js "hi"); ClickSend]
       (js "offline") (js "again") H1 H2 H4)))))).
Defined.

End Failure.

(* ================================================================= *)
(** * Rendering a plain reply *)

Section PlainReply.



Lemma replace_strong_no_double (s : jsstring) :
  has_double_star s = false -> replace_strong s = s.
Proof.
  unfold replace_strong, replace_group. generalize (List.length s) as fuel.
  intros fuel. revert s. induction fuel as [|fuel IH]; intros s H; [reflexivity|].
  destruct s as [|a tl]; [reflexivity|]. cbn [replace_group_fuel].
  assert (E : match_strong (a :: tl) = None /\ has_double_star tl = false).
  { destruct tl as [|b rest]; [now split|]. cbn [has_double_star] in H.
    apply orb_false_iff in H as [H1 H2]. split; [|exact H2].
    unfold match_strong. now rewrite H1. }
  destruct E as [-> Htl]. f_equal. now apply IH.
Qed.







End PlainReply.

(* ================================================================= *)
(** * Rendering a medical reply *)

Arguments symptom_tag : simpl never.

Section MedicalReply.

Lemma symptom_tags_strings (symptoms : list jsstring) :
  symptom_tags (map VString symptoms) = Some (flat_map symptom_tag symptoms).
Proof.
  induction symptoms as [|s l IH]; [reflexivity|]. simpl. now rewrite IH.
Qed.

Lemma occurs_here (needle after : jsstring) :
  occurs needle (needle ++ after).
Proof. now exists [], after. Qed.

Lemma occurs_later (before needle hay : jsstring) :
  occurs needle hay -> occurs needle (before ++ hay).
Proof.
  intros (a & b & ->). exists (before ++ a), b. now rewrite app_assoc.
Qed.

Lemma strip_prefix_app (pre s : jsstring) :
  strip_prefix pre (pre ++ s) = Some s.
Proof.
  induction pre as [|a pre IH]; [reflexivity|]. simpl. now rewrite N.eqb_refl.
Qed.

Lemma tagless_cons (c : char) (t : jsstring) :
  tagless (c :: t) = true <-> c <> lt_sign /\ tagless t = true.
Proof.
  unfold tagless. cbn [existsb]. rewrite negb_orb, andb_true_iff, negb_true_iff.
  rewrite N.eqb_neq. split; intros [H1 H2]; split; congruence.
Qed.

Lemma tagless_app (a b : jsstring) :
  tagless a = true -> tagless b = true -> tagless (a ++ b) = true.
Proof.
  intros Ha Hb. induction a as [|c a IH]; [exact Hb|].
  apply tagless_cons in Ha as [H1 H2]. cbn [app]. apply tagless_cons.
  split; [exact H1 | now apply IH].
Qed.

Lemma literal_tagless (s : jsstring) : literal s = true -> tagless s = true.
Proof.
  induction s as [|c s IH]; [reflexivity|]. unfold literal. cbn [forallb].
  intros H. apply andb_true_iff in H as [H1 H2]. apply tagless_cons. split.
  - intros ->. discriminate.
  - now apply IH.
Qed.

Lemma tagless_replace_underscores (s : jsstring) :
  tagless s = true -> tagless (replace_underscores s) = true.
Proof.
  induction s as [|c s IH]; [reflexivity|]. intros H.
  apply tagless_cons in H as [H1 H2]. unfold replace_underscores. cbn [map].
  apply tagless_cons. split; [|now apply IH].
  destruct (c =? underscore); [discriminate | exact H1].
Qed.

(** A text without [<] is read as one run, up to the next tag. *)
Lemma text_run_stop (t r : jsstring) :
  tagless t = true -> text_run (t ++ lt_sign :: r) = (t, lt_sign :: r).
Proof.
  induction t as [|c t IH]; intros H; [reflexivity|].
  apply tagless_cons in H as [H1 H2]. cbn [app text_run].
  apply N.eqb_neq in H1. rewrite H1, (IH H2). reflexivity.
Qed.

Lemma text_run_text (t : jsstring) :
  tagless t = true -> text_run t = (t, []).
Proof.
  induction t as [|c t IH]; intros H; [reflexivity|].
  apply tagless_cons in H as [H1 H2]. cbn [text_run].
  apply N.eqb_neq in H1. rewrite H1, (IH H2). reflexivity.
Qed.

Lemma symptom_tag_parts (s : jsstring) :
  symptom_tag s = chip_open ++ replace_underscores s ++ chip_close.
Proof. unfold symptom_tag, chip_open, chip_close. now rewrite <- !app_assoc. Qed.

Lemma chip_texts_fuel_step (fuel : nat) (t rest : jsstring) :
  tagless t = true ->
  chip_texts_fuel (S fuel) (chip_open ++ t ++ chip_close ++ rest) =
  match chip_texts_fuel fuel rest with
  | Some chips => Some (t :: chips)
  | None => None
  end.
Proof.
  intros Ht.
  assert (E : chip_open ++ t ++ chip_close ++ rest =
              lt_sign :: (tl chip_open ++ t ++ chip_close ++ rest))
    by reflexivity.
  assert (U : forall c l,
            chip_texts_fuel (S fuel) (c :: l) =
            match strip_prefix chip_open (c :: l) with
            | None => None
            | Some body =>
                let (t, r) := text_run body in
                match strip_prefix chip_close r with
                | None => None
                | Some rest =>
                    match chip_texts_fuel fuel rest with
                    | Some chips => Some (t :: chips)
                    | None => None
                    end
                end
            end) by reflexivity.
  rewrite E, U, <- E, strip_prefix_app.
  assert (C : chip_close ++ rest = lt_sign :: (tl chip_close ++ rest))
    by reflexivity.
  rewrite C, (text_run_stop t _ Ht), <- C, strip_prefix_app. reflexivity.
Qed.

Lemma chip_texts_fuel_chips (symptoms : list jsstring) (fuel : nat) :
  forallb tagless symptoms = true ->
  (List.length (flat_map symptom_tag symptoms) <= fuel)%nat ->
  chip_texts_fuel fuel (flat_map symptom_tag symptoms) =
  Some (map replace_underscores symptoms).
Proof.
  revert fuel. induction symptoms as [|s l IH]; intros fuel Ht Hf.
  - now destruct fuel.
  - cbn [forallb] in Ht. apply andb_true_iff in Ht as [Hs Hl].
    cbn [flat_map map] in *. rewrite symptom_tag_parts, <- !app_assoc in *.
    rewrite !length_app in Hf.
    assert (Ho : (1 <= List.length chip_open)%nat) by (vm_compute; lia).
    destruct fuel as [|fuel]; [lia|].
    rewrite (chip_texts_fuel_step fuel _ _ (tagless_replace_underscores s Hs)).
    rewrite IH; [reflexivity | exact Hl | lia].
Qed.

(** The chips of symptoms that hold no markup: one for each symptom, with
    its text. *)
Lemma chips_read_back (symptoms : list jsstring) :
  forallb literal symptoms = true ->
  chip_texts (flat_map symptom_tag symptoms) =
  Some (map replace_underscores symptoms).
Proof.
  intros H. apply chip_texts_fuel_chips; [|apply le_n].
  apply forallb_forall. intros s Hs. apply literal_tagless.
  rewrite forallb_forall in H. now apply H.
Qed.

(** The medical branch, seen from the page, for a payload whose symptoms
    are strings and whose disease prints. *)
Lemma medical_reply_path
    (p : page) (evs : list event) (data : value)
    (symptoms : list jsstring) (disease : value) (printed : jsstring) :
  no_placeholder p ->
  (0 < pending (run evs (init p)))%nat ->
  field data "mode" = Some (VString (js "medical")) ->
  field data "symptoms" = Some (VArray (map VString symptoms)) ->
  field data "disease" = Some disease ->
  to_string disease = Some printed ->
  chatBox (step (run evs (init p)) (Settle (Responded true (Json data)))) =
    turns (run evs (init p)) ++
    [(next_node (run evs (init p)),
      medical_node (flat_map symptom_tag symptoms) printed
        (List.length symptoms))] /\
  console (step (run evs (init p)) (Settle (Responded true (Json data)))) =
    console (run evs (init p)) /\
  isProcessing (step (run evs (init p)) (Settle (Responded true (Json data)))) = false /\
  sendBtn_disabled (step (run evs (init p)) (Settle (Responded true (Json data)))) = false.
Proof.
  intros Hp Hq Hm Hs Hd Ht. set (st := run evs (init p)) in *.
  assert (C : consistent st) by (apply consistent_run, consistent_init, Hp).
  destruct C as [T F]. cbn [step].
  destruct (pending st) as [|q] eqn:Eq; [lia|].
  set (s1 := set_network (requests st) q st).
  assert (T1 : tidy s1) by (eapply tidy_same; [| | |exact T]; reflexivity).
  assert (E : on_data data s1 =
              (reset_processing
                 (appendChild
                    (medical_node (flat_map symptom_tag symptoms) printed
                       (List.length symptoms))
                    (hideThinkingIndicator s1)), None)).
  { unfold on_data, addMedicalResponse. rewrite Hm, Hs, Hd, Ht.
    cbn [is_medical].
    replace (jsstring_eqb (js "medical") (js "medical")) with true by reflexivity.
    now rewrite symptom_tags_strings, length_map. }
  destruct (settle_flags (Responded true (Json data)) s1) as (H1 & H2 & _).
  destruct (hide_fields s1) as (Hn & _ & _ & _ & _ & _ & _ & _ & Hk).
  splits; try assumption; cbn [settle]; rewrite E.
  - cbn [chatBox reset_processing set_focused set_sendBtn_disabled
         set_isProcessing appendChild set_chatBox].
    now rewrite (hide_chatBox s1 T1), Hn.
  - cbn [console reset_processing set_focused set_sendBtn_disabled
         set_isProcessing appendChild set_chatBox].
    exact Hk.
Qed.

(** C6 — What the code does with a reply whose mode is [medical], whose
    symptoms are an array of strings and whose disease is a string.  The
    placeholder gives way to one medical turn at the end of the chat box,
    which holds, in this order, the header, the category tag, the symptom
    list, the condition line, the fixed disclaimer and the footer with the
    number of symptoms followed by [symptoms].  The symptom list holds the
    chips and nothing else; when no symptom holds markup these are one chip
    per symptom, reading the symptom with every underscore turned into a
    space, and when the disease holds no markup the condition line shows it
    after its label.  A symptom that holds markup breaks this:
    [split_symptom] alone gives two chips. *)
Theorem medical_reply_rendering
    (p : page) (evs : list event) (data : value)
    (symptoms : list jsstring) (disease : jsstring) :
  no_placeholder p ->
  (0 < pending (run evs (init p)))%nat ->
  field data "mode" = Some (VString (js "medical")) ->
  field data "symptoms" = Some (VArray (map VString symptoms)) ->
  field data "disease" = Some (VString disease) ->
  chatBox (step (run evs (init p)) (Settle (Responded true (Json data)))) =
    turns (run evs (init p)) ++
    [(next_node (run evs (init p)),
      Element "div" ["message"; "medical"]%string
        [ message_header "fas fa-stethoscope" "Symptom Analysis";
          Element "div" ["medical-category"%string]
            [Markup (icon_markup "fas fa-diagnoses" ++ js " Medical Assessment")];
          Element "div" []
            [Markup (symptoms_markup (flat_map symptom_tag symptoms))];
          Element "div" ["medical-content"%string]
            [Markup (condition_markup disease)];
          Element "div" ["medical-disclaimer"%string] [Markup disclaimer_markup];
          Element "div" ["response-footer"%string]
            [Markup (footer_markup (List.length symptoms))] ])] /\
  symptoms_markup (flat_map symptom_tag symptoms) =
    symptom_list_open ++ flat_map symptom_tag symptoms ++ symptom_list_close /\
  (forallb literal symptoms = true ->
   chip_texts (flat_map symptom_tag symptoms) =
   Some (map replace_underscores symptoms)) /\
  (forall s, In s symptoms ->
     ~ In underscore (replace_underscores s) /\
     List.length (replace_underscores s) = List.length s /\
     forall i, nth i (replace_underscores s) 0 =
               if nth i s 0 =? underscore then space else nth i s 0) /\
  (literal disease = true ->
   strip_prefix condition_label (condition_markup disease) =
     Some (disease ++ [newline] ++ indent 16) /\
   text_run (disease ++ [newline] ++ indent 16) =
     (disease ++ [newline] ++ indent 16, [])) /\
  occurs (js "<strong>Important:</strong> This is not a medical diagnosis. ")
    disclaimer_markup /\
  occurs (js "Consult a healthcare professional for accurate assessment.")
    disclaimer_markup /\
  occurs (decimal (List.length symptoms) ++ js " symptoms")
    (footer_markup (List.length symptoms)) /\
  read_decimal (decimal (List.length symptoms)) = List.length symptoms /\
  field split_chip_payload "symptoms" = Some (VArray (map VString [split_symptom])) /\
  literal split_symptom = false /\
  chip_texts (flat_map symptom_tag [split_symptom]) = Some [js "a"; js "b"].
Proof.
  intros Hp Hq Hm Hs Hd. splits.
  - exact (proj1 (medical_reply_path p evs data symptoms (VString disease)
                    disease Hp Hq Hm Hs Hd eq_refl)).
  - reflexivity.
  - apply chips_read_back.
  - intros s Hin. splits.
    + apply replace_underscores_clean.
    + apply replace_underscores_length.
    + intros i. apply replace_underscores_nth.
  - intros Hl.
    change (condition_markup disease)
      with (condition_label ++ disease ++ [newline] ++ indent 16).
    split; [apply strip_prefix_app|].
    apply text_run_text, tagless_app;
      [now apply literal_tagless | reflexivity].
  - unfold disclaimer_markup. do 2 apply occurs_later. apply occurs_here.
  - unfold disclaimer_markup. do 5 apply occurs_later. apply occurs_here.
  - unfold footer_markup. do 27 apply occurs_later.
    exists [], (js "</span>" ++ [newline] ++ indent 20 ++ js "</div>" ++
                [newline] ++ indent 16).
    rewrite <- !app_assoc. reflexivity.
  - apply read_decimal_decimal.
  - reflexivity.
  - reflexivity.
  - vm_compute. reflexivity.
Qed.

Lemma medical_reply_rendering_witness :
  map (fun n => classes_of (snd n))
    (chatBox (step (run [Input (js "hi"); ClickSend] (init welcome_page))
                (Settle (Responded true (Json medical_payload))))) =
    [["message"; "bot"]; ["message"; "user"]; ["message"; "medical"]]%string /\
  chip_texts (flat_map symptom_tag [js "chest_pain"; js "fever"]) =
    Some [js "chest pain"; js "fever"] /\
  occurs (js "2 symptoms") (footer_markup 2).
Proof.
  assert (H1 : no_placeholder welcome_page) by reflexivity.
  assert (H2 : (0 < pending (run [Input (js "hi"); ClickSend] (init welcome_page)))%nat)
    by (vm_compute; lia).
  pose proof (medical_reply_rendering welcome_page [Input (js "hi"); ClickSend]
                medical_payload [js "chest_pain"; js "fever"] (js "Flu")
                H1 H2 eq_refl eq_refl eq_refl)
    as (Hc & _ & Hchips & _ & _ & _ & _ & Hfoot & _).
  splits; [rewrite Hc; reflexivity | exact (Hchips eq_refl) | exact Hfoot].
Defined.

(** C8 — When the symptoms of a medical payload are missing or are not an
    array, [addMedicalResponse] throws instead of producing a turn: the
    [then] callback ends with a [TypeError] having appended nothing, and the
    [catch] callback takes over. *)
Theorem malformed_symptoms_fail (st : state) (data : value) :
  (forall items, field data "symptoms" <> Some (VArray items)) ->
  addMedicalResponse data st = None /\
  (field data "mode" = Some (VString (js "medical")) ->
   on_data data st = (hideThinkingIndicator st, Some TypeError) /\
   settle (Responded true (Json data)) st =
     on_error TypeError (hideThinkingIndicator st)) /\
  (forall fields, data = VObject fields ->
     lookup (js "symptoms") fields = None ->
     field data "symptoms" = Some VUndefined).
Proof.
  intros H.
  assert (E : forall s, addMedicalResponse data s = None).
  { intros s. unfold addMedicalResponse.
    destruct (field data "symptoms") as [[| | | | |items|]|] eqn:F; try reflexivity.
    now destruct (H items). }
  splits; [apply E | | ].
  - intros Hm.
    assert (D : on_data data st = (hideThinkingIndicator st, Some TypeError)).
    { unfold on_data. rewrite Hm. cbn [is_medical].
      replace (jsstring_eqb (js "medical") (js "medical")) with true by reflexivity.
      now rewrite E. }
    split; [exact D|]. cbn [settle]. now rewrite D.
  - intros fields -> Hl. unfold field. now rewrite Hl.
Qed.

Lemma malformed_symptoms_fail_witness :
  addMedicalResponse
    (VObject [(js "mode", VString (js "medical")); (js "disease", VString (js "Flu"))])
    (init welcome_page) = None.
Proof.
  refine (proj1 (malformed_symptoms_fail (init welcome_page)
                   (VObject [(js "mode", VString (js "medical"));
                             (js "disease", VString (js "Flu"))]) _)).
  intros items H. vm_compute in H. discriminate.
Defined.

(** C9 — The medical branch writes the symptoms (underscores apart) and the
    disease into markup as they were received, where the plain branch would
    have written their escaped text: a bracket of a symptom or of the
    disease reaches the markup of the turn, and for some value the two
    branches write different text. *)
Theorem medical_reply_is_not_escaped :
  (forall s, symptom_tag s =
             js "<span class=" ++ quoted "symptom-tag" ++ js ">" ++
             replace_underscores s ++ js "</span>") /\
  (forall d, condition_markup d =
             [newline] ++ indent 20 ++
             js "<strong>Possible condition:</strong> " ++ d ++
             [newline] ++ indent 16) /\
  (forall s, In lt_sign s ->
     In lt_sign (replace_underscores s) /\ ~ In lt_sign (escape s) /\
     replace_underscores s <> escape s) /\
  (exists s,
     replace_underscores s <> render_text s /\
     symptom_tag s <>
       js "<span class=" ++ quoted "symptom-tag" ++ js ">" ++
       render_text s ++ js "</span>" /\
     condition_markup s <> condition_markup (render_text s) /\
     exists st,
       settle (Responded true
                 (Json (VObject [(js "mode", VString (js "medical"));
                                 (js "symptoms", VArray [VString s]);
                                 (js "disease", VString s)])))
         (init welcome_page) = st /\
       map (fun n => children_of (snd n)) (skipn 1 (chatBox st)) =
       [[ message_header "fas fa-stethoscope" "Symptom Analysis";
          Element "div" ["medical-category"%string]
            [Markup (icon_markup "fas fa-diagnoses" ++ js " Medical Assessment")];
          Element "div" [] [Markup (symptoms_markup (symptom_tag s))];
          Element "div" ["medical-content"%string] [Markup (condition_markup s)];
          Element "div" ["medical-disclaimer"%string] [Markup disclaimer_markup];
          Element "div" ["response-footer"%string] [Markup (footer_markup 1)] ]]).
Proof.
  splits.
  - reflexivity.
  - reflexivity.
  - intros s Hs.
    assert (H1 : In lt_sign (replace_underscores s)).
    { unfold replace_underscores. apply in_map_iff. exists lt_sign.
      split; [reflexivity | exact Hs]. }
    pose proof (proj1 (escape_no_angle s)) as H2.
    splits; [exact H1 | exact H2 | congruence].
  - exists (js "<b>"). splits; try (vm_compute; discriminate).
    eexists. split; [reflexivity|]. vm_compute. reflexivity.
Qed.

Lemma medical_reply_is_not_escaped_witness :
  In lt_sign (js "<b>") /\ replace_underscores (js "<b>") <> escape (js "<b>").
Proof.
  assert (H : In lt_sign (js "<b>")) by (left; reflexivity).
  split; [exact H|].
  exact (proj2 (proj2
    (proj1 (proj2 (proj2 medical_reply_is_not_escaped)) (js "<b>") H))).
Defined.

End MedicalReply.

(* ================================================================= *)
(** * The suggestion bubbles *)

Section Suggestions.

Lemma suggestions_gone_step (st : state) (ev : event) :
  suggestions st = None -> suggestions (step st ev) = None.
Proof.
  intros H.
  assert (Hsend : forall s, suggestions s = None -> suggestions (sendMessage s) = None).
  { intros s Hs. destruct (sendMessage_cases s) as [-> | [Hm Hp]]; [exact Hs|].
    destruct (sendMessage_dispatch s Hm Hp) as (_ & _ & _ & _ & _ & _ & G & _).
    now apply G. }
  destruct ev as [v| |enter shift|text| |o]; cbn [step].
  - exact H.
  - destruct (sendBtn_disabled st); [exact H | now apply Hsend].
  - destruct (enter && negb shift); [now apply Hsend | exact H].
  - apply Hsend. exact H.
  - exact H.
  - destruct (pending st) as [|q]; [exact H|].
    now apply (settle_flags o (set_network (requests st) q st)).
Qed.

(** After [addMessage] the bubbles are gone, unless the chat box holds
    no element but the node just appended. *)
Lemma addMessage_suggestions (text : value) (type : sender) (st st' : state) :
  addMessage text type st = Some st' ->
  suggestions st' = None \/
  suggestions st' = suggestions st /\ (children_length st' <= 1)%nat.
Proof.
  unfold addMessage. destruct (message_children text type) as [children|];
    [|discriminate].
  cbv zeta.
  remember (appendChild (Element "div" ["message"%string; sender_class type] children) st)
    as st1 eqn:E1.
  assert (Es : suggestions st1 = suggestions st) by (subst st1; reflexivity).
  destruct (suggestions st1) as [pl|] eqn:Hs;
    [|intros E; injection E as <-; now left].
  destruct (1 <? children_length st1)%nat eqn:Hlen;
    intros E; injection E as <-; [now left | right].
  split; [congruence|]. apply Nat.ltb_ge in Hlen. exact Hlen.
Qed.

(** The element children once [addMessage] has appended its node. *)
Lemma addMessage_children (text : value) (type : sender) (st st' : state) :
  addMessage text type st = Some st' ->
  List.length (filter (fun n => is_element (snd n)) (chatBox st')) =
  S (List.length (filter (fun n => is_element (snd n)) (chatBox st))).
Proof.
  unfold addMessage. destruct (message_children text type) as [children|];
    [|discriminate].
  cbv zeta.
  remember (appendChild (Element "div" ["message"%string; sender_class type] children) st)
    as st1 eqn:E1.
  assert (Ec : chatBox st1 =
               chatBox st ++
               [(next_node st,
                 Element "div" ["message"%string; sender_class type] children)])
    by (subst st1; reflexivity).
  assert (G : List.length (filter (fun n => is_element (snd n)) (chatBox st1)) =
              S (List.length (filter (fun n => is_element (snd n)) (chatBox st)))).
  { rewrite Ec, filter_app, length_app. simpl. lia. }
  destruct (suggestions st1);
    [destruct (1 <? children_length st1)%nat|];
    intros E; injection E as <-; exact G.
Qed.

(** With an element already in the chat box, [addMessage] removes the
    bubbles. *)
Lemma addMessage_second_child (text : value) (type : sender) (st st' : state) :
  (1 <= children_length st)%nat ->
  addMessage text type st = Some st' -> suggestions st' = None.
Proof.
  intros Hl E.
  destruct (addMessage_suggestions _ _ _ _ E) as [H | [Hs H]]; [exact H|].
  pose proof (addMessage_children _ _ _ _ E) as Hc.
  exfalso. unfold children_length in *. rewrite Hc, Hs in H. lia.
Qed.

Lemma sendMessage_suggestions (st : state) :
  trim (userInput st) <> [] -> isProcessing st = false ->
  (1 <= children_length st)%nat ->
  suggestions (sendMessage st) = None.
Proof.
  intros Hm Hp Hlen. destruct (sendMessage_passes st Hm Hp) as (st2 & E & ->).
  cbn [suggestions set_network].
  destruct (show_fields (set_userInput [] st2)) as (_ & _ & -> & _).
  cbn [suggestions set_userInput].
  exact (addMessage_second_child _ _
           (set_sendBtn_disabled true (set_isProcessing true st)) _ Hlen E).
Qed.

(** C7, amended — As long as no medical reply has brought a tag of its own
    into the document: the suggestion bubbles are removed by [addMessage],
    and only when the chat box then holds more than one element; once
    removed they do not return; [addMedicalResponse] leaves them alone.  On
    a page whose chat box holds at least one element when the script starts,
    the bubbles are therefore gone as soon as anything has been appended to
    the chat box. *)
Theorem suggestions_removed_after_first_turn (p : page) (evs : list event) :
  forallb quiet evs = true ->
  ((1 <= children_length (init p))%nat ->
   suggestions (run evs (init p)) = None \/
   chatBox (run evs (init p)) = chatBox (init p)) /\
  (forall ev, quiet ev = true -> suggestions (run evs (init p)) = None ->
     suggestions (step (run evs (init p)) ev) = None) /\
  (forall text type st',
     addMessage text type (run evs (init p)) = Some st' ->
     suggestions st' = None \/ (children_length st' <= 1)%nat) /\
  (forall data st',
     tagless_medical data = true ->
     addMedicalResponse data (run evs (init p)) = Some st' ->
     suggestions st' = suggestions (run evs (init p))).
Proof.
  intros _. splits.
  - intros Hlen.
    assert (J : suggestions (run evs (init p)) = None \/
                (chatBox (run evs (init p)) = chatBox (init p) /\
                 suggestions (run evs (init p)) = suggestions (init p) /\
                 pending (run evs (init p)) = 0%nat));
      [|destruct J as [J | (J & _)]; [now left | now right]].
    induction evs as [|ev evs IH] using rev_ind; [right; now splits|].
    rewrite run_snoc. set (st := run evs (init p)) in *.
    destruct IH as [IH | (Hc & Hs & Hq)];
      [left; now apply suggestions_gone_step|].
    assert (L : (1 <= children_length st)%nat).
    { unfold children_length in *. now rewrite Hc, Hs. }
    assert (Hsend : forall s, chatBox s = chatBox st -> suggestions s = suggestions st ->
              pending s = pending st ->
              suggestions (sendMessage s) = None \/
              chatBox (sendMessage s) = chatBox (init p) /\
              suggestions (sendMessage s) = suggestions (init p) /\
              pending (sendMessage s) = 0%nat).
    { intros s E1 E2 E3. destruct (sendMessage_cases s) as [-> | [Hm Hp]].
      - right. splits; congruence.
      - left. apply sendMessage_suggestions; try assumption.
        unfold children_length in *. now rewrite E1, E2. }
    destruct ev as [v| |enter shift|text| |o]; cbn [step].
    + right. now splits.
    + destruct (sendBtn_disabled st); [right; now splits | now apply Hsend].
    + destruct (enter && negb shift); [now apply Hsend | right; now splits].
    + now apply Hsend.
    + right. now splits.
    + rewrite Hq. right. now splits.
  - intros ev _. apply suggestions_gone_step.
  - intros text type st' E.
    destruct (addMessage_suggestions _ _ _ _ E) as [H | [_ H]]; [now left | now right].
  - intros data st' _ E.
    now apply addMedicalResponse_appends in E as (c & d & n & ->).
Qed.

Lemma suggestions_removed_after_first_turn_witness :
  forallb quiet [Input (js "hi"); ClickSend] = true /\
  (1 <= children_length (init welcome_page))%nat /\
  suggestions (run [Input (js "hi"); ClickSend] (init welcome_page)) = None.
Proof.
  assert (Q : forallb quiet [Input (js "hi"); ClickSend] = true) by reflexivity.
  assert (H : (1 <= children_length (init welcome_page))%nat)
    by (vm_compute; lia).
  split; [exact Q|]. split; [exact H|].
  destruct (proj1 (suggestions_removed_after_first_turn welcome_page
                     [Input (js "hi"); ClickSend] Q) H) as [E | E].
  - exact E.
  - vm_compute in E. discriminate.
Defined.

(** C7, as stated, fails on a page whose chat box starts empty with the
    bubbles outside it: the first user turn is appended and the bubbles
    stay ([children.length] is 1, not more), and they are still there once
    the medical turn has been appended too. *)
Lemma suggestions_survive_first_turn :
  map (fun n => classes_of (snd n))
    (chatBox (run [Input (js "hi"); ClickSend] (init bare_page))) =
    [["message"; "user"]; ["message"; "bot"; "thinking-message"]]%string /\
  suggestions (run [Input (js "hi"); ClickSend] (init bare_page)) =
    Some Elsewhere /\
  map (fun n => classes_of (snd n))
    (chatBox (run [Input (js "hi"); ClickSend;
                   Settle (Responded true (Json medical_payload))]
                (init bare_page))) =
    [["message"; "user"]; ["message"; "medical"]]%string /\
  suggestions (run [Input (js "hi"); ClickSend;
                    Settle (Responded true (Json medical_payload))]
                 (init bare_page)) = Some Elsewhere.
Proof. vm_compute. repeat split. Qed.

End Suggestions.

(* ================================================================= *)
(** * Further properties of the handlers *)

(* ----------------------------------------------------------------- *)
(** ** What is sent *)

Section Trimming.

Lemma trim_start_split (s : jsstring) :
  exists b, blank b = true /\ s = b ++ trim_start s.
Proof.
  induction s as [|c tl (b & Hb & E)]; [now exists []|]. simpl.
  destruct (is_trimmed c) eqn:Hc.
  - exists (c :: b). simpl. rewrite Hc, Hb. split; [reflexivity | now f_equal].
  - now exists [].
Qed.

Lemma trim_start_visible (s : jsstring) : starts_visible (trim_start s) = true.
Proof.
  destruct (trim_start_head s) as [-> | (c & tl & -> & Hc)]; simpl;
    [reflexivity | now rewrite Hc].
Qed.

Lemma trim_start_fixed (s : jsstring) :
  starts_visible s = true -> trim_start s = s.
Proof.
  destruct s as [|c tl]; simpl; [reflexivity|]. intros H.
  apply negb_true_iff in H. now rewrite H.
Qed.

Lemma starts_visible_prefix (a b : jsstring) :
  a <> [] -> starts_visible (a ++ b) = starts_visible a.
Proof. destruct a; [congruence | reflexivity]. Qed.

(** [trim] cuts a blank prefix and a blank suffix off its argument. *)
Lemma trim_infix (s : jsstring) :
  exists a b, blank a = true /\ blank b = true /\ s = a ++ trim s ++ b.
Proof.
  destruct (trim_start_split s) as (a & Ha & Es).
  destruct (trim_start_split (rev (trim_start s))) as (b & Hb & Er).
  exists a, (rev b). rewrite blank_rev. splits; try assumption.
  unfold trim. rewrite <- rev_app_distr, <- Er, rev_involutive. exact Es.
Qed.

(** What [trim] returns is empty or has a visible first and a visible last
    code unit. *)
Lemma trim_ends (s : jsstring) :
  starts_visible (trim s) = true /\ starts_visible (rev (trim s)) = true.
Proof.
  unfold trim. rewrite rev_involutive.
  split; [|apply trim_start_visible].
  destruct (trim_start_split (rev (trim_start s))) as (b & Hb & Er).
  destruct (trim_start (rev (trim_start s))) as [|c tl] eqn:E; [reflexivity|].
  apply (f_equal (@rev char)) in Er. rewrite rev_involutive, rev_app_distr in Er.
  pose proof (trim_start_visible s) as Hv. rewrite Er in Hv.
  rewrite starts_visible_prefix in Hv; [exact Hv|].
  simpl. intros H. apply app_eq_nil in H as [_ H]. discriminate.
Qed.

Lemma trim_idempotent (s : jsstring) : trim (trim s) = trim s.
Proof.
  destruct (trim_ends s) as [H1 H2]. unfold trim at 1.
  rewrite (trim_start_fixed _ H1), (trim_start_fixed _ H2).
  apply rev_involutive.
Qed.

Lemma is_empty_trim (v : jsstring) : is_empty (trim v) = blank v.
Proof.
  destruct (blank v) eqn:B.
  - apply is_empty_true. now apply trim_empty_iff.
  - destruct (is_empty (trim v)) eqn:E; [|reflexivity].
    apply is_empty_true, trim_empty_iff in E. congruence.
Qed.

(** What an event does to the list of requests: nothing, or one more
    request carrying a trimmed, non-empty text. *)
Lemma step_requests (st : state) (ev : event) :
  requests (step st ev) = requests st \/
  exists text, trim text <> [] /\ isProcessing st = false /\
               requests (step st ev) = requests st ++ [mkRequest (trim text)].
Proof.
  assert (Hsend : forall s, requests s = requests st ->
            isProcessing s = isProcessing st ->
            requests (sendMessage s) = requests st \/
            exists text, trim text <> [] /\ isProcessing st = false /\
              requests (sendMessage s) = requests st ++ [mkRequest (trim text)]).
  { intros s Hr Hi. destruct (sendMessage_cases s) as [-> | [Hm Hp]]; [now left|].
    right. exists (userInput s).
    destruct (sendMessage_dispatch s Hm Hp) as (_ & _ & _ & E & _).
    splits; [exact Hm | congruence | now rewrite E, Hr]. }
  destruct ev as [v| |enter shift|text| |o]; cbn [step].
  - now left.
  - destruct (sendBtn_disabled st); [now left | now apply Hsend].
  - destruct (enter && negb shift); [now apply Hsend | now left].
  - now apply Hsend.
  - now left.
  - left. destruct (pending st) as [|q]; [reflexivity|].
    now destruct (settle_flags o (set_network (requests st) q st)) as (_ & _ & -> & _).
Qed.

(** X1 — Every request the page ever dispatches carries a text that is not
    empty, has no white space or line terminator at either end, and is left
    unchanged by a further [trim]. *)
Theorem requests_carry_trimmed_text (p : page) (evs : list event) (r : request) :
  In r (requests (run evs (init p))) ->
  message r <> [] /\
  starts_visible (message r) = true /\
  starts_visible (rev (message r)) = true /\
  trim (message r) = message r.
Proof.
  induction evs as [|ev evs IH] using rev_ind; [intros []|].
  rewrite run_snoc.
  destruct (step_requests (run evs (init p)) ev) as [-> | (text & Hm & _ & ->)];
    [exact IH|].
  intros H. apply in_app_iff in H as [H | [<- | []]]; [now apply IH|].
  cbn [message]. destruct (trim_ends text) as [H1 H2].
  splits; [exact Hm | exact H1 | exact H2 | apply trim_idempotent].
Qed.

Lemma requests_carry_trimmed_text_witness :
  message (mkRequest (js "hi")) <> [] /\
  trim (message (mkRequest (js "hi"))) = message (mkRequest (js "hi")).
Proof.
  assert (H : In (mkRequest (js "hi"))
                (requests (run [Input (js "  hi "); ClickSend] (init welcome_page))))
    by (vm_compute; left; reflexivity).
  pose proof (requests_carry_trimmed_text welcome_page
                [Input (js "  hi "); ClickSend] (mkRequest (js "hi")) H)
    as (H1 & _ & _ & H4).
  split; [exact H1 | exact H4].
Defined.

(** X2 — After an [input] event the send control is disabled exactly when
    the value holds nothing but white space and line terminators; the
    handler stores the value as typed and touches neither the chat box, the
    flag, the placeholder nor the network. *)
Theorem input_handler_sets_send_control (st : state) (v : jsstring) :
  sendBtn_disabled (step st (Input v)) = blank v /\
  (sendBtn_disabled (step st (Input v)) = false <->
   exists c, In c v /\ is_trimmed c = false) /\
  userInput (step st (Input v)) = v /\
  chatBox (step st (Input v)) = chatBox st /\
  isProcessing (step st (Input v)) = isProcessing st /\
  thinkingMessage (step st (Input v)) = thinkingMessage st /\
  suggestions (step st (Input v)) = suggestions st /\
  requests (step st (Input v)) = requests st /\
  pending (step st (Input v)) = pending st /\
  console (step st (Input v)) = console st.
Proof.
  cbn [step]. unfold on_input.
  cbn [chatBox suggestions userInput sendBtn_disabled isProcessing
       thinkingMessage requests pending console set_sendBtn_disabled
       set_userInput].
  rewrite is_empty_trim. splits; try reflexivity. split.
  - intros H. unfold blank in H.
    destruct (forallb is_trimmed v) eqn:E; [discriminate|].
    assert (G : ~ (forall c, In c v -> is_trimmed c = true)).
    { intros G. apply forallb_forall in G. congruence. }
    clear - G. induction v as [|c tl IH]; [destruct G; intros ? []|].
    destruct (is_trimmed c) eqn:Hc.
    + destruct IH as (d & Hd & Hv).
      * intros K. apply G. intros x [<- | Hx]; [exact Hc | now apply K].
      * exists d. split; [now right | exact Hv].
    + exists c. split; [now left | exact Hc].
  - intros (c & Hc & Hv). unfold blank.
    destruct (forallb is_trimmed v) eqn:E; [|reflexivity].
    rewrite forallb_forall in E. specialize (E c Hc). congruence.
Qed.

Lemma input_handler_sets_send_control_witness :
  sendBtn_disabled (step (init welcome_page) (Input (js " a "))) = false.
Proof.
  apply (proj2 (proj1 (proj2
    (input_handler_sets_send_control (init welcome_page) (js " a "))))).
  exists 97. split; [right; left; reflexivity | reflexivity].
Defined.

End Trimming.

(* ----------------------------------------------------------------- *)
(** ** What a send and a settled request append *)

Section Turns.

Lemma turns_same (a b : state) : chatBox a = chatBox b -> turns a = turns b.
Proof. unfold turns. now intros ->. Qed.

Lemma turns_of_turns (st : state) :
  filter (fun n => negb (is_placeholder (snd n))) (turns st) = turns st.
Proof.
  unfold turns. induction (chatBox st) as [|[j d] l IH]; [reflexivity|].
  simpl. destruct (negb (is_placeholder d)) eqn:E; simpl; rewrite ?E, IH;
    reflexivity.
Qed.

Lemma turns_hide (st : state) :
  tidy st -> turns (hideThinkingIndicator st) = turns st.
Proof.
  intros T. unfold turns at 1. rewrite (hide_chatBox st T).
  apply turns_of_turns.
Qed.

(** [addMessage], whatever the text: one node at the end, the placeholder
    reference and the input left alone. *)
Lemma addMessage_appends (text : value) (type : sender) (st st' : state) :
  addMessage text type st = Some st' ->
  exists children,
    message_children text type = Some children /\
    chatBox st' =
      chatBox st ++
      [(next_node st, Element "div" ["message"%string; sender_class type] children)] /\
    next_node st' = S (next_node st) /\
    thinkingMessage st' = thinkingMessage st /\
    focused st' = focused st.
Proof.
  unfold addMessage. destruct (message_children text type) as [children|];
    [|discriminate].
  intros E. exists children. split; [reflexivity|]. revert E. cbv zeta.
  remember (appendChild (Element "div" ["message"%string; sender_class type] children) st)
    as st1 eqn:E1.
  destruct (suggestions st1);
    [destruct (1 <? children_length st1)%nat|];
    intros E; injection E as <-; subst st1; splits; reflexivity.
Qed.

(** The promise chain, whatever the outcome: it appends exactly one turn
    after the turns already there, takes the placeholder away, keeps what
    the user has typed meanwhile and gives the input the focus. *)
Lemma settle_appends (o : outcome) (st : state) :
  tidy st ->
  exists d,
    (classes_of d = ["message"; "bot"]%string \/
     classes_of d = ["message"; "medical"]%string) /\
    chatBox (settle o st) = turns st ++ [(next_node st, d)] /\
    thinkingMessage (settle o st) = None /\
    userInput (settle o st) = userInput st /\
    focused (settle o st) = true.
Proof.
  intros T.
  assert (Herr : forall e s, tidy s ->
            (classes_of apology_node = ["message"; "bot"]%string \/
             classes_of apology_node = ["message"; "medical"]%string) /\
            chatBox (on_error e s) = turns s ++ [(next_node s, apology_node)] /\
            thinkingMessage (on_error e s) = None /\
            userInput (on_error e s) = userInput s /\
            focused (on_error e s) = true).
  { intros e s Ts.
    destruct (on_error_unfold e s Ts) as (s2 & -> & Hc & _ & Ht & Hu & _).
    splits; [now left | exact Hc | exact Ht | exact Hu | reflexivity]. }
  destruct (hide_fields st) as (Hn & Ht & _ & Hu & _).
  destruct o as [reason | [|] [|data]]; cbn [settle];
    try (eexists; now apply Herr).
  destruct (on_data_cases data st) as [(st2 & -> & Hst2) | ->].
  - destruct Hst2 as [E | (text & E)].
    + apply addMedicalResponse_appends in E as (c & d & n & ->).
      exists (medical_node c d n).
      cbn [chatBox thinkingMessage userInput focused reset_processing
           set_focused set_sendBtn_disabled set_isProcessing appendChild
           set_chatBox].
      rewrite (hide_chatBox st T), Hn, Ht, Hu. splits; try reflexivity.
      now right.
    + pose proof (addMessage_flags _ _ _ _ E) as (_ & _ & _ & _ & Hu2 & _).
      apply addMessage_appends in E as (children & _ & Hc & _ & Ht2 & _).
      exists (Element "div" ["message"%string; sender_class bot] children).
      cbn [chatBox thinkingMessage userInput focused reset_processing
           set_focused set_sendBtn_disabled set_isProcessing].
      rewrite Hc, (hide_chatBox st T), Hn, Ht2, Ht, Hu2, Hu.
      splits; try reflexivity. now left.
  - destruct (Herr TypeError _ (tidy_hide st T)) as (H1 & H2 & H3 & H4 & H5).
    exists apology_node. rewrite H2, H3, H4, H5, (turns_hide st T), Hn, Hu.
    splits; try reflexivity. now left.
Qed.


Lemma turns_snoc (st : state) (l : list (nat * dom)) (i : nat) (d : dom) :
  chatBox st = l ++ [(i, d)] ->
  turns st =
  filter (fun n => negb (is_placeholder (snd n))) l ++
  (if is_placeholder d then [] else [(i, d)]).
Proof.
  intros E. unfold turns. rewrite E, filter_app. simpl.
  now destruct (is_placeholder d).
Qed.

Lemma reply_not_placeholder (d : dom) :
  classes_of d = ["message"; "bot"]%string \/
  classes_of d = ["message"; "medical"]%string ->
  is_placeholder d = false.
Proof.
  unfold is_placeholder, has_class. now intros [-> | ->].
Qed.

Lemma settle_turns (o : outcome) (st : state) :
  tidy st ->
  exists d,
    (classes_of d = ["message"; "bot"]%string \/
     classes_of d = ["message"; "medical"]%string) /\
    chatBox (settle o st) = turns st ++ [(next_node st, d)] /\
    turns (settle o st) = turns st ++ [(next_node st, d)].
Proof.
  intros T. destruct (settle_appends o st T) as (d & Hd & Hc & _).
  exists d. splits; [exact Hd | exact Hc|].
  rewrite (turns_snoc _ _ _ _ Hc), (reply_not_placeholder d Hd).
  now rewrite turns_of_turns.
Qed.

Lemma sendMessage_turns (s : state) :
  tidy s -> trim (userInput s) <> [] -> isProcessing s = false ->
  thinkingMessage (sendMessage s) = Some (S (next_node s)) /\
  chatBox (sendMessage s) =
    turns s ++ [(next_node s, user_node (trim (userInput s)));
                (S (next_node s), thinking_node)] /\
  turns (sendMessage s) =
    turns s ++ [(next_node s, user_node (trim (userInput s)))].
Proof.
  intros Ts Hm Hq.
  destruct (sendMessage_dispatch s Hm Hq) as (_ & _ & _ & _ & _ & _ & _ & G).
  destruct (G Ts) as [_ Hc].
  destruct (sendMessage_passes s Hm Hq) as (s2 & E2 & Es).
  splits.
  - rewrite Es. cbn [thinkingMessage set_network].
    destruct (show_fields (set_userInput [] s2)) as (_ & -> & _).
    cbn [next_node set_userInput].
    now apply addMessage_appends in E2 as (_ & _ & _ & -> & _).
  - exact Hc.
  - assert (Hc' := Hc).
    change (turns s ++ [?a; ?b]) with (turns s ++ [a] ++ [b]) in Hc'.
    rewrite app_assoc in Hc'. rewrite (turns_snoc _ _ _ _ Hc').
    rewrite filter_app, turns_of_turns.
    change (is_placeholder thinking_node) with true.
    cbn [filter snd].
    change (is_placeholder (Element "div" ["message"; "user"]%string
              [Markup (render_text (trim (userInput s)))])) with false.
    cbn [negb]. now rewrite app_nil_r.
Qed.

(** The shape of the chat box in every state the page reaches: the turns,
    followed by the placeholder exactly while a request is in flight. *)
Lemma flight_shape (p : page) (evs : list event) :
  no_placeholder p ->
  if isProcessing (run evs (init p))
  then exists i,
         thinkingMessage (run evs (init p)) = Some i /\
         chatBox (run evs (init p)) =
           turns (run evs (init p)) ++ [(i, thinking_node)]
  else thinkingMessage (run evs (init p)) = None /\
       chatBox (run evs (init p)) = turns (run evs (init p)).
Proof.
  intros Hp. induction evs as [|ev evs IH] using rev_ind.
  - cbn [run fold_left]. split; [reflexivity|]. symmetry.
    apply turns_untracked; [now apply tidy_init | reflexivity].
  - rewrite run_snoc. set (st := run evs (init p)) in *.
    assert (C : consistent st) by (apply consistent_run, consistent_init, Hp).
    destruct C as [T F].
    assert (Hsend : forall s, chatBox s = chatBox st ->
              thinkingMessage s = thinkingMessage st ->
              isProcessing s = isProcessing st -> next_node s = next_node st ->
              if isProcessing (sendMessage s)
              then exists i, thinkingMessage (sendMessage s) = Some i /\
                     chatBox (sendMessage s) =
                       turns (sendMessage s) ++ [(i, thinking_node)]
              else thinkingMessage (sendMessage s) = None /\
                   chatBox (sendMessage s) = turns (sendMessage s)).
    { intros s Ec Et Ei En.
      assert (Ts : tidy s) by (eapply tidy_same; [| | |exact T]; congruence).
      destruct (sendMessage_cases s) as [-> | [Hm Hq]].
      - rewrite Ei, Et, Ec, (turns_same s st Ec). exact IH.
      - destruct (sendMessage_dispatch s Hm Hq) as (-> & _).
        destruct (sendMessage_turns s Ts Hm Hq) as (H1 & H2 & H3).
        exists (S (next_node s)). split; [exact H1|].
        rewrite H2, H3, <- app_assoc. reflexivity. }
    destruct ev as [v| |enter shift|text| |o]; cbn [step].
    + exact IH.
    + destruct (sendBtn_disabled st); [exact IH | now apply Hsend].
    + destruct (enter && negb shift); [now apply Hsend | exact IH].
    + now apply Hsend.
    + exact IH.
    + destruct (pending st) as [|q] eqn:Hq; [exact IH|].
      assert (T1 : tidy (set_network (requests st) q st))
        by (eapply tidy_same; [| | |exact T]; reflexivity).
      destruct (settle_flags o (set_network (requests st) q st)) as (-> & _).
      destruct (settle_appends o _ T1) as (_ & _ & _ & Ht & _).
      destruct (settle_turns o _ T1) as (d & _ & Hc & Hu).
      split; [exact Ht | now rewrite Hc, Hu].
Qed.

(** What one event does to the turns, the requests and the pending count:
    nothing; one user turn and one request; or one reply for the request
    that settles. *)
Lemma step_account (st : state) (ev : event) :
  tidy st ->
  (turns (step st ev) = turns st /\ requests (step st ev) = requests st /\
   pending (step st ev) = pending st) \/
  (exists text,
     turns (step st ev) = turns st ++ [(next_node st, user_node (trim text))] /\
     requests (step st ev) = requests st ++ [mkRequest (trim text)] /\
     pending (step st ev) = S (pending st)) \/
  (exists d,
     (classes_of d = ["message"; "bot"]%string \/
      classes_of d = ["message"; "medical"]%string) /\
     turns (step st ev) = turns st ++ [(next_node st, d)] /\
     requests (step st ev) = requests st /\
     pending st = S (pending (step st ev))).
Proof.
  intros T.
  assert (Hsend : forall s, chatBox s = chatBox st ->
            thinkingMessage s = thinkingMessage st ->
            next_node s = next_node st -> requests s = requests st ->
            pending s = pending st ->
            (turns (sendMessage s) = turns st /\
             requests (sendMessage s) = requests st /\
             pending (sendMessage s) = pending st) \/
            (exists text,
               turns (sendMessage s) =
                 turns st ++ [(next_node st, user_node (trim text))] /\
               requests (sendMessage s) = requests st ++ [mkRequest (trim text)] /\
               pending (sendMessage s) = S (pending st))).
  { intros s Ec Et En Er Ep.
    assert (Ts : tidy s) by (eapply tidy_same; [| | |exact T]; congruence).
    destruct (sendMessage_cases s) as [-> | [Hm Hq]].
    - left. splits; [now apply turns_same | exact Er | exact Ep].
    - right. exists (userInput s).
      destruct (sendMessage_dispatch s Hm Hq) as (_ & _ & _ & Hr & Hp & _).
      destruct (sendMessage_turns s Ts Hm Hq) as (_ & _ & Hu).
      rewrite Hu, Hr, Hp, (turns_same s st Ec), En, Er, Ep. now splits. }
  assert (Hsame : (turns st = turns st /\ requests st = requests st /\
                   pending st = pending st)) by now splits.
  destruct ev as [v| |enter shift|text| |o]; cbn [step].
  - now left.
  - destruct (sendBtn_disabled st); [now left|].
    destruct (Hsend st) as [H | H]; auto.
  - destruct (enter && negb shift); [|now left].
    destruct (Hsend st) as [H | H]; auto.
  - destruct (Hsend (set_focused true (set_sendBtn_disabled false
                       (set_userInput (normalize_newlines text) st))))
      as [H | H]; auto.
  - now left.
  - destruct (pending st) as [|q] eqn:Hq; [left; now splits|].
    right. right.
    assert (T1 : tidy (set_network (requests st) q st))
      by (eapply tidy_same; [| | |exact T]; reflexivity).
    destruct (settle_turns o _ T1) as (d & Hd & _ & Hu).
    destruct (settle_flags o (set_network (requests st) q st)) as (_ & _ & Hr & Hp & _).
    exists d. rewrite Hr, Hp. splits; try reflexivity; assumption.
Qed.

(** X3 — A send that passes the guard (visible text in the input, no
    request in flight) appends the user turn holding the trimmed text and,
    after it, the placeholder; it empties the input, disables the send
    control, sets the flag and dispatches one request with the trimmed text.
    A click on the enabled button and Enter without Shift both do this. *)
Theorem accepted_send_effects (p : page) (evs : list event) :
  no_placeholder p ->
  trim (userInput (run evs (init p))) <> [] ->
  isProcessing (run evs (init p)) = false ->
  chatBox (sendMessage (run evs (init p))) =
    chatBox (run evs (init p)) ++
    [(next_node (run evs (init p)),
      user_node (trim (userInput (run evs (init p)))));
     (S (next_node (run evs (init p))), thinking_node)] /\
  thinkingMessage (sendMessage (run evs (init p))) =
    Some (S (next_node (run evs (init p)))) /\
  userInput (sendMessage (run evs (init p))) = [] /\
  sendBtn_disabled (sendMessage (run evs (init p))) = true /\
  isProcessing (sendMessage (run evs (init p))) = true /\
  requests (sendMessage (run evs (init p))) =
    requests (run evs (init p)) ++
    [mkRequest (trim (userInput (run evs (init p))))] /\
  pending (sendMessage (run evs (init p))) = 1%nat /\
  console (sendMessage (run evs (init p))) = console (run evs (init p)) /\
  step (run evs (init p)) (KeyPress true false) = sendMessage (run evs (init p)) /\
  (sendBtn_disabled (run evs (init p)) = false ->
   step (run evs (init p)) ClickSend = sendMessage (run evs (init p))).
Proof.
  intros Hp Hm Hq. set (st := run evs (init p)) in *.
  assert (C : consistent st) by (apply consistent_run, consistent_init, Hp).
  destruct C as [T F]. unfold flag_matches in F. rewrite Hq in F.
  pose proof (flight_shape p evs Hp) as S. fold st in S. rewrite Hq in S.
  destruct S as [_ Hc].
  destruct (sendMessage_dispatch st Hm Hq) as (H1 & H2 & H3 & H4 & H5 & H6 & _).
  destruct (sendMessage_turns st T Hm Hq) as (G1 & G2 & _).
  splits; try assumption.
  - now rewrite G2, Hc.
  - now rewrite H5, F.
  - reflexivity.
  - intros Hd. cbn [step]. now rewrite Hd.
Qed.

Lemma accepted_send_effects_witness :
  map (fun n => classes_of (snd n))
    (chatBox (sendMessage (run [Input (js " hi ")] (init welcome_page)))) =
  [["message"; "bot"]; ["message"; "user"];
   ["message"; "bot"; "thinking-message"]]%string.
Proof.
  assert (H1 : no_placeholder welcome_page) by reflexivity.
  assert (H2 : trim (userInput (run [Input (js " hi ")] (init welcome_page))) <> [])
    by (vm_compute; discriminate).
  assert (H3 : isProcessing (run [Input (js " hi ")] (init welcome_page)) = false)
    by reflexivity.
  rewrite (proj1 (accepted_send_effects welcome_page [Input (js " hi ")] H1 H2 H3)).
  reflexivity.
Defined.

(** X4 — Whatever the outcome of the request, its settling replaces the
    placeholder by exactly one turn of the bot or medical kind (the reply or
    the apology), at the end of the turns already shown; it leaves no
    placeholder, clears the flag, enables the send control, focuses the
    input, and neither touches what the user typed meanwhile nor sends
    anything. *)
Theorem settled_request_appends_one_turn
    (p : page) (evs : list event) (o : outcome) :
  no_placeholder p ->
  (0 < pending (run evs (init p)))%nat ->
  exists i d,
    chatBox (run evs (init p)) = turns (run evs (init p)) ++ [(i, thinking_node)] /\
    chatBox (step (run evs (init p)) (Settle o)) =
      turns (run evs (init p)) ++ [(next_node (run evs (init p)), d)] /\
    (classes_of d = ["message"; "bot"]%string \/
     classes_of d = ["message"; "medical"]%string) /\
    placeholders (step (run evs (init p)) (Settle o)) = 0%nat /\
    thinkingMessage (step (run evs (init p)) (Settle o)) = None /\
    isProcessing (step (run evs (init p)) (Settle o)) = false /\
    sendBtn_disabled (step (run evs (init p)) (Settle o)) = false /\
    focused (step (run evs (init p)) (Settle o)) = true /\
    userInput (step (run evs (init p)) (Settle o)) = userInput (run evs (init p)) /\
    requests (step (run evs (init p)) (Settle o)) = requests (run evs (init p)) /\
    pending (step (run evs (init p)) (Settle o)) = 0%nat.
Proof.
  intros Hp Hq. set (st := run evs (init p)) in *.
  assert (C : consistent st) by (apply consistent_run, consistent_init, Hp).
  destruct C as [T F]. unfold flag_matches in F.
  pose proof (flight_shape p evs Hp) as S. fold st in S.
  destruct (isProcessing st) eqn:Hi; [|lia].
  destruct S as (i & _ & Hc). cbn [step]. rewrite F.
  assert (T1 : tidy (set_network (requests st) 0 st))
    by (eapply tidy_same; [| | |exact T]; reflexivity).
  destruct (settle_appends o _ T1) as (d & Hd & Hs & Ht & Hu & Hf).
  destruct (settle_flags o (set_network (requests st) 0 st)) as (H1 & H2 & H3 & H4 & _).
  exists i, d. splits; try assumption.
  unfold placeholders. rewrite Hs, filter_app, turns_no_placeholder.
  simpl. now rewrite (reply_not_placeholder d Hd).
Qed.

Lemma settled_request_appends_one_turn_witness :
  exists i d,
    chatBox (run [Input (js "hi"); ClickSend] (init welcome_page)) =
      turns (run [Input (js "hi"); ClickSend] (init welcome_page)) ++
      [(i, thinking_node)] /\
    chatBox (step (run [Input (js "hi"); ClickSend] (init welcome_page))
               (Settle (Responded true (Json medical_payload)))) =
      turns (run [Input (js "hi"); ClickSend] (init welcome_page)) ++
      [(next_node (run [Input (js "hi"); ClickSend] (init welcome_page)), d)].
Proof.
  assert (H1 : no_placeholder welcome_page) by reflexivity.
  assert (H2 : (0 < pending (run [Input (js "hi"); ClickSend] (init welcome_page)))%nat)
    by (vm_compute; lia).
  destruct (settled_request_appends_one_turn welcome_page
              [Input (js "hi"); ClickSend]
              (Responded true (Json medical_payload)) H1 H2)
    as (i & d & Ha & Hb & _).
  exists i, d. split; [exact Ha | exact Hb].
Defined.

(** X5 — In every state the page reaches at most one request is pending,
    and the chat box is the turns followed by the placeholder exactly while
    a request is pending: the number of placeholders is the number of
    pending requests. *)
Theorem placeholder_marks_flight (p : page) (evs : list event) :
  no_placeholder p ->
  (pending (run evs (init p)) <= 1)%nat /\
  placeholders (run evs (init p)) = pending (run evs (init p)) /\
  (isProcessing (run evs (init p)) = true ->
   exists i, thinkingMessage (run evs (init p)) = Some i /\
             chatBox (run evs (init p)) =
               turns (run evs (init p)) ++ [(i, thinking_node)]) /\
  (isProcessing (run evs (init p)) = false ->
   thinkingMessage (run evs (init p)) = None /\
   chatBox (run evs (init p)) = turns (run evs (init p))).
Proof.
  intros Hp. set (st := run evs (init p)) in *.
  assert (C : consistent st) by (apply consistent_run, consistent_init, Hp).
  destruct C as [T F]. unfold flag_matches in F.
  pose proof (flight_shape p evs Hp) as S. fold st in S.
  rewrite (placeholders_tracked st T). unfold tracked.
  destruct (isProcessing st).
  - destruct S as (i & Ht & Hc). rewrite F, Ht.
    splits; try (simpl; lia); try discriminate. intros _. now exists i.
  - destruct S as (Ht & Hc). rewrite F, Ht.
    splits; try (simpl; lia); try discriminate. intros _. now split.
Qed.

Lemma placeholder_marks_flight_witness :
  no_placeholder welcome_page /\
  placeholders (run [Input (js "hi"); ClickSend] (init welcome_page)) = 1%nat.
Proof.
  assert (H : no_placeholder welcome_page) by reflexivity.
  split; [exact H|].
  rewrite (proj1 (proj2 (placeholder_marks_flight welcome_page
                           [Input (js "hi"); ClickSend] H))).
  reflexivity.
Defined.

(** X6 — No event removes or reorders a turn: node for node (identity and
    classes), the turns after an event are the turns before it, followed by
    at most one new turn, whose identity is fresh. *)
Theorem turns_are_append_only (p : page) (evs : list event) (ev : event) :
  no_placeholder p ->
  exists l,
    outline (turns (step (run evs (init p)) ev)) =
      outline (turns (run evs (init p))) ++ outline l /\
    (List.length l <= 1)%nat /\
    (forall n, In n l -> fst n = next_node (run evs (init p))) /\
    Forall (fun n => (fst n < next_node (run evs (init p)))%nat)
      (outline (turns (run evs (init p)))).
Proof.
  intros Hp.
  assert (C : consistent (run evs (init p)))
    by (apply consistent_run, consistent_init, Hp).
  assert (B : Forall (fun n => (fst n < next_node (run evs (init p)))%nat)
                (outline (turns (run evs (init p))))).
  { pose proof (ids_fresh _ (proj1 C)) as H. unfold node_ids in H.
    rewrite Forall_forall in *. intros n Hn. unfold outline in Hn.
    apply in_map_iff in Hn as (m & <- & Hm). unfold turns in Hm.
    apply filter_In in Hm as [Hm _]. apply H, in_map_iff. now exists m. }
  destruct (step_account (run evs (init p)) ev (proj1 C))
    as [(-> & _) | [(text & -> & _) | (d & _ & -> & _)]].
  - exists []. splits; [now rewrite app_nil_r | simpl; lia | intros n [] | exact B].
  - eexists. splits; [unfold outline; now rewrite map_app | simpl; lia | | exact B].
    intros n [<- | []]. reflexivity.
  - eexists. splits; [unfold outline; now rewrite map_app | simpl; lia | | exact B].
    intros n [<- | []]. reflexivity.
Qed.

Lemma turns_are_append_only_witness :
  no_placeholder welcome_page /\
  exists l,
    outline (turns (step (run [Input (js "hi")] (init welcome_page)) ClickSend)) =
      outline (turns (run [Input (js "hi")] (init welcome_page))) ++ outline l /\
    (List.length l <= 1)%nat.
Proof.
  assert (H : no_placeholder welcome_page) by reflexivity.
  split; [exact H|].
  destruct (turns_are_append_only welcome_page [Input (js "hi")] ClickSend H)
    as (l & H1 & H2 & _).
  exists l. split; [exact H1 | exact H2].
Defined.

(** Counting the turns. *)
Lemma turn_count (p : page) (evs : list event) :
  no_placeholder p ->
  (List.length (turns (run evs (init p))) + pending (run evs (init p)) =
   List.length (page_children p) + 2 * List.length (requests (run evs (init p))))%nat.
Proof.
  intros Hp. induction evs as [|ev evs IH] using rev_ind.
  - cbn [run fold_left].
    rewrite (turns_untracked (init p) (tidy_init p Hp) eq_refl).
    cbn [chatBox init pending requests List.length].
    assert (E : forall n l, List.length (number_from n l) = List.length l).
    { intros n l. revert n. induction l as [|d l IHl]; intros n; simpl;
        [reflexivity | now rewrite IHl]. }
    rewrite E. lia.
  - rewrite run_snoc.
    assert (C : consistent (run evs (init p)))
      by (apply consistent_run, consistent_init, Hp).
    destruct (step_account (run evs (init p)) ev (proj1 C))
      as [(-> & -> & ->) | [(text & -> & -> & ->) | (d & _ & -> & -> & Hq)]].
    + exact IH.
    + rewrite !length_app. simpl. lia.
    + rewrite !length_app. simpl. lia.
Qed.

(** X7 — Turns, requests and replies add up: the number of turns shown is
    the number of elements the chat box started with, plus one user turn for
    each request dispatched, plus one reply (or apology) for each request
    that has settled. *)
Theorem turn_accounting (p : page) (evs : list event) :
  no_placeholder p ->
  (List.length (turns (run evs (init p))) + pending (run evs (init p)) =
   List.length (page_children p) + 2 * List.length (requests (run evs (init p))))%nat.
Proof. exact (turn_count p evs). Qed.

Lemma turn_accounting_witness :
  no_placeholder welcome_page /\
  List.length
    (turns (run [Input (js "hi"); ClickSend; Settle (Rejected [])]
              (init welcome_page))) = 3%nat.
Proof.
  assert (H : no_placeholder welcome_page) by reflexivity.
  split; [exact H|].
  pose proof (turn_accounting welcome_page
                [Input (js "hi"); ClickSend; Settle (Rejected [])] H) as E.
  change (pending (run [Input (js "hi"); ClickSend; Settle (Rejected [])]
                     (init welcome_page))) with 0%nat in E.
  change (List.length (page_children welcome_page)) with 1%nat in E.
  change (List.length (requests
            (run [Input (js "hi"); ClickSend; Settle (Rejected [])]
               (init welcome_page)))) with 1%nat in E.
  rewrite Nat.add_0_r in E. exact E.
Defined.

End Turns.

(* ----------------------------------------------------------------- *)
(** ** Replies *)

Section Replies.

Lemma is_medical_iff (mode : value) :
  is_medical mode = true <-> mode = VString (js "medical").
Proof.
  destruct mode; simpl; try (split; [discriminate | congruence]).
  rewrite jsstring_eqb_eq. split; [now intros -> | congruence].
Qed.

(** The plain branch of the [then] callback, for a text that converts. *)
Lemma on_data_plain (st : state) (data mode text : value) (s : jsstring) :
  field data "mode" = Some mode -> mode <> VString (js "medical") ->
  field data "response" = Some text -> textContent_of text = Some s ->
  exists st2,
    on_data data st = (reset_processing st2, None) /\
    addMessage text bot (hideThinkingIndicator st) = Some st2 /\
    chatBox st2 =
      chatBox (hideThinkingIndicator st) ++
      [(next_node (hideThinkingIndicator st), bot_node s)].
Proof.
  intros Hm Hn Hr Ht. unfold on_data. rewrite Hm, Hr.
  destruct (is_medical mode) eqn:E; [apply is_medical_iff in E; contradiction|].
  destruct (addMessage text bot (hideThinkingIndicator st)) as [st2|] eqn:Ea.
  - exists st2. splits; try reflexivity.
    apply addMessage_appends in Ea as (children & Hch & Hc & _).
    unfold message_children in Hch. rewrite Ht in Hch.
    assert (children = [Markup (innerHTML [message_header "fas fa-user-md" "MediChat Assistant"]
                                ++ format_markdown (escape s))]) by congruence.
    subst children. exact Hc.
  - exfalso. unfold addMessage, message_children in Ea. rewrite Ht in Ea.
    revert Ea. cbv zeta.
    match goal with |- context [appendChild ?d ?x] =>
      remember (appendChild d x) as st1 end.
    destruct (suggestions st1); [destruct (1 <? children_length st1)%nat|];
      discriminate.
Qed.

(** The plain branch, seen from the page. *)
Lemma plain_reply_path
    (p : page) (evs : list event) (data mode text : value) (s : jsstring) :
  no_placeholder p ->
  (0 < pending (run evs (init p)))%nat ->
  field data "mode" = Some mode -> mode <> VString (js "medical") ->
  field data "response" = Some text -> textContent_of text = Some s ->
  chatBox (step (run evs (init p)) (Settle (Responded true (Json data)))) =
    turns (run evs (init p)) ++ [(next_node (run evs (init p)), bot_node s)] /\
  console (step (run evs (init p)) (Settle (Responded true (Json data)))) =
    console (run evs (init p)) /\
  isProcessing (step (run evs (init p)) (Settle (Responded true (Json data)))) = false /\
  sendBtn_disabled (step (run evs (init p)) (Settle (Responded true (Json data)))) = false /\
  safe_markup (render_text s).
Proof.
  intros Hp Hq Hm Hn Hr Ht. set (st := run evs (init p)) in *.
  assert (C : consistent st) by (apply consistent_run, consistent_init, Hp).
  destruct C as [T F]. cbn [step].
  destruct (pending st) as [|q] eqn:Eq; [lia|].
  set (s1 := set_network (requests st) q st).
  assert (T1 : tidy s1) by (eapply tidy_same; [| | |exact T]; reflexivity).
  destruct (on_data_plain s1 data mode text s Hm Hn Hr Ht) as (st2 & E & Ea & Hc).
  destruct (settle_flags (Responded true (Json data)) s1) as (H1 & H2 & _).
  splits; try assumption;
    [cbn [settle]; rewrite E | cbn [settle]; rewrite E |].
  - cbn [chatBox reset_processing set_focused set_sendBtn_disabled set_isProcessing].
    rewrite Hc, (hide_chatBox s1 T1).
    now destruct (hide_fields s1) as (-> & _).
  - cbn [console reset_processing set_focused set_sendBtn_disabled set_isProcessing].
    apply addMessage_flags in Ea as (_ & _ & _ & _ & _ & -> & _).
    now destruct (hide_fields s1) as (_ & _ & _ & _ & _ & _ & _ & _ & ->).
  - apply format_markdown_safe, escape_safe.
Qed.

(** X8 — A successful reply whose mode is anything but the string
    [medical] is rendered plain, even when it carries symptoms: the
    placeholder gives way to one bot turn holding the header and the
    formatted text of [response] (a number or boolean as it prints), nothing
    is logged, the flag is cleared and the send control enabled. *)
Theorem plain_reply_effects
    (p : page) (evs : list event) (data mode text : value) (s : jsstring) :
  no_placeholder p ->
  (0 < pending (run evs (init p)))%nat ->
  field data "mode" = Some mode -> mode <> VString (js "medical") ->
  field data "response" = Some text -> textContent_of text = Some s ->
  chatBox (step (run evs (init p)) (Settle (Responded true (Json data)))) =
    turns (run evs (init p)) ++ [(next_node (run evs (init p)), bot_node s)] /\
  console (step (run evs (init p)) (Settle (Responded true (Json data)))) =
    console (run evs (init p)) /\
  isProcessing (step (run evs (init p)) (Settle (Responded true (Json data)))) = false /\
  sendBtn_disabled (step (run evs (init p)) (Settle (Responded true (Json data)))) = false /\
  safe_markup (render_text s).
Proof. exact (plain_reply_path p evs data mode text s). Qed.

Lemma plain_reply_effects_witness :
  map (fun n => classes_of (snd n))
    (chatBox (step (run [Input (js "hi"); ClickSend] (init welcome_page))
       (Settle (Responded true
          (Json (VObject [(js "mode", VString (js "chat"));
                          (js "response", VString (js "*ok*"));
                          (js "symptoms", VArray [VString (js "fever")])])))))) =
  [["message"; "bot"]; ["message"; "user"]; ["message"; "bot"]]%string.
Proof.
  assert (H1 : no_placeholder welcome_page) by reflexivity.
  assert (H2 : (0 < pending (run [Input (js "hi"); ClickSend] (init welcome_page)))%nat)
    by (vm_compute; lia).
  assert (H3 : VString (js "chat") <> VString (js "medical"))
    by (intros H; vm_compute in H; discriminate).
  rewrite (proj1 (plain_reply_effects welcome_page [Input (js "hi"); ClickSend]
                    (VObject [(js "mode", VString (js "chat"));
                              (js "response", VString (js "*ok*"));
                              (js "symptoms", VArray [VString (js "fever")])])
                    (VString (js "chat")) (VString (js "*ok*")) (js "*ok*")
                    H1 H2 eq_refl H3 eq_refl eq_refl)).
  reflexivity.
Defined.

(** X9 — A successful reply that is not [null] and has neither a medical
    mode nor a usable text (no [response] property, or a [null] one; so also
    a reply that is a bare JSON string, number, boolean or array) is not an
    error: it is shown as a bot turn holding the header and no text. *)
Theorem reply_without_text_is_empty_turn
    (p : page) (evs : list event) (data mode text : value) :
  no_placeholder p ->
  (0 < pending (run evs (init p)))%nat ->
  field data "mode" = Some mode -> mode <> VString (js "medical") ->
  field data "response" = Some text ->
  text = VUndefined \/ text = VNull ->
  chatBox (step (run evs (init p)) (Settle (Responded true (Json data)))) =
    turns (run evs (init p)) ++
    [(next_node (run evs (init p)),
      Element "div" ["message"; "bot"]%string
        [Markup (innerHTML [message_header "fas fa-user-md" "MediChat Assistant"])])] /\
  console (step (run evs (init p)) (Settle (Responded true (Json data)))) =
    console (run evs (init p)) /\
  (forall v, (exists s, v = VString s) \/ (exists t, v = VNumber t) \/
             (exists b, v = VBool b) \/ (exists l, v = VArray l) ->
             field v "mode" = Some VUndefined /\
             field v "response" = Some VUndefined).
Proof.
  intros Hp Hq Hm Hn Hr Ht.
  assert (E : textContent_of text = Some []) by (destruct Ht as [-> | ->]; reflexivity).
  destruct (plain_reply_path p evs data mode text [] Hp Hq Hm Hn Hr E)
    as (H1 & H2 & _).
  splits; [|exact H2|].
  - rewrite H1. unfold bot_node, render_text.
    change (format_markdown (escape [])) with (@nil char).
    now rewrite app_nil_r.
  - intros v [(s & ->) | [(t & ->) | [(b & ->) | (l & ->)]]]; now split.
Qed.

Lemma reply_without_text_is_empty_turn_witness :
  console (step (run [Input (js "hi"); ClickSend] (init welcome_page))
             (Settle (Responded true (Json (VArray []))))) = [].
Proof.
  assert (H1 : no_placeholder welcome_page) by reflexivity.
  assert (H2 : (0 < pending (run [Input (js "hi"); ClickSend] (init welcome_page)))%nat)
    by (vm_compute; lia).
  assert (H3 : VUndefined <> VString (js "medical")) by discriminate.
  exact (proj1 (proj2 (reply_without_text_is_empty_turn welcome_page
           [Input (js "hi"); ClickSend] (VArray []) VUndefined VUndefined
           H1 H2 eq_refl H3 eq_refl (or_introl eq_refl)))).
Defined.

(** X10 — A successful reply that cannot be rendered takes the failure
    path: when the body is the JSON value [null], or when the text of a
    non-medical reply cannot be converted to a string, the user gets the
    apology in place of the placeholder and a [TypeError] is logged. *)
Theorem unrenderable_reply_shows_apology
    (p : page) (evs : list event) (data : value) :
  no_placeholder p ->
  (0 < pending (run evs (init p)))%nat ->
  data = VNull \/
  (exists mode text,
     field data "mode" = Some mode /\ mode <> VString (js "medical") /\
     field data "response" = Some text /\ to_string text = None) ->
  chatBox (step (run evs (init p)) (Settle (Responded true (Json data)))) =
    turns (run evs (init p)) ++ [(next_node (run evs (init p)), apology_node)] /\
  console (step (run evs (init p)) (Settle (Responded true (Json data)))) =
    console (run evs (init p)) ++ [TypeError] /\
  isProcessing (step (run evs (init p)) (Settle (Responded true (Json data)))) = false /\
  sendBtn_disabled (step (run evs (init p)) (Settle (Responded true (Json data)))) = false.
Proof.
  intros Hp Hq Hd. set (st := run evs (init p)) in *.
  assert (C : consistent st) by (apply consistent_run, consistent_init, Hp).
  destruct C as [T F]. cbn [step].
  destruct (pending st) as [|q] eqn:Eq; [lia|].
  set (s1 := set_network (requests st) q st).
  assert (T1 : tidy s1) by (eapply tidy_same; [| | |exact T]; reflexivity).
  assert (E : on_data data s1 = (hideThinkingIndicator s1, Some TypeError)).
  { destruct Hd as [-> | (mode & text & Hm & Hn & Hr & Ht)]; [reflexivity|].
    unfold on_data. rewrite Hm, Hr.
    destruct (is_medical mode) eqn:Em; [apply is_medical_iff in Em; contradiction|].
    unfold addMessage, message_children.
    assert (Et : textContent_of text = None).
    { destruct text; try discriminate; exact Ht. }
    now rewrite Et. }
  cbn [settle]. rewrite E.
  destruct (on_error_flags TypeError (hideThinkingIndicator s1))
    as (H1 & H2 & _ & _ & H5 & _).
  destruct (on_error_unfold TypeError _ (tidy_hide s1 T1))
    as (s2 & Es & Hc & _).
  destruct (hide_fields s1) as (Hn' & _ & _ & _ & _ & _ & _ & _ & Hk').
  splits; try assumption.
  - rewrite Es. cbn [chatBox reset_processing set_focused set_sendBtn_disabled
                     set_isProcessing set_console].
    rewrite Hc, (turns_hide s1 T1), Hn'. reflexivity.
  - rewrite H5, Hk'. reflexivity.
Qed.

Lemma unrenderable_reply_shows_apology_witness :
  console (step (run [Input (js "hi"); ClickSend] (init welcome_page))
             (Settle (Responded true (Json VNull)))) = [TypeError].
Proof.
  assert (H1 : no_placeholder welcome_page) by reflexivity.
  assert (H2 : (0 < pending (run [Input (js "hi"); ClickSend] (init welcome_page)))%nat)
    by (vm_compute; lia).
  exact (proj1 (proj2 (unrenderable_reply_shows_apology welcome_page
           [Input (js "hi"); ClickSend] VNull H1 H2 (or_introl eq_refl)))).
Defined.

End Replies.

(* ----------------------------------------------------------------- *)
(** ** Medical payloads *)

Section MedicalPayloads.

Lemma symptom_tags_some (items : list value) (chips : jsstring) :
  symptom_tags items = Some chips ->
  exists symptoms,
    items = map VString symptoms /\ chips = flat_map symptom_tag symptoms.
Proof.
  revert chips. induction items as [|v items IH]; intros chips; simpl.
  - intros E. injection E as <-. now exists [].
  - destruct v; try discriminate.
    destruct (symptom_tags items) as [rest|]; [|discriminate].
    intros E. injection E as <-.
    destruct (IH rest eq_refl) as (symptoms & -> & ->).
    now exists (s :: symptoms).
Qed.

Lemma addMedicalResponse_well_formed
    (data : value) (st : state) (symptoms : list jsstring)
    (disease : value) (printed : jsstring) :
  field data "symptoms" = Some (VArray (map VString symptoms)) ->
  field data "disease" = Some disease ->
  to_string disease = Some printed ->
  addMedicalResponse data st =
  Some (appendChild
          (medical_node (flat_map symptom_tag symptoms) printed
             (List.length symptoms)) st).
Proof.
  intros Hs Hd Hp. unfold addMedicalResponse.
  now rewrite Hs, symptom_tags_strings, Hd, Hp, length_map.
Qed.

(** X11 — [addMedicalResponse] produces a turn exactly when [symptoms] is
    an array whose items are all strings and [disease] can be printed (any
    value but an object that shadows [toString]).  The turn is then the
    last node of the chat box, under a fresh identity; it holds the chips of
    the items, the printed disease and the number of items, and when no
    item holds markup its symptom list shows one chip per item, reading the
    item with underscores turned into spaces.  In every other case the
    function throws before it has appended anything. *)
Theorem medical_turn_iff_well_formed (data : value) (st : state) :
  (forall symptoms disease printed,
     field data "symptoms" = Some (VArray (map VString symptoms)) ->
     field data "disease" = Some disease ->
     to_string disease = Some printed ->
     exists st',
       addMedicalResponse data st = Some st' /\
       chatBox st' =
         chatBox st ++
         [(next_node st,
           medical_node (flat_map symptom_tag symptoms) printed
             (List.length symptoms))] /\
       next_node st' = S (next_node st) /\
       (forallb literal symptoms = true ->
        chip_texts (flat_map symptom_tag symptoms) =
        Some (map replace_underscores symptoms)) /\
       read_decimal (decimal (List.length symptoms)) = List.length symptoms) /\
  (forall st',
     addMedicalResponse data st = Some st' ->
     exists symptoms disease printed,
       field data "symptoms" = Some (VArray (map VString symptoms)) /\
       field data "disease" = Some disease /\
       to_string disease = Some printed /\
       chatBox st' =
         chatBox st ++
         [(next_node st,
           medical_node (flat_map symptom_tag symptoms) printed
             (List.length symptoms))]) /\
  (forall items v,
     field data "symptoms" = Some (VArray items) -> In v items ->
     (forall s, v <> VString s) ->
     addMedicalResponse data st = None).
Proof.
  splits.
  - intros symptoms disease printed Hs Hd Hp.
    eexists. split;
      [exact (addMedicalResponse_well_formed data st symptoms disease printed
                Hs Hd Hp)|].
    splits; [reflexivity | reflexivity | apply chips_read_back
            | apply read_decimal_decimal].
  - intros st'. unfold addMedicalResponse.
    destruct (field data "symptoms") as [[| | | | |items|]|] eqn:Hs; try discriminate.
    destruct (symptom_tags items) as [chips|] eqn:Hc; [|discriminate].
    destruct (field data "disease") as [disease|] eqn:Hd; [|discriminate].
    destruct (to_string disease) as [printed|] eqn:Hp; [|discriminate].
    intros E. injection E as <-.
    destruct (symptom_tags_some items chips Hc) as (symptoms & -> & ->).
    exists symptoms, disease, printed. rewrite length_map. now splits.
  - intros items v Hs Hin Hv. unfold addMedicalResponse. rewrite Hs.
    destruct (symptom_tags items) as [chips|] eqn:Hc; [|reflexivity].
    destruct (symptom_tags_some items chips Hc) as (symptoms & -> & _).
    apply in_map_iff in Hin as (s & <- & _). now destruct (Hv s).
Qed.

Lemma medical_turn_iff_well_formed_witness :
  addMedicalResponse
    (VObject [(js "symptoms", VArray [VString (js "fever"); VNumber (js "3")])])
    (init welcome_page) = None.
Proof.
  refine (proj2 (proj2 (medical_turn_iff_well_formed
            (VObject [(js "symptoms", VArray [VString (js "fever"); VNumber (js "3")])])
            (init welcome_page)))
          [VString (js "fever"); VNumber (js "3")] (VNumber (js "3"))
          eq_refl _ _).
  - right. left. reflexivity.
  - intros s. discriminate.
Defined.

(** X12 — A medical payload without a [disease] still renders: the turn
    that replaces the placeholder holds [undefined] in its condition line
    when the property is missing or undefined, and [null] when it is null.
    With an empty array of symptoms the turn holds no chip and the footer
    counts 0 symptoms. *)
Theorem medical_payload_missing_parts
    (p : page) (evs : list event) (data : value) (symptoms : list jsstring) :
  no_placeholder p ->
  (0 < pending (run evs (init p)))%nat ->
  field data "mode" = Some (VString (js "medical")) ->
  field data "symptoms" = Some (VArray (map VString symptoms)) ->
  (field data "disease" = Some VUndefined ->
   chatBox (step (run evs (init p)) (Settle (Responded true (Json data)))) =
     turns (run evs (init p)) ++
     [(next_node (run evs (init p)),
       medical_node (flat_map symptom_tag symptoms) (js "undefined")
         (List.length symptoms))]) /\
  (field data "disease" = Some VNull ->
   chatBox (step (run evs (init p)) (Settle (Responded true (Json data)))) =
     turns (run evs (init p)) ++
     [(next_node (run evs (init p)),
       medical_node (flat_map symptom_tag symptoms) (js "null")
         (List.length symptoms))]) /\
  (forall fields, data = VObject fields ->
     lookup (js "disease") fields = None ->
     field data "disease" = Some VUndefined) /\
  strip_prefix condition_label (condition_markup (js "undefined")) =
    Some (js "undefined" ++ [newline] ++ indent 16) /\
  strip_prefix condition_label (condition_markup (js "null")) =
    Some (js "null" ++ [newline] ++ indent 16) /\
  (symptoms = [] ->
   symptoms_markup (flat_map symptom_tag symptoms) = symptoms_markup [] /\
   chip_texts (flat_map symptom_tag symptoms) = Some [] /\
   occurs (js "0 symptoms") (footer_markup (List.length symptoms))).
Proof.
  intros Hp Hq Hm Hs. splits.
  - intros Hd.
    exact (proj1 (medical_reply_path p evs data symptoms VUndefined
                    (js "undefined") Hp Hq Hm Hs Hd eq_refl)).
  - intros Hd.
    exact (proj1 (medical_reply_path p evs data symptoms VNull
                    (js "null") Hp Hq Hm Hs Hd eq_refl)).
  - intros fields -> Hl. unfold field. now rewrite Hl.
  - reflexivity.
  - reflexivity.
  - intros ->. splits; [reflexivity | reflexivity |].
    unfold footer_markup. do 27 apply occurs_later.
    exists [], (js "</span>" ++ [newline] ++ indent 20 ++ js "</div>" ++
                [newline] ++ indent 16).
    reflexivity.
Qed.

Lemma medical_payload_missing_parts_witness :
  map (fun n => children_of (snd n))
    (skipn 2
       (chatBox (step (run [Input (js "hi"); ClickSend] (init welcome_page))
                   (Settle (Responded true
                      (Json (VObject [(js "mode", VString (js "medical"));
                                      (js "symptoms", VArray [])]))))))) =
  [children_of (medical_node [] (js "undefined") 0)].
Proof.
  assert (H1 : no_placeholder welcome_page) by reflexivity.
  assert (H2 : (0 < pending (run [Input (js "hi"); ClickSend] (init welcome_page)))%nat)
    by (vm_compute; lia).
  rewrite (proj1 (medical_payload_missing_parts welcome_page
                    [Input (js "hi"); ClickSend]
                    (VObject [(js "mode", VString (js "medical"));
                              (js "symptoms", VArray [])])
                    [] H1 H2 eq_refl eq_refl) eq_refl).
  reflexivity.
Defined.

End MedicalPayloads.

(* ----------------------------------------------------------------- *)
(** ** The placeholder, the suggestions and the bubbles *)

Section Helpers.

(** X13 — Showing the placeholder and hiding it again leaves the chat box
    with its turns as they were and nothing else; hiding twice is hiding
    once, and hiding changes nothing when no request is in flight. *)
Theorem show_then_hide_restores_turns (p : page) (evs : list event) :
  no_placeholder p ->
  chatBox (hideThinkingIndicator (showThinkingIndicator (run evs (init p)))) =
    turns (run evs (init p)) /\
  thinkingMessage
    (hideThinkingIndicator (showThinkingIndicator (run evs (init p)))) = None /\
  hideThinkingIndicator (hideThinkingIndicator (run evs (init p))) =
    hideThinkingIndicator (run evs (init p)) /\
  (isProcessing (run evs (init p)) = false ->
   hideThinkingIndicator (run evs (init p)) = run evs (init p) /\
   chatBox (hideThinkingIndicator (showThinkingIndicator (run evs (init p)))) =
     chatBox (run evs (init p))).
Proof.
  intros Hp. set (st := run evs (init p)) in *.
  assert (T : tidy st) by (apply consistent_run, consistent_init, Hp).
  assert (H1 : chatBox (hideThinkingIndicator (showThinkingIndicator st)) = turns st).
  { rewrite (hide_chatBox _ (tidy_show st T)).
    rewrite (turns_snoc _ _ _ _ (show_chatBox st T)).
    change (is_placeholder thinking_node) with true.
    now rewrite turns_of_turns, app_nil_r. }
  splits.
  - exact H1.
  - now destruct (hide_fields (showThinkingIndicator st)) as (_ & -> & _).
  - destruct (hide_fields st) as (_ & Ht & _).
    unfold hideThinkingIndicator at 1. now rewrite Ht.
  - intros Hi. pose proof (flight_shape p evs Hp) as S. fold st in S.
    rewrite Hi in S. destruct S as [Ht Hc]. split.
    + unfold hideThinkingIndicator. now rewrite Ht.
    + now rewrite H1, Hc.
Qed.

Lemma show_then_hide_restores_turns_witness :
  no_placeholder welcome_page /\
  chatBox (hideThinkingIndicator (showThinkingIndicator
             (run [Input (js "hi")] (init welcome_page)))) =
  chatBox (run [Input (js "hi")] (init welcome_page)).
Proof.
  assert (H : no_placeholder welcome_page) by reflexivity.
  split; [exact H|].
  exact (proj2 (proj2 (proj2 (proj2
    (show_then_hide_restores_turns welcome_page [Input (js "hi")] H))) eq_refl)).
Defined.

(** X14 — [useSuggestion] sends its own text, not what was in the input,
    and does not look at the send control.  The text goes through the
    textarea, which hands it back with every CR LF pair and every other CR
    turned into LF (a text without CR comes back as it is).  On an idle page
    a text with a visible character is dispatched trimmed and the input ends
    up empty; while a request is in flight, or when the text is blank,
    nothing is appended or sent, yet the text overwrites the input and the
    send control is left enabled. *)
Theorem useSuggestion_effects (st : state) (text : jsstring) :
  (isProcessing st = false -> trim (normalize_newlines text) <> [] ->
   requests (useSuggestion text st) =
     requests st ++ [mkRequest (trim (normalize_newlines text))] /\
   userInput (useSuggestion text st) = [] /\
   sendBtn_disabled (useSuggestion text st) = true /\
   isProcessing (useSuggestion text st) = true) /\
  (isProcessing st = true \/ blank text = true ->
   useSuggestion text st =
     set_focused true
       (set_sendBtn_disabled false
          (set_userInput (normalize_newlines text) st)) /\
   chatBox (useSuggestion text st) = chatBox st /\
   requests (useSuggestion text st) = requests st /\
   userInput (useSuggestion text st) = normalize_newlines text /\
   sendBtn_disabled (useSuggestion text st) = false) /\
  ~ In 13 (normalize_newlines text) /\
  (~ In 13 text -> normalize_newlines text = text).
Proof.
  set (s := set_focused true
              (set_sendBtn_disabled false
                 (set_userInput (normalize_newlines text) st))).
  splits.
  - intros Hi Hm. unfold useSuggestion. fold s.
    assert (H1 : trim (userInput s) <> []) by exact Hm.
    assert (H2 : isProcessing s = false) by exact Hi.
    destruct (sendMessage_dispatch s H1 H2) as (G1 & G2 & G3 & G4 & _).
    now splits.
  - intros H.
    assert (E : useSuggestion text st = s).
    { unfold useSuggestion. fold s. apply sendMessage_blocked.
      change (userInput s) with (normalize_newlines text).
      change (isProcessing s) with (isProcessing st).
      rewrite is_empty_trim. destruct H as [-> | H];
        [apply orb_true_r | now rewrite (normalize_newlines_blank text H)]. }
    rewrite E. now splits.
  - apply normalize_newlines_no_cr.
  - apply normalize_newlines_fixed.
Qed.

Lemma useSuggestion_effects_witness :
  requests (useSuggestion (js " fever ") (init welcome_page)) =
  [mkRequest (js "fever")].
Proof.
  assert (H1 : isProcessing (init welcome_page) = false) by reflexivity.
  assert (H2 : trim (normalize_newlines (js " fever ")) <> [])
    by (vm_compute; discriminate).
  rewrite (proj1 (proj1 (useSuggestion_effects (init welcome_page) (js " fever "))
                    H1 H2)).
  reflexivity.
Defined.

Lemma pending_le_requests (p : page) (evs : list event) :
  no_placeholder p ->
  (pending (run evs (init p)) <= List.length (requests (run evs (init p))))%nat.
Proof.
  intros Hp. induction evs as [|ev evs IH] using rev_ind; [simpl; lia|].
  rewrite run_snoc.
  assert (C : consistent (run evs (init p)))
    by (apply consistent_run, consistent_init, Hp).
  destruct (step_account (run evs (init p)) ev (proj1 C))
    as [(_ & -> & ->) | [(text & _ & -> & ->) | (d & _ & _ & -> & Hq)]].
  - exact IH.
  - rewrite length_app. simpl. lia.
  - lia.
Qed.

Lemma element_counted (l : list (nat * dom)) (n : nat * dom) :
  In n l -> is_element (snd n) = true ->
  (1 <= List.length (filter (fun n => is_element (snd n)) l))%nat.
Proof.
  intros Hin He.
  assert (H : In n (filter (fun n => is_element (snd n)) l))
    by (apply filter_In; now split).
  destruct (filter (fun n => is_element (snd n)) l); [destruct H | simpl; lia].
Qed.

(** Once a request has been dispatched the turns hold a user turn. *)
Lemma user_turn_present (p : page) (evs : list event) :
  no_placeholder p ->
  (0 < List.length (requests (run evs (init p))))%nat ->
  exists i s, In (i, user_node s) (turns (run evs (init p))).
Proof.
  intros Hp. induction evs as [|ev evs IH] using rev_ind; [simpl; lia|].
  rewrite run_snoc.
  assert (C : consistent (run evs (init p)))
    by (apply consistent_run, consistent_init, Hp).
  destruct (step_account (run evs (init p)) ev (proj1 C))
    as [(-> & -> & _) | [(text & -> & _) | (d & _ & -> & -> & _)]].
  - exact IH.
  - intros _. exists (next_node (run evs (init p))), (trim text).
    apply in_or_app. right. now left.
  - intros H. destruct (IH H) as (i & s & Hin). exists i, s.
    apply in_or_app. now left.
Qed.

(** X15 — On every page, whatever the chat box held at load, and as long
    as no medical reply brings a tag of its own into the document: when the
    request settles with a plain reply or with the apology, the suggestion
    bubbles are gone; when it settles with a medical turn, they are left as
    they were. *)
Theorem bubbles_after_reply (p : page) (evs : list event) (o : outcome) :
  no_placeholder p ->
  forallb quiet evs = true -> quiet (Settle o) = true ->
  (0 < pending (run evs (init p)))%nat ->
  exists d,
    chatBox (step (run evs (init p)) (Settle o)) =
      turns (run evs (init p)) ++ [(next_node (run evs (init p)), d)] /\
    (classes_of d = ["message"; "bot"]%string /\
     suggestions (step (run evs (init p)) (Settle o)) = None \/
     classes_of d = ["message"; "medical"]%string /\
     suggestions (step (run evs (init p)) (Settle o)) =
       suggestions (run evs (init p))).
Proof.
  intros Hp _ _ Hq. set (st := run evs (init p)) in *.
  assert (C : consistent st) by (apply consistent_run, consistent_init, Hp).
  destruct C as [T F].
  assert (L : (1 <= List.length
                      (filter (fun n => is_element (snd n)) (turns st)))%nat).
  { pose proof (pending_le_requests p evs Hp) as B. fold st in B.
    destruct (user_turn_present p evs Hp) as (i & s & Hin); [fold st; lia|].
    exact (element_counted _ _ Hin eq_refl). }
  cbn [step]. destruct (pending st) as [|q] eqn:Eq; [lia|].
  set (s1 := set_network (requests st) q st).
  assert (T1 : tidy s1) by (eapply tidy_same; [| | |exact T]; reflexivity).
  assert (L1 : (1 <= children_length (hideThinkingIndicator s1))%nat).
  { unfold children_length. rewrite (hide_chatBox s1 T1).
    change (turns s1) with (turns st). lia. }
  assert (Herr : forall e s, tidy s -> turns s = turns st ->
            next_node s = next_node st ->
            chatBox (on_error e s) = turns st ++ [(next_node st, apology_node)] /\
            suggestions (on_error e s) = None).
  { intros e s Ts Et En.
    destruct (on_error_unfold e s Ts) as (s2 & Es & Hc & _).
    split; [rewrite Es, <- Et, <- En; exact Hc|].
    unfold on_error in *.
    destruct (addMessage (VString apology) bot (hideThinkingIndicator s))
      as [s3|] eqn:Ea.
    - cbn [suggestions reset_processing set_focused set_sendBtn_disabled
           set_isProcessing set_console].
      refine (addMessage_second_child _ _ _ _ _ Ea).
      unfold children_length. rewrite (hide_chatBox s Ts), Et. lia.
    - destruct (addMessage_string apology bot (hideThinkingIndicator s))
        as (s4 & E4 & _). congruence. }
  assert (Hbot : forall e s, tidy s -> turns s = turns st ->
            next_node s = next_node st ->
            exists d,
              chatBox (on_error e s) = turns st ++ [(next_node st, d)] /\
              (classes_of d = ["message"; "bot"]%string /\
               suggestions (on_error e s) = None \/
               classes_of d = ["message"; "medical"]%string /\
               suggestions (on_error e s) = suggestions st)).
  { intros e s Ts Et En. destruct (Herr e s Ts Et En) as [H1 H2].
    exists apology_node. split; [exact H1 | left; now split]. }
  destruct o as [reason | [|] [|data]]; cbn [settle];
    try (now apply Hbot).
  destruct (hide_fields s1) as (Hn & _ & Hs & _).
  destruct (on_data_cases data s1) as [(st2 & -> & Hst2) | ->].
  - destruct Hst2 as [E | (text & E)].
    + apply addMedicalResponse_appends in E as (c & d & n & ->).
      exists (medical_node c d n).
      cbn [chatBox suggestions reset_processing set_focused set_sendBtn_disabled
           set_isProcessing appendChild set_chatBox].
      rewrite (hide_chatBox s1 T1), Hn, Hs. split; [reflexivity|].
      right. now split.
    + pose proof (addMessage_second_child _ _ _ _ L1 E) as Hsg.
      apply addMessage_appends in E as (children & _ & Hc & _).
      exists (Element "div" ["message"%string; sender_class bot] children).
      cbn [chatBox suggestions reset_processing set_focused set_sendBtn_disabled
           set_isProcessing].
      rewrite Hc, (hide_chatBox s1 T1), Hn. split; [reflexivity|].
      left. now split.
  - apply Hbot; [now apply tidy_hide | exact (turns_hide s1 T1) | exact Hn].
Qed.

Lemma bubbles_after_reply_witness :
  suggestions (step (run [Input (js "hi"); ClickSend] (init bare_page))
                 (Settle (Rejected []))) = None.
Proof.
  assert (H1 : no_placeholder bare_page) by reflexivity.
  assert (Q1 : forallb quiet [Input (js "hi"); ClickSend] = true) by reflexivity.
  assert (Q2 : quiet (Settle (Rejected [])) = true) by reflexivity.
  assert (H2 : (0 < pending (run [Input (js "hi"); ClickSend] (init bare_page)))%nat)
    by (vm_compute; lia).
  destruct (bubbles_after_reply bare_page [Input (js "hi"); ClickSend]
              (Rejected []) H1 Q1 Q2 H2) as (d & Hc & [[_ H] | [Hd _]]).
  - exact H.
  - exfalso. vm_compute in Hc. inversion Hc. subst d. vm_compute in Hd.
    discriminate.
Defined.

End Helpers.

(* ----------------------------------------------------------------- *)
(** ** The formatting at its edges *)

Section FormattingEdges.

Lemma lazy_until_star_none (g : jsstring) :
  ~ In star g -> lazy_until_star g = None.
Proof.
  induction g as [|a g IH]; [reflexivity|]. intros H. simpl.
  destruct (N.eqb_spec a star) as [-> | _]; [exfalso; apply H; now left|].
  destruct (is_line_terminator a); [reflexivity|].
  rewrite IH; [reflexivity | intros G; apply H; now right].
Qed.

Lemma lazy_until_stars_none (g : jsstring) :
  ~ In star g -> lazy_until_stars g = None.
Proof.
  induction g as [|a g IH]; [reflexivity|]. intros H.
  cbn [lazy_until_stars]. destruct g as [|b rest]; [reflexivity|].
  destruct (N.eqb_spec a star) as [-> | _]; [exfalso; apply H; now left|].
  cbn [andb]. destruct (is_line_terminator a); [reflexivity|].
  rewrite IH; [reflexivity | intros G; apply H; now right].
Qed.

(** The atom [.] does not cross a line terminator. *)
Lemma lazy_until_star_blocked (g r : jsstring) (c : char) :
  ~ In star g -> is_line_terminator c = true ->
  lazy_until_star (g ++ c :: r) = None.
Proof.
  intros Hg Hc. induction g as [|a g IH]; simpl.
  - destruct (N.eqb_spec c star) as [-> | _]; [discriminate|]. now rewrite Hc.
  - destruct (N.eqb_spec a star) as [-> | _]; [exfalso; apply Hg; now left|].
    destruct (is_line_terminator a); [reflexivity|].
    rewrite IH; [reflexivity | intros G; apply Hg; now right].
Qed.

Lemma has_double_star_starless (g : jsstring) :
  ~ In star g -> has_double_star g = false.
Proof.
  induction g as [|a g IH]; [reflexivity|]. intros H.
  cbn [has_double_star]. destruct g as [|b rest]; [reflexivity|].
  assert (Ha : (a =? star) = false).
  { apply N.eqb_neq. intros ->. apply H. now left. }
  rewrite Ha. cbn [andb orb]. apply IH. intros G. apply H. now right.
Qed.

Lemma has_double_star_lead (g : jsstring) :
  ~ In star g -> has_double_star (star :: g) = false.
Proof.
  intros H. cbn [has_double_star]. destruct g as [|a g']; [reflexivity|].
  assert (Ha : (a =? star) = false).
  { apply N.eqb_neq. intros ->. apply H. now left. }
  rewrite Ha, andb_false_r. cbn [orb].
  now apply (has_double_star_starless (a :: g')).
Qed.

Lemma replace_em_copy (c : char) (tl : jsstring) :
  match_em (c :: tl) = None -> replace_em (c :: tl) = c :: replace_em tl.
Proof. apply (replace_group_copy match_em). Qed.

Lemma replace_strong_copy (c : char) (tl : jsstring) :
  match_strong (c :: tl) = None ->
  replace_strong (c :: tl) = c :: replace_strong tl.
Proof. apply (replace_group_copy match_strong). Qed.

(** Both scans copy a stretch without star as it is. *)
Lemma replace_em_skip (g rest : jsstring) :
  ~ In star g -> replace_em (g ++ rest) = g ++ replace_em rest.
Proof.
  induction g as [|a g IH]; [reflexivity|]. intros H.
  change ((a :: g) ++ rest) with (a :: (g ++ rest)).
  rewrite replace_em_copy.
  - simpl. f_equal. apply IH. intros G. apply H. now right.
  - simpl. destruct (N.eqb_spec a star) as [-> | _];
      [exfalso; apply H; now left | reflexivity].
Qed.

Lemma replace_strong_skip (g rest : jsstring) :
  ~ In star g -> replace_strong (g ++ rest) = g ++ replace_strong rest.
Proof.
  induction g as [|a g IH]; [reflexivity|]. intros H.
  change ((a :: g) ++ rest) with (a :: (g ++ rest)).
  rewrite replace_strong_copy.
  - simpl. f_equal. apply IH. intros G. apply H. now right.
  - unfold match_strong. destruct (g ++ rest); [reflexivity|].
    destruct (N.eqb_spec a star) as [-> | _];
      [exfalso; apply H; now left | reflexivity].
Qed.

Lemma plain_line_free (s : jsstring) :
  plain_line s = true ->
  ~ In star s /\ ~ In newline s /\ escape s = s /\
  forallb (fun c => negb (is_line_terminator c)) s = true.
Proof.
  induction s as [|c tl IH]; [now splits|]. intros H. simpl in H.
  apply andb_true_iff in H as [Hc Htl]. destruct (IH Htl) as (H1 & H2 & H3 & H4).
  repeat rewrite andb_true_iff in Hc. repeat rewrite negb_true_iff in Hc.
  destruct Hc as (((((Hl & Hs) & Ha) & Hn) & Hlt) & Hgt).
  splits.
  - intros [E | E]; [subst c; discriminate | tauto].
  - intros [E | E]; [subst c; discriminate | tauto].
  - change (escape (c :: tl)) with (escape_char c ++ escape tl).
    rewrite H3. unfold escape_char. now rewrite Ha, Hn, Hlt, Hgt.
  - simpl. now rewrite Hl, H4.
Qed.

Lemma replace_bullets_mid_line (s : jsstring) :
  forallb (fun c => negb (is_line_terminator c)) s = true ->
  replace_bullets false s = s.
Proof.
  induction s as [|c tl IH]; [reflexivity|]. intros H. simpl in H.
  apply andb_true_iff in H as [Hc Htl]. apply negb_true_iff in Hc.
  destruct tl as [|d rest]; [reflexivity|].
  rewrite replace_bullets_step. cbn [andb]. rewrite Hc. f_equal. now apply IH.
Qed.

(** X16 — A reply on one line that holds no star and no character the
    serialisation escapes, and that does not begin with the list marker, is
    rendered exactly as it is: a hyphen inside a line is not a bullet. *)
Theorem plain_line_is_rendered_as_is (s : jsstring) :
  plain_line s = true -> opens_item s = false -> render_text s = s.
Proof.
  intros Hs Ho. destruct (plain_line_free s Hs) as (H1 & H2 & H3 & H4).
  unfold render_text, format_markdown.
  rewrite H3, (replace_strong_starless s H1), (replace_em_starless s H1).
  assert (E : replace_bullets true s = s).
  { destruct s as [|c [|d rest]]; [reflexivity | reflexivity |].
    rewrite replace_bullets_step. cbn [andb]. cbn [opens_item] in Ho. rewrite Ho.
    simpl in H4. apply andb_true_iff in H4 as [Hc Htl].
    apply negb_true_iff in Hc. rewrite Hc. f_equal.
    now apply replace_bullets_mid_line. }
  rewrite E. now apply replace_newlines_none.
Qed.

Lemma plain_line_is_rendered_as_is_witness :
  render_text (js "check-up at 5 - bring notes") = js "check-up at 5 - bring notes".
Proof.
  apply plain_line_is_rendered_as_is; reflexivity.
Defined.

(** X17 — Markers without a partner: a single star stays a star; an
    opening [**] that is never closed is taken for an emphasis around
    nothing and becomes an empty [em] element; and a pair of stars that a
    newline separates is not an emphasis, since the lazy [.] stops at the
    line terminator. *)
Theorem unpaired_markers (g h : jsstring) :
  forallb ordinary g = true -> forallb ordinary h = true ->
  render_text (js "*" ++ g) = js "*" ++ g /\
  render_text (js "**" ++ g) = js "<em></em>" ++ g /\
  render_text (js "*" ++ g ++ [newline] ++ h ++ js "*") =
    js "*" ++ g ++ js "<br>" ++ h ++ js "*".
Proof.
  intros Hg Hh.
  destruct (ordinary_free g Hg) as (Gs & Gh & Gn & Gl).
  destruct (ordinary_free h Hh) as (Hs & Hy & Hn & Hl).
  assert (M1 : forall x, match_strong (star :: g ++ x) = None \/ g = []).
  { intros x. destruct g as [|a g']; [now right | left].
    unfold match_strong. cbn [app].
    destruct (N.eqb_spec a star) as [-> | _]; [exfalso; apply Gs; now left|].
    reflexivity. }
  unfold render_text, format_markdown. splits.
  - rewrite escape_app, (escape_ordinary g Hg).
    change (escape (js "*") ++ g) with (star :: g).
    assert (E1 : replace_strong (star :: g) = star :: g).
    { now apply replace_strong_no_double, has_double_star_lead. }
    rewrite E1, replace_em_copy;
      [|simpl; now apply lazy_until_star_none].
    rewrite (replace_em_starless g Gs).
    rewrite replace_bullets_no_hyphen, replace_newlines_none; try reflexivity;
      intros [E | E]; try discriminate; tauto.
  - rewrite escape_app, (escape_ordinary g Hg).
    change (escape (js "**") ++ g) with (star :: star :: g).
    assert (E1 : replace_strong (star :: star :: g) = star :: star :: g).
    { rewrite replace_strong_copy;
        [|simpl; now apply lazy_until_stars_none].
      f_equal. destruct (M1 []) as [K | ->]; [|reflexivity].
      rewrite app_nil_r in K. rewrite (replace_strong_copy _ _ K).
      now rewrite (replace_strong_starless g Gs). }
    rewrite E1.
    change (star :: star :: g) with (star :: [] ++ star :: g).
    rewrite (replace_em_wraps [] g eq_refl), (replace_em_starless g Gs).
    rewrite replace_bullets_no_hyphen, replace_newlines_none; try reflexivity;
      cbn [app]; intros E; repeat (destruct E as [E | E]; try discriminate);
      tauto.
  - rewrite !escape_app, (escape_ordinary g Hg), (escape_ordinary h Hh).
    change (escape (js "*")) with [star]. change (escape [newline]) with [newline].
    change ([star] ++ g ++ [newline] ++ h ++ [star])
      with (star :: g ++ newline :: h ++ [star]).
    assert (E1 : replace_strong (star :: g ++ newline :: h ++ [star]) =
                 star :: g ++ newline :: h ++ [star]).
    { assert (K : match_strong (star :: g ++ newline :: h ++ [star]) = None).
      { destruct (M1 (newline :: h ++ [star])) as [K | ->]; [exact K | reflexivity]. }
      rewrite (replace_strong_copy _ _ K). f_equal.
      rewrite (replace_strong_skip g _ Gs). f_equal.
      rewrite replace_strong_copy; [|destruct (h ++ [star]); reflexivity].
      f_equal. rewrite (replace_strong_skip h _ Hs). reflexivity. }
    assert (E2 : replace_em (star :: g ++ newline :: h ++ [star]) =
                 star :: g ++ newline :: h ++ [star]).
    { rewrite replace_em_copy;
        [|simpl; now apply lazy_until_star_blocked].
      f_equal. rewrite (replace_em_skip g _ Gs). f_equal.
      rewrite replace_em_copy; [|reflexivity].
      f_equal. rewrite (replace_em_skip h _ Hs). reflexivity. }
    rewrite E1, E2.
    rewrite replace_bullets_no_hyphen.
    + change (star :: g ++ newline :: h ++ [star])
        with ([star] ++ g ++ [newline] ++ h ++ [star]).
      rewrite !replace_newlines_app, (replace_newlines_none g Gn),
        (replace_newlines_none h Hn).
      reflexivity.
    + intros [E | E]; [discriminate|].
      apply in_app_iff in E as [E | [E | E]]; [tauto | discriminate|].
      apply in_app_iff in E as [E | [E | []]]; [tauto | discriminate].
Qed.

Lemma unpaired_markers_witness :
  render_text (js "**" ++ js "bold") = js "<em></em>" ++ js "bold".
Proof.
  exact (proj1 (proj2 (unpaired_markers (js "bold") (js "x") eq_refl eq_refl))).
Defined.

(** X18 — The substitutions run one after the other on the whole text, so
    their tags can interleave: three stars around a word give a [strong]
    element that the following [em] element overlaps instead of nesting in
    it. *)
Theorem triple_stars_interleave_tags (g : jsstring) :
  forallb ordinary g = true -> g <> [] ->
  replace_strong (js "***" ++ g ++ js "***") =
    js "<strong>*" ++ g ++ js "</strong>*" /\
  render_text (js "***" ++ g ++ js "***") =
    js "<strong><em>" ++ g ++ js "</strong></em>" /\
  safe_markup (render_text (js "***" ++ g ++ js "***")).
Proof.
  intros Hg Hne. destruct (ordinary_free g Hg) as (Gs & Gh & Gn & Gl).
  assert (E1 : replace_strong (js "***" ++ g ++ js "***") =
               js "<strong>*" ++ g ++ js "</strong>*").
  { unfold replace_strong.
    rewrite (replace_group_match match_strong _ _ match_strong_shape
               (js "***" ++ g ++ js "***") (star :: g) [star]).
    - reflexivity.
    - change (js "***" ++ g ++ js "***")
        with (star :: star :: star :: g ++ star :: star :: [star]).
      unfold match_strong. cbn [N.eqb andb].
      replace (star =? star) with true by reflexivity. cbn [andb].
      pose proof (lazy_until_stars_complete g [star] Gl) as K.
      destruct g as [|a g']; [congruence|].
      change (star :: (a :: g') ++ star :: star :: [star])
        with (star :: a :: (g' ++ star :: star :: [star])).
      change ((a :: g') ++ star :: star :: [star])
        with (a :: (g' ++ star :: star :: [star])) in K.
      cbn [lazy_until_stars]. cbn [lazy_until_stars] in K.
      destruct (N.eqb_spec a star) as [-> | _]; [exfalso; apply Gs; now left|].
      replace (star =? star) with true by reflexivity.
      cbn [andb]. change (is_line_terminator star) with false. cbv iota.
      cbn [andb] in K. rewrite K. reflexivity. }
  assert (E2 : render_text (js "***" ++ g ++ js "***") =
               js "<strong><em>" ++ g ++ js "</strong></em>").
  { unfold render_text, format_markdown.
    rewrite !escape_app, (escape_ordinary g Hg).
    change (escape (js "***")) with (js "***"). rewrite E1.
    change (js "<strong>*" ++ g ++ js "</strong>*")
      with (js "<strong>" ++ star :: g ++ js "</strong>" ++ star :: []).
    rewrite replace_em_skip by (simpl; intuition discriminate).
    rewrite app_assoc, (replace_em_wraps (g ++ js "</strong>") []).
    - change (replace_em []) with (@nil char).
      rewrite replace_bullets_no_hyphen, replace_newlines_none.
      + rewrite <- !app_assoc. reflexivity.
      + intros E. repeat (apply in_app_iff in E as [E | E]);
          try tauto; simpl in E; intuition discriminate.
      + intros E. repeat (apply in_app_iff in E as [E | E]);
          try tauto; simpl in E; intuition discriminate.
    - unfold starless. rewrite forallb_app.
      apply andb_true_iff. split; [exact Gl | reflexivity]. }
  splits; [exact E1 | exact E2|].
  apply format_markdown_safe, escape_safe.
Qed.

Lemma triple_stars_interleave_tags_witness :
  render_text (js "***" ++ js "a" ++ js "***") =
  js "<strong><em>" ++ js "a" ++ js "</strong></em>".
Proof.
  assert (H : js "a" <> []) by discriminate.
  exact (proj1 (proj2 (triple_stars_interleave_tags (js "a") eq_refl H))).
Defined.

End FormattingEdges.

(* ----------------------------------------------------------------- *)
(** ** The guard of [sendMessage] and the console *)

Section Guard.

(** X19 — [sendMessage] goes through exactly when the input holds a
    visible character and no request is in flight: in that case it
    dispatches one request, and in every other case it leaves the whole
    state as it is.  The state of the send control plays no part. *)
Theorem send_guard (st : state) :
  (sendMessage st = st <->
   blank (userInput st) = true \/ isProcessing st = true) /\
  (requests (sendMessage st) =
     requests st ++ [mkRequest (trim (userInput st))] <->
   blank (userInput st) = false /\ isProcessing st = false).
Proof.
  assert (B : is_empty (trim (userInput st)) || isProcessing st = true <->
              blank (userInput st) = true \/ isProcessing st = true).
  { rewrite is_empty_trim. apply orb_true_iff. }
  assert (N : forall l (r : request), l ++ [r] <> l).
  { intros l r E. apply (f_equal (@List.length request)) in E.
    rewrite length_app in E. simpl in E. lia. }
  split; split.
  - intros E. destruct (sendMessage_cases st) as [_ | [Hm Hp]].
    + destruct (blank (userInput st)) eqn:Hb; [now left | right].
      destruct (isProcessing st) eqn:Hi; [reflexivity|].
      assert (Hm : trim (userInput st) <> []).
      { intros K. apply trim_empty_iff in K. congruence. }
      destruct (sendMessage_dispatch st Hm Hi) as (K & _). congruence.
    + destruct (sendMessage_dispatch st Hm Hp) as (K & _). congruence.
  - intros H. apply sendMessage_blocked. now apply B.
  - intros E. destruct (sendMessage_cases st) as [K | [Hm Hp]].
    + rewrite K in E. symmetry in E. now apply N in E.
    + split; [|exact Hp]. destruct (blank (userInput st)) eqn:Hb; [|reflexivity].
      apply trim_empty_iff in Hb. contradiction.
  - intros [Hb Hi].
    assert (Hm : trim (userInput st) <> []).
    { intros K. apply trim_empty_iff in K. congruence. }
    now destruct (sendMessage_dispatch st Hm Hi) as (_ & _ & _ & K & _).
Qed.

Lemma send_guard_witness :
  sendMessage (run [Input (js "   ")] (init welcome_page)) =
  run [Input (js "   ")] (init welcome_page).
Proof.
  apply (proj2 (proj1 (send_guard (run [Input (js "   ")] (init welcome_page))))).
  left. reflexivity.
Defined.

(** X20 — Nothing but the settling of a request writes to the console, and
    it writes at most one error: typing, sending and suggestions log
    nothing. *)
Theorem only_settling_logs (st : state) (ev : event) :
  console (step st ev) = console st \/
  exists o e, ev = Settle o /\ console (step st ev) = console st ++ [e].
Proof.
  assert (Hsend : forall s, console s = console st ->
            console (sendMessage s) = console st).
  { intros s Hs. destruct (sendMessage_cases s) as [-> | [Hm Hp]]; [exact Hs|].
    destruct (sendMessage_dispatch s Hm Hp) as (_ & _ & _ & _ & _ & K & _).
    now rewrite K. }
  destruct ev as [v| |enter shift|text| |o]; cbn [step].
  - now left.
  - left. destruct (sendBtn_disabled st); [reflexivity | now apply Hsend].
  - left. destruct (enter && negb shift); [now apply Hsend | reflexivity].
  - left. now apply Hsend.
  - now left.
  - destruct (pending st) as [|q]; [now left|].
    set (s1 := set_network (requests st) q st).
    assert (Herr : forall e s, console s = console st ->
              exists o' e', Settle o = Settle o' /\
                console (on_error e s) = console st ++ [e']).
    { intros e s Hs. exists o, e. split; [reflexivity|].
      destruct (on_error_flags e s) as (_ & _ & _ & _ & -> & _). now rewrite Hs. }
    destruct o as [reason | [|] [|data]]; cbn [settle];
      try (right; now apply Herr).
    destruct (hide_fields s1) as (_ & _ & _ & _ & _ & _ & _ & _ & Hk).
    destruct (on_data_cases data s1) as [(st2 & -> & Hst2) | ->].
    + left. cbn [console reset_processing set_focused set_sendBtn_disabled
                 set_isProcessing].
      destruct Hst2 as [E | (text & E)].
      * apply addMedicalResponse_appends in E as (c & d & n & ->). exact Hk.
      * apply addMessage_flags in E as (_ & _ & _ & _ & _ & -> & _). exact Hk.
    + right. apply Herr. exact Hk.
Qed.

End Guard.
